(** * MRI-EnvLogger: the publishing pipeline of [MRI-EnvLogger.py]

    A shallow embedding of the record store, the dashboard generator, the
    tool resolver and the surge dispatcher, with the properties of the
    specification stated over it.

    A Python [str] is held as the [string] of the bytes of its UTF-8
    encoding; Python [int] as [Z]; dictionaries as [gmap]. *)

From Stdlib Require Import ZArith Lia Bool Ascii String DecimalString.
From stdpp Require Import base decidable option list sorting gmap strings.

Local Open Scope string_scope.
Local Open Scope list_scope.
Local Open Scope Z_scope.

(** ** Python string primitives used by the program *)

Module PyStr.

(** [str.lower] on the ASCII letters. *)
Definition lower_ascii (c : ascii) : ascii :=
  let n := N_of_ascii c in
  if ((65 <=? n) && (n <=? 90))%N then ascii_of_N (n + 32) else c.

Fixpoint lower (s : string) : string :=
  match s with
  | EmptyString => EmptyString
  | String c s' => String (lower_ascii c) (lower s')
  end.

(** [needle in hay]. *)
Fixpoint contains (needle hay : string) : bool :=
  String.prefix needle hay ||
  match hay with
  | EmptyString => false
  | String _ hay' => contains needle hay'
  end.

(** [str(n)] for an [int]. *)
Definition of_int (n : Z) : string := NilZero.string_of_int (Z.to_int n).

(** [s.startswith(p)]. *)
Definition startswith (p s : string) : bool := String.prefix p s.

(** Truthiness of a string: [if s:]. *)
Definition truthy (s : string) : bool := negb (String.eqb s "").

(** [''.join(l)]. *)
Definition join (l : list string) : string := String.concat "" l.

End PyStr.

(** ** Exceptions and the effect monad

    [exn] stands for the subclasses of Python's [Exception] the program can
    meet.  A computation threads a value of state type [S] and either
    returns or raises. *)

Inductive exn :=
  | TimeoutExpired
  | FileNotFoundError
  | NameError
  | RuntimeError (msg : string)
  | ValueError (msg : string)
  | TypeError (msg : string)
  | OverflowError (msg : string)
  | OSError (msg : string)
  | IntegrityError (msg : string)
  | OperationalError (msg : string)   (* sqlite3.OperationalError *)
  | DatabaseError (msg : string).     (* sqlite3.DatabaseError itself *)

(** [str(e)]. *)
Definition exn_str (e : exn) : string :=
  match e with
  | TimeoutExpired => "Command timed out"
  | FileNotFoundError => "[Errno 2] No such file or directory"
  | NameError => "name 'proc' is not defined"
  | RuntimeError m | ValueError m | TypeError m | OverflowError m | OSError m
  | IntegrityError m | OperationalError m | DatabaseError m => m
  end.

Definition M (S A : Type) : Type := S → (exn + A) * S.

Definition ret {S A} (a : A) : M S A := λ s, (inr a, s).
Definition raise {S A} (e : exn) : M S A := λ s, (inl e, s).
Definition bind {S A B} (m : M S A) (k : A → M S B) : M S B :=
  λ s, match m s with
       | (inr a, s') => k a s'
       | (inl e, s') => (inl e, s')
       end.
(** [try: m  except Exception as e: ...] with the outcome made a value. *)
Definition attempt {S A} (m : M S A) : M S (exn + A) :=
  λ s, let '(r, s') := m s in (inr r, s').
Definition get {S} : M S S := λ s, (inr s, s).
Definition put {S} (s : S) : M S unit := λ _, (inr tt, s).

Global Instance M_ret {S} : MRet (M S) := λ A, @ret S A.
Global Instance M_bind {S} : MBind (M S) := λ A B k m, @bind S A B m k.

(** ** Characters of a Python [str]

    A string of the program is held as the bytes of its UTF-8 encoding.
    The operations of [str] that count or classify characters ([len],
    slicing, [strip], [float], [repr]) work on code points: [chars] reads
    the bytes as the characters they encode.  The character tables are
    those of Unicode 14.0, the version of CPython 3.11. *)

Module Unicode.

(** A character: its code point and the bytes that encode it. *)
Definition char : Type := N * string.

Definition code (c : char) : N := c.1.

(** The bytes of a list of characters. *)
Definition bytes (l : list char) : string :=
  fold_right (λ c rest, c.2 +:+ rest) EmptyString l.

(** A byte sequence that is not the encoding of a character is read byte
    by byte; the codes given to such bytes are those of lone surrogates,
    which no character of a [str] read from UTF-8 has. *)
Definition stray (b : ascii) : char := (56320 + N_of_ascii b, String b EmptyString)%N.

Definition strays (bs : string) : list char := map stray (list_ascii_of_string bs).

(** The state of the decoder inside a character of several bytes: the
    bits read, the number of continuation bytes still due, and the bytes
    read so far. *)
Record partial := Partial { p_code : N; p_need : nat; p_bytes : string }.

(** The bytes a decoder state has read. *)
Definition pending (p : option partial) : string :=
  match p with Some q => p_bytes q | None => EmptyString end.

(** The range of the byte that may follow: a continuation byte, and after
    the first byte of a character of three or four bytes only one that
    makes neither an overlong form, nor a surrogate, nor a code above
    U+10FFFF. *)
Definition next_range (q : partial) : N * N :=
  match p_bytes q with
  | String b EmptyString =>
      let n := N_of_ascii b in
      (if n =? 224 then (160, 191)
       else if n =? 237 then (128, 159)
       else if n =? 240 then (144, 191)
       else if n =? 244 then (128, 143)
       else (128, 191))%N
  | _ => (128, 191)%N
  end.

Definition continues (q : partial) (b : ascii) : bool :=
  (((next_range q).1 <=? N_of_ascii b) && (N_of_ascii b <=? (next_range q).2))%N.

(** The first byte of a character. *)
Definition start (b : ascii) : list char + partial :=
  let n := N_of_ascii b in
  (if n <? 128 then inl [(n, String b EmptyString)]
   else if (194 <=? n) && (n <? 224) then inr (Partial (n - 192) 1 (String b EmptyString))
   else if (224 <=? n) && (n <? 240) then inr (Partial (n - 224) 2 (String b EmptyString))
   else if (240 <=? n) && (n <? 245) then inr (Partial (n - 240) 3 (String b EmptyString))
   else inl [stray b])%N.

Fixpoint decode (p : option partial) (s : string) : list char :=
  match s with
  | EmptyString =>
      match p with Some q => strays (p_bytes q) | None => [] end
  | String b s' =>
      let restart (before : list char) :=
        match start b with
        | inl cs => before ++ cs ++ decode None s'
        | inr q => before ++ decode (Some q) s'
        end in
      match p with
      | None => restart []
      | Some q =>
          if continues q b then
            let c := (p_code q * 64 + (N_of_ascii b - 128))%N in
            let bs := p_bytes q +:+ String b EmptyString in
            match p_need q with
            | 0%nat | 1%nat => (c, bs) :: decode None s'
            | S k => decode (Some (Partial c k bs)) s'
            end
          else restart (strays (p_bytes q))
      end
  end.

(** The characters of a string. *)
Definition chars (s : string) : list char := decode None s.

Definition in_ranges (table : list (N * N)) (n : N) : bool :=
  existsb (λ r, (r.1 <=? n) && (n <=? r.2))%N table.

(** [str.isspace] of a character, which is also [\s] of [re]. *)
Definition SPACE : list (N * N) :=
  [
   (9, 13); (28, 32); (133, 133); (160, 160); (5760, 5760); (8192, 8202);
   (8232, 8233); (8239, 8239); (8287, 8287); (12288, 12288)
  ]%N.

Definition isspace (n : N) : bool := in_ranges SPACE n.

(** The characters of category Nd come in runs of ten, zero to nine:
    the code points of the zeros. *)
Definition ZEROS : list N :=
  [
   48; 1632; 1776; 1984; 2406; 2534; 2662; 2790; 2918; 3046;
   3174; 3302; 3430; 3558; 3664; 3792; 3872; 4160; 4240; 6112;
   6160; 6470; 6608; 6784; 6800; 6992; 7088; 7232; 7248; 42528;
   43216; 43264; 43472; 43504; 43600; 44016; 65296; 66720; 68912; 69734;
   69872; 69942; 70096; 70384; 70736; 70864; 71248; 71360; 71472; 71904;
   72016; 72784; 73040; 73120; 92768; 92864; 93008; 120782; 120792; 120802;
   120812; 120822; 123200; 123632; 125264; 130032
  ]%N.

(** The value of a decimal digit ([str.isdecimal], [\d] of [re]). *)
Definition decimal (n : N) : option N :=
  match filter (λ z, z ≤ n < z + 10)%N ZEROS with
  | z :: _ => Some (n - z)%N
  | [] => None
  end.

(** The characters above U+007F that [str.isprintable] refuses. *)
Definition NOT_PRINTABLE : list (N * N) :=
  [
   (128, 160); (173, 173); (888, 889); (896, 899); (907, 907); (909, 909);
   (930, 930); (1328, 1328); (1367, 1368); (1419, 1420); (1424, 1424); (1480, 1487);
   (1515, 1518); (1525, 1541); (1564, 1564); (1757, 1757); (1806, 1807); (1867, 1868);
   (1970, 1983); (2043, 2044); (2094, 2095); (2111, 2111); (2140, 2141); (2143, 2143);
   (2155, 2159); (2191, 2199); (2274, 2274); (2436, 2436); (2445, 2446); (2449, 2450);
   (2473, 2473); (2481, 2481); (2483, 2485); (2490, 2491); (2501, 2502); (2505, 2506);
   (2511, 2518); (2520, 2523); (2526, 2526); (2532, 2533); (2559, 2560); (2564, 2564);
   (2571, 2574); (2577, 2578); (2601, 2601); (2609, 2609); (2612, 2612); (2615, 2615);
   (2618, 2619); (2621, 2621); (2627, 2630); (2633, 2634); (2638, 2640); (2642, 2648);
   (2653, 2653); (2655, 2661); (2679, 2688); (2692, 2692); (2702, 2702); (2706, 2706);
   (2729, 2729); (2737, 2737); (2740, 2740); (2746, 2747); (2758, 2758); (2762, 2762);
   (2766, 2767); (2769, 2783); (2788, 2789); (2802, 2808); (2816, 2816); (2820, 2820);
   (2829, 2830); (2833, 2834); (2857, 2857); (2865, 2865); (2868, 2868); (2874, 2875);
   (2885, 2886); (2889, 2890); (2894, 2900); (2904, 2907); (2910, 2910); (2916, 2917);
   (2936, 2945); (2948, 2948); (2955, 2957); (2961, 2961); (2966, 2968); (2971, 2971);
   (2973, 2973); (2976, 2978); (2981, 2983); (2987, 2989); (3002, 3005); (3011, 3013);
   (3017, 3017); (3022, 3023); (3025, 3030); (3032, 3045); (3067, 3071); (3085, 3085);
   (3089, 3089); (3113, 3113); (3130, 3131); (3141, 3141); (3145, 3145); (3150, 3156);
   (3159, 3159); (3163, 3164); (3166, 3167); (3172, 3173); (3184, 3190); (3213, 3213);
   (3217, 3217); (3241, 3241); (3252, 3252); (3258, 3259); (3269, 3269); (3273, 3273);
   (3278, 3284); (3287, 3292); (3295, 3295); (3300, 3301); (3312, 3312); (3315, 3327);
   (3341, 3341); (3345, 3345); (3397, 3397); (3401, 3401); (3408, 3411); (3428, 3429);
   (3456, 3456); (3460, 3460); (3479, 3481); (3506, 3506); (3516, 3516); (3518, 3519);
   (3527, 3529); (3531, 3534); (3541, 3541); (3543, 3543); (3552, 3557); (3568, 3569);
   (3573, 3584); (3643, 3646); (3676, 3712); (3715, 3715); (3717, 3717); (3723, 3723);
   (3748, 3748); (3750, 3750); (3774, 3775); (3781, 3781); (3783, 3783); (3790, 3791);
   (3802, 3803); (3808, 3839); (3912, 3912); (3949, 3952); (3992, 3992); (4029, 4029);
   (4045, 4045); (4059, 4095); (4294, 4294); (4296, 4300); (4302, 4303); (4681, 4681);
   (4686, 4687); (4695, 4695); (4697, 4697); (4702, 4703); (4745, 4745); (4750, 4751);
   (4785, 4785); (4790, 4791); (4799, 4799); (4801, 4801); (4806, 4807); (4823, 4823);
   (4881, 4881); (4886, 4887); (4955, 4956); (4989, 4991); (5018, 5023); (5110, 5111);
   (5118, 5119); (5760, 5760); (5789, 5791); (5881, 5887); (5910, 5918); (5943, 5951);
   (5972, 5983); (5997, 5997); (6001, 6001); (6004, 6015); (6110, 6111); (6122, 6127);
   (6138, 6143); (6158, 6158); (6170, 6175); (6265, 6271); (6315, 6319); (6390, 6399);
   (6431, 6431); (6444, 6447); (6460, 6463); (6465, 6467); (6510, 6511); (6517, 6527);
   (6572, 6575); (6602, 6607); (6619, 6621); (6684, 6685); (6751, 6751); (6781, 6782);
   (6794, 6799); (6810, 6815); (6830, 6831); (6863, 6911); (6989, 6991); (7039, 7039);
   (7156, 7163); (7224, 7226); (7242, 7244); (7305, 7311); (7355, 7356); (7368, 7375);
   (7419, 7423); (7958, 7959); (7966, 7967); (8006, 8007); (8014, 8015); (8024, 8024);
   (8026, 8026); (8028, 8028); (8030, 8030); (8062, 8063); (8117, 8117); (8133, 8133);
   (8148, 8149); (8156, 8156); (8176, 8177); (8181, 8181); (8191, 8207); (8232, 8239);
   (8287, 8303); (8306, 8307); (8335, 8335); (8349, 8351); (8385, 8399); (8433, 8447);
   (8588, 8591); (9255, 9279); (9291, 9311); (11124, 11125); (11158, 11158); (11508, 11512);
   (11558, 11558); (11560, 11564); (11566, 11567); (11624, 11630); (11633, 11646); (11671, 11679);
   (11687, 11687); (11695, 11695); (11703, 11703); (11711, 11711); (11719, 11719); (11727, 11727);
   (11735, 11735); (11743, 11743); (11870, 11903); (11930, 11930); (12020, 12031); (12246, 12271);
   (12284, 12288); (12352, 12352); (12439, 12440); (12544, 12548); (12592, 12592); (12687, 12687);
   (12772, 12783); (12831, 12831); (42125, 42127); (42183, 42191); (42540, 42559); (42744, 42751);
   (42955, 42959); (42962, 42962); (42964, 42964); (42970, 42993); (43053, 43055); (43066, 43071);
   (43128, 43135); (43206, 43213); (43226, 43231); (43348, 43358); (43389, 43391); (43470, 43470);
   (43482, 43485); (43519, 43519); (43575, 43583); (43598, 43599); (43610, 43611); (43715, 43738);
   (43767, 43776); (43783, 43784); (43791, 43792); (43799, 43807); (43815, 43815); (43823, 43823);
   (43884, 43887); (44014, 44015); (44026, 44031); (55204, 55215); (55239, 55242); (55292, 63743);
   (64110, 64111); (64218, 64255); (64263, 64274); (64280, 64284); (64311, 64311); (64317, 64317);
   (64319, 64319); (64322, 64322); (64325, 64325); (64451, 64466); (64912, 64913); (64968, 64974);
   (64976, 65007); (65050, 65055); (65107, 65107); (65127, 65127); (65132, 65135); (65141, 65141);
   (65277, 65280); (65471, 65473); (65480, 65481); (65488, 65489); (65496, 65497); (65501, 65503);
   (65511, 65511); (65519, 65531); (65534, 65535); (65548, 65548); (65575, 65575); (65595, 65595);
   (65598, 65598); (65614, 65615); (65630, 65663); (65787, 65791); (65795, 65798); (65844, 65846);
   (65935, 65935); (65949, 65951); (65953, 65999); (66046, 66175); (66205, 66207); (66257, 66271);
   (66300, 66303); (66340, 66348); (66379, 66383); (66427, 66431); (66462, 66462); (66500, 66503);
   (66518, 66559); (66718, 66719); (66730, 66735); (66772, 66775); (66812, 66815); (66856, 66863);
   (66916, 66926); (66939, 66939); (66955, 66955); (66963, 66963); (66966, 66966); (66978, 66978);
   (66994, 66994); (67002, 67002); (67005, 67071); (67383, 67391); (67414, 67423); (67432, 67455);
   (67462, 67462); (67505, 67505); (67515, 67583); (67590, 67591); (67593, 67593); (67638, 67638);
   (67641, 67643); (67645, 67646); (67670, 67670); (67743, 67750); (67760, 67807); (67827, 67827);
   (67830, 67834); (67868, 67870); (67898, 67902); (67904, 67967); (68024, 68027); (68048, 68049);
   (68100, 68100); (68103, 68107); (68116, 68116); (68120, 68120); (68150, 68151); (68155, 68158);
   (68169, 68175); (68185, 68191); (68256, 68287); (68327, 68330); (68343, 68351); (68406, 68408);
   (68438, 68439); (68467, 68471); (68498, 68504); (68509, 68520); (68528, 68607); (68681, 68735);
   (68787, 68799); (68851, 68857); (68904, 68911); (68922, 69215); (69247, 69247); (69290, 69290);
   (69294, 69295); (69298, 69375); (69416, 69423); (69466, 69487); (69514, 69551); (69580, 69599);
   (69623, 69631); (69710, 69713); (69750, 69758); (69821, 69821); (69827, 69839); (69865, 69871);
   (69882, 69887); (69941, 69941); (69960, 69967); (70007, 70015); (70112, 70112); (70133, 70143);
   (70162, 70162); (70207, 70271); (70279, 70279); (70281, 70281); (70286, 70286); (70302, 70302);
   (70314, 70319); (70379, 70383); (70394, 70399); (70404, 70404); (70413, 70414); (70417, 70418);
   (70441, 70441); (70449, 70449); (70452, 70452); (70458, 70458); (70469, 70470); (70473, 70474);
   (70478, 70479); (70481, 70486); (70488, 70492); (70500, 70501); (70509, 70511); (70517, 70655);
   (70748, 70748); (70754, 70783); (70856, 70863); (70874, 71039); (71094, 71095); (71134, 71167);
   (71237, 71247); (71258, 71263); (71277, 71295); (71354, 71359); (71370, 71423); (71451, 71452);
   (71468, 71471); (71495, 71679); (71740, 71839); (71923, 71934); (71943, 71944); (71946, 71947);
   (71956, 71956); (71959, 71959); (71990, 71990); (71993, 71994); (72007, 72015); (72026, 72095);
   (72104, 72105); (72152, 72153); (72165, 72191); (72264, 72271); (72355, 72367); (72441, 72703);
   (72713, 72713); (72759, 72759); (72774, 72783); (72813, 72815); (72848, 72849); (72872, 72872);
   (72887, 72959); (72967, 72967); (72970, 72970); (73015, 73017); (73019, 73019); (73022, 73022);
   (73032, 73039); (73050, 73055); (73062, 73062); (73065, 73065); (73103, 73103); (73106, 73106);
   (73113, 73119); (73130, 73439); (73465, 73647); (73649, 73663); (73714, 73726); (74650, 74751);
   (74863, 74863); (74869, 74879); (75076, 77711); (77811, 77823); (78895, 82943); (83527, 92159);
   (92729, 92735); (92767, 92767); (92778, 92781); (92863, 92863); (92874, 92879); (92910, 92911);
   (92918, 92927); (92998, 93007); (93018, 93018); (93026, 93026); (93048, 93052); (93072, 93759);
   (93851, 93951); (94027, 94030); (94088, 94094); (94112, 94175); (94181, 94191); (94194, 94207);
   (100344, 100351); (101590, 101631); (101641, 110575); (110580, 110580); (110588, 110588); (110591, 110591);
   (110883, 110927); (110931, 110947); (110952, 110959); (111356, 113663); (113771, 113775); (113789, 113791);
   (113801, 113807); (113818, 113819); (113824, 118527); (118574, 118575); (118599, 118607); (118724, 118783);
   (119030, 119039); (119079, 119080); (119155, 119162); (119275, 119295); (119366, 119519); (119540, 119551);
   (119639, 119647); (119673, 119807); (119893, 119893); (119965, 119965); (119968, 119969); (119971, 119972);
   (119975, 119976); (119981, 119981); (119994, 119994); (119996, 119996); (120004, 120004); (120070, 120070);
   (120075, 120076); (120085, 120085); (120093, 120093); (120122, 120122); (120127, 120127); (120133, 120133);
   (120135, 120137); (120145, 120145); (120486, 120487); (120780, 120781); (121484, 121498); (121504, 121504);
   (121520, 122623); (122655, 122879); (122887, 122887); (122905, 122906); (122914, 122914); (122917, 122917);
   (122923, 123135); (123181, 123183); (123198, 123199); (123210, 123213); (123216, 123535); (123567, 123583);
   (123642, 123646); (123648, 124895); (124903, 124903); (124908, 124908); (124911, 124911); (124927, 124927);
   (125125, 125126); (125143, 125183); (125260, 125263); (125274, 125277); (125280, 126064); (126133, 126208);
   (126270, 126463); (126468, 126468); (126496, 126496); (126499, 126499); (126501, 126502); (126504, 126504);
   (126515, 126515); (126520, 126520); (126522, 126522); (126524, 126529); (126531, 126534); (126536, 126536);
   (126538, 126538); (126540, 126540); (126544, 126544); (126547, 126547); (126549, 126550); (126552, 126552);
   (126554, 126554); (126556, 126556); (126558, 126558); (126560, 126560); (126563, 126563); (126565, 126566);
   (126571, 126571); (126579, 126579); (126584, 126584); (126589, 126589); (126591, 126591); (126602, 126602);
   (126620, 126624); (126628, 126628); (126634, 126634); (126652, 126703); (126706, 126975); (127020, 127023);
   (127124, 127135); (127151, 127152); (127168, 127168); (127184, 127184); (127222, 127231); (127406, 127461);
   (127491, 127503); (127548, 127551); (127561, 127567); (127570, 127583); (127590, 127743); (128728, 128732);
   (128749, 128751); (128765, 128767); (128884, 128895); (128985, 128991); (129004, 129007); (129009, 129023);
   (129036, 129039); (129096, 129103); (129114, 129119); (129160, 129167); (129198, 129199); (129202, 129279);
   (129620, 129631); (129646, 129647); (129653, 129655); (129661, 129663); (129671, 129679); (129709, 129711);
   (129723, 129727); (129734, 129743); (129754, 129759); (129768, 129775); (129783, 129791); (129939, 129939);
   (129995, 130031); (130042, 131071); (173792, 173823); (177977, 177983); (178206, 178207); (183970, 183983);
   (191457, 194559); (195102, 196607); (201547, 917759); (918000, 1114111)
  ]%N.

Definition isprintable (n : N) : bool :=
  (if n <? 128 then (32 <=? n) && (n <? 127)
   else negb (in_ranges NOT_PRINTABLE n))%N.

End Unicode.

(** ** Dates and times: the part of Python's [datetime] the program uses

    [datetime] values carry the calendar fields down to the second (the
    program never prints or stores the microseconds).  The ordinal
    functions follow CPython's [_ymd2ord] and [_ord2ymd]; [strptime]
    follows the regular expressions CPython builds for the directives,
    tried in order; [%Y] is written with four digits. *)

Module DateTime.

Record datetime := mk {
  year : Z; month : Z; day : Z; hour : Z; minute : Z; second : Z
}.

Definition is_leap (y : Z) : bool :=
  (y mod 4 =? 0) && (negb (y mod 100 =? 0) || (y mod 400 =? 0)).

Definition days_before_year (year : Z) : Z :=
  let y := year - 1 in y * 365 + y / 4 - y / 100 + y / 400.

Definition DAYS_IN_MONTH (m : Z) : Z :=
  match m with
  | 1 => 31 | 2 => 28 | 3 => 31 | 4 => 30 | 5 => 31 | 6 => 30
  | 7 => 31 | 8 => 31 | 9 => 30 | 10 => 31 | 11 => 30 | 12 => 31
  | _ => -1
  end.

Definition DAYS_BEFORE_MONTH (m : Z) : Z :=
  match m with
  | 1 => 0 | 2 => 31 | 3 => 59 | 4 => 90 | 5 => 120 | 6 => 151
  | 7 => 181 | 8 => 212 | 9 => 243 | 10 => 273 | 11 => 304 | 12 => 334
  | _ => -1
  end.

Definition days_in_month (y m : Z) : Z :=
  if (m =? 2) && is_leap y then 29 else DAYS_IN_MONTH m.

Definition days_before_month (y m : Z) : Z :=
  DAYS_BEFORE_MONTH m + (if (2 <? m) && is_leap y then 1 else 0).

Definition leap_day (y : Z) : Z := if is_leap y then 1 else 0.

Definition ymd2ord (y m d : Z) : Z :=
  days_before_year y + days_before_month y m + d.

Definition DI400Y : Z := 146097.
Definition DI100Y : Z := 36524.
Definition DI4Y : Z := 1461.
Definition MAXORDINAL : Z := 3652059.

(** The end of [_ord2ymd]: month and day from the zero-based day [n] of
    the year. *)
Definition month_day (n : Z) (leapyear : bool) : Z * Z :=
  let month := Z.shiftr (n + 50) 5 in
  let preceding :=
    DAYS_BEFORE_MONTH month + (if (2 <? month) && leapyear then 1 else 0) in
  if n <? preceding then
    let month := month - 1 in
    let preceding :=
      preceding - (DAYS_IN_MONTH month
                   + (if (month =? 2) && leapyear then 1 else 0)) in
    (month, n - preceding + 1)
  else (month, n - preceding + 1).

(** [month_day] returns a day of a month that is [n] days after the
    first of January; a check used on the table of all [n]. *)
Definition month_day_ok (leap : bool) (n : nat) : bool :=
  let '(m, d) := month_day (Z.of_nat n) leap in
  (1 <=? m) && (m <=? 12) && (1 <=? d)
  && (d <=? (if (m =? 2) && leap then 29 else DAYS_IN_MONTH m))
  && (DAYS_BEFORE_MONTH m + (if (2 <? m) && leap then 1 else 0) + d
      =? Z.of_nat n + 1).

Definition ord2ymd (n : Z) : Z * Z * Z :=
  let n := n - 1 in
  let n400 := n / DI400Y in let n := n mod DI400Y in
  let year := n400 * 400 + 1 in
  let n100 := n / DI100Y in let n := n mod DI100Y in
  let n4 := n / DI4Y in let n := n mod DI4Y in
  let n1 := n / 365 in let n := n mod 365 in
  let year := year + n100 * 100 + n4 * 4 + n1 in
  if (n1 =? 4) || (n100 =? 4) then (year - 1, 12, 31)
  else
    let leapyear := (n1 =? 3) && (negb (n4 =? 24) || (n100 =? 3)) in
    let '(month, day) := month_day n leapyear in
    (year, month, day).

(** The checks of the [datetime] constructor. *)
Definition validb (dt : datetime) : bool :=
  (1 <=? year dt) && (year dt <=? 9999) &&
  (1 <=? month dt) && (month dt <=? 12) &&
  (1 <=? day dt) && (day dt <=? days_in_month (year dt) (month dt)) &&
  (0 <=? hour dt) && (hour dt <? 24) &&
  (0 <=? minute dt) && (minute dt <? 60) &&
  (0 <=? second dt) && (second dt <? 60).

Definition valid (dt : datetime) : Prop := validb dt = true.

Definition toordinal (dt : datetime) : Z :=
  ymd2ord (year dt) (month dt) (day dt).

(** Seconds elapsed since the start of ordinal day 0. *)
Definition seconds (dt : datetime) : Z :=
  toordinal dt * 86400 + hour dt * 3600 + minute dt * 60 + second dt.

(** [datetime.min]. *)
Definition min : datetime := mk 1 1 1 0 0 0.

(** [dt - timedelta(days=n)]. *)
Definition sub_days (dt : datetime) (n : Z) : exn + datetime :=
  let days := toordinal dt - n in
  let secs := hour dt * 3600 + minute dt * 60 + second dt in
  if (0 <? days) && (days <=? MAXORDINAL) then
    let '(y, m, d) := ord2ymd days in
    inr (mk y m d (secs / 3600) ((secs mod 3600) / 60) ((secs mod 3600) mod 60))
  else inl (OverflowError "date value out of range").

(** *** Formats *)

Inductive directive :=
  | Dir_Y | Dir_y | Dir_m | Dir_d | Dir_H | Dir_M | Dir_S
  | Lit (c : ascii).

Definition format := list directive.

(** ["%Y-%m-%d %H:%M:%S"], the format of the [timestamp] column. *)
Definition ISO : format :=
  [Dir_Y; Lit "-"; Dir_m; Lit "-"; Dir_d; Lit " ";
   Dir_H; Lit ":"; Dir_M; Lit ":"; Dir_S].
(** ["%Y-%m-%d %H:%M"], ["%Y-%m-%d"]. *)
Definition ISO_HM : format :=
  [Dir_Y; Lit "-"; Dir_m; Lit "-"; Dir_d; Lit " "; Dir_H; Lit ":"; Dir_M].
Definition ISO_DATE : format := [Dir_Y; Lit "-"; Dir_m; Lit "-"; Dir_d].
(** ["%d/%m/%Y %H:%M:%S"], ["%d/%m/%Y %H:%M"], ["%d/%m/%Y"]. *)
Definition IT_HMS : format :=
  [Dir_d; Lit "/"; Dir_m; Lit "/"; Dir_Y; Lit " ";
   Dir_H; Lit ":"; Dir_M; Lit ":"; Dir_S].
Definition IT_HM : format :=
  [Dir_d; Lit "/"; Dir_m; Lit "/"; Dir_Y; Lit " "; Dir_H; Lit ":"; Dir_M].
Definition IT_DATE : format := [Dir_d; Lit "/"; Dir_m; Lit "/"; Dir_Y].
(** ["%d/%m/%y %H:%M:%S"], ["%d/%m/%y %H:%M"], ["%d/%m/%y"]. *)
Definition IT2_HMS : format :=
  [Dir_d; Lit "/"; Dir_m; Lit "/"; Dir_y; Lit " ";
   Dir_H; Lit ":"; Dir_M; Lit ":"; Dir_S].
Definition IT2_HM : format :=
  [Dir_d; Lit "/"; Dir_m; Lit "/"; Dir_y; Lit " "; Dir_H; Lit ":"; Dir_M].
Definition IT2_DATE : format := [Dir_d; Lit "/"; Dir_m; Lit "/"; Dir_y].
(** ["%Y%m%d_%H%M%S"], the suffix of the archival file name. *)
Definition STAMP : format :=
  [Dir_Y; Dir_m; Dir_d; Lit "_"; Dir_H; Dir_M; Dir_S].

(** *** [strftime] *)

Definition digit (d : Z) : ascii := ascii_of_N (Z.to_N (48 + d)).

Definition pad2 (n : Z) : string :=
  String (digit (n / 10)) (String (digit (n mod 10)) EmptyString).

Definition pad4 (n : Z) : string := pad2 (n / 100) +:+ pad2 (n mod 100).

Definition strftime_directive (d : directive) (dt : datetime) : string :=
  match d with
  | Dir_Y => pad4 (year dt)
  | Dir_y => pad2 (year dt mod 100)
  | Dir_m => pad2 (month dt)
  | Dir_d => pad2 (day dt)
  | Dir_H => pad2 (hour dt)
  | Dir_M => pad2 (minute dt)
  | Dir_S => pad2 (second dt)
  | Lit c => String c EmptyString
  end.

Fixpoint strftime (fmt : format) (dt : datetime) : string :=
  match fmt with
  | [] => EmptyString
  | d :: fmt' => strftime_directive d dt +:+ strftime fmt' dt
  end.

(** *** [strptime] *)

Definition digit_val (c : ascii) : option Z :=
  let n := N_of_ascii c in
  if ((48 <=? n) && (n <=? 57))%N then Some (Z.of_N n - 48) else None.

(** Whitespace in the sense of [str.isspace] and of [\s]. *)
Definition is_space (c : ascii) : bool :=
  let n := N_of_ascii c in
  ((9 <=? n) && (n <=? 13) || (28 <=? n) && (n <=? 32))%N.

Definition two_digits (s : string) : option (Z * Z * string) :=
  match s with
  | String a (String b r) =>
      match digit_val a, digit_val b with
      | Some x, Some y => Some (x, y, r)
      | _, _ => None
      end
  | _ => None
  end.

Definition one_digit (s : string) : option (Z * string) :=
  match s with
  | String a r => match digit_val a with Some x => Some (x, r) | None => None end
  | _ => None
  end.

(** A numeric field of one or two digits: the two-digit alternatives
    [ok2] are tried before the one-digit alternative [ok1]. *)
Definition field (ok2 : Z → Z → bool) (ok1 : Z → bool) (s : string)
  : option (Z * string) :=
  match two_digits s with
  | Some (x, y, r) =>
      if ok2 x y then Some (10 * x + y, r)
      else if ok1 x then one_digit s else None
  | None =>
      match one_digit s with
      | Some (x, r) => if ok1 x then Some (x, r) else None
      | None => None
      end
  end.

(** [1[0-2]|0[1-9]|[1-9]] *)
Definition parse_m : string → option (Z * string) :=
  field (λ x y, (x =? 1) && (y <=? 2) || (x =? 0) && (1 <=? y)) (λ x, 1 <=? x).

(** [3[0-1]|[1-2]\d|0[1-9]|[1-9]| [1-9]] *)
Definition parse_d (s : string) : option (Z * string) :=
  match field (λ x y, (x =? 3) && (y <=? 1) || (1 <=? x) && (x <=? 2)
                      || (x =? 0) && (1 <=? y))
              (λ x, 1 <=? x) s with
  | Some r => Some r
  | None =>
      match s with
      | String " " s' =>
          match one_digit s' with
          | Some (x, r) => if 1 <=? x then Some (x, r) else None
          | None => None
          end
      | _ => None
      end
  end.

(** [2[0-3]|[0-1]\d|\d] *)
Definition parse_H : string → option (Z * string) :=
  field (λ x y, (x =? 2) && (y <=? 3) || (x <=? 1)) (λ _, true).

(** [[0-5]\d|\d] *)
Definition parse_M : string → option (Z * string) :=
  field (λ x _, x <=? 5) (λ _, true).

(** [6[0-1]|[0-5]\d|\d] *)
Definition parse_S : string → option (Z * string) :=
  field (λ x y, (x =? 6) && (y <=? 1) || (x <=? 5)) (λ _, true).

(** [\d\d\d\d] *)
Definition parse_Y (s : string) : option (Z * string) :=
  match two_digits s with
  | Some (a, b, r) =>
      match two_digits r with
      | Some (c, d, r') => Some (1000 * a + 100 * b + 10 * c + d, r')
      | None => None
      end
  | None => None
  end.

(** [\d\d], with the POSIX century rule. *)
Definition parse_y (s : string) : option (Z * string) :=
  match two_digits s with
  | Some (a, b, r) =>
      let y := 10 * a + b in
      Some (if y <=? 68 then 2000 + y else 1900 + y, r)
  | None => None
  end.

Fixpoint skip_spaces (s : string) : string :=
  match s with
  | String c s' => if is_space c then skip_spaces s' else s
  | EmptyString => s
  end.

Definition parse_directive (d : directive) (s : string) (acc : datetime)
  : option (datetime * string) :=
  let set (f : Z → datetime) (r : option (Z * string)) :=
    match r with Some (v, rest) => Some (f v, rest) | None => None end in
  match d with
  | Dir_Y => set (λ v, mk v (month acc) (day acc) (hour acc) (minute acc) (second acc))
                 (parse_Y s)
  | Dir_y => set (λ v, mk v (month acc) (day acc) (hour acc) (minute acc) (second acc))
                 (parse_y s)
  | Dir_m => set (λ v, mk (year acc) v (day acc) (hour acc) (minute acc) (second acc))
                 (parse_m s)
  | Dir_d => set (λ v, mk (year acc) (month acc) v (hour acc) (minute acc) (second acc))
                 (parse_d s)
  | Dir_H => set (λ v, mk (year acc) (month acc) (day acc) v (minute acc) (second acc))
                 (parse_H s)
  | Dir_M => set (λ v, mk (year acc) (month acc) (day acc) (hour acc) v (second acc))
                 (parse_M s)
  | Dir_S => set (λ v, mk (year acc) (month acc) (day acc) (hour acc) (minute acc) v)
                 (parse_S s)
  | Lit c =>
      match s with
      | String c' s' =>
          if is_space c then
            if is_space c' then Some (acc, skip_spaces s') else None
          else if Ascii.eqb c c' then Some (acc, s') else None
      | EmptyString => None
      end
  end.

Fixpoint strptime_fields (fmt : format) (s : string) (acc : datetime)
  : option datetime :=
  match fmt with
  | [] => if String.eqb s "" then Some acc else None
  | d :: fmt' =>
      match parse_directive d s acc with
      | Some (acc', rest) => strptime_fields fmt' rest acc'
      | None => None
      end
  end.

(** [datetime.strptime(s, fmt)]. *)
Definition strptime (s : string) (fmt : format) : exn + datetime :=
  match strptime_fields fmt s (mk 1900 1 1 0 0 0) with
  | Some dt =>
      if validb dt then inr dt
      else inl (ValueError "value out of range for a datetime")
  | None => inl (ValueError "time data does not match format")
  end.

(** [dt.replace(hour=h, minute=m, second=s)]. *)
Definition replace_time (dt : datetime) (h m s : Z) : datetime :=
  mk (year dt) (month dt) (day dt) h m s.

End DateTime.

(** ** Python values of the sensor columns

    A Python [float] is an IEEE binary64 number: a signed [m * 2^e], an
    infinity or a NaN.  The values [sqlite3] yields for a [REAL] column are
    floats, or strings when the stored text is not numeric. *)

Module PyVal.

Inductive pyfloat :=
  | Finite (neg : bool) (m : N) (e : Z)
  | Inf (neg : bool)
  | NaN.

Inductive pyval :=
  | PyFloat (f : pyfloat)
  | PyStr (s : string).

(** Rounding of [num / den] to the nearest integer, ties to even. *)
Definition round_half_even (num den : Z) : Z :=
  let q := num / den in
  let r := num mod den in
  if 2 * r <? den then q
  else if den <? 2 * r then q + 1
  else if Z.even q then q else q + 1.

(** The binary64 number nearest to [p / q], for [0 ≤ p] and [0 < q]. *)
Definition round_to_double (neg : bool) (p q : Z) : pyfloat :=
  if p =? 0 then Finite neg 0 0
  else
    let scaled (e : Z) : Z * Z :=
      if 0 <=? e then (p, q * 2 ^ e) else (p * 2 ^ (- e), q) in
    let e0 := Z.log2 p - Z.log2 q - 52 in
    let e1 := if (scaled e0).1 / (scaled e0).2 <? 2 ^ 52 then e0 - 1 else e0 in
    let e := Z.max e1 (-1074) in
    let m := round_half_even (scaled e).1 (scaled e).2 in
    let '(m, e) := if m =? 2 ^ 53 then (2 ^ 52, e + 1) else (m, e) in
    if m =? 0 then Finite neg 0 0
    else if 971 <? e then Inf neg else Finite neg (Z.to_N m) e.

(** *** [s.strip()] *)

Fixpoint lstrip (l : list Unicode.char) : list Unicode.char :=
  match l with
  | c :: l' => if Unicode.isspace (Unicode.code c) then lstrip l' else l
  | [] => []
  end.

(** [s.strip()]: the white space characters at both ends are removed. *)
Definition strip (s : string) : string :=
  Unicode.bytes (reverse (lstrip (reverse (lstrip (Unicode.chars s))))).

(** [len(s)] and [s[:n]] count characters. *)
Definition len (s : string) : nat := length (Unicode.chars s).
Definition slice_to (n : nat) (s : string) : string :=
  Unicode.bytes (take n (Unicode.chars s)).

(** *** [repr(s)] *)

Definition hex_digit (n : N) : ascii :=
  ascii_of_N (if n <? 10 then 48 + n else 87 + n)%N.

Fixpoint hex (width : nat) (n : N) : string :=
  match width with
  | O => EmptyString
  | S w => hex w (n / 16) +:+ String (hex_digit (n mod 16)) EmptyString
  end.

Definition repr_char (quote : N) (c : Unicode.char) : string :=
  let n := Unicode.code c in
  (if (n =? quote) || (n =? 92) then String "\" (Unicode.bytes [c])
   else if n =? 9 then "\t"
   else if n =? 10 then "\n"
   else if n =? 13 then "\r"
   else if (n <? 32) || (n =? 127) then "\x" +:+ hex 2 n
   else if Unicode.isprintable n then Unicode.bytes [c]
   else if n <=? 255 then "\x" +:+ hex 2 n
   else if n <=? 65535 then "\u" +:+ hex 4 n
   else "\U" +:+ hex 8 n)%N.

(** [repr(s)]: single quotes, unless the text holds one and no double
    quote. *)
Definition repr (s : string) : string :=
  let cs := Unicode.chars s in
  let has (q : N) := existsb (λ c, Unicode.code c =? q)%N cs in
  let quote : N := if has 39%N && negb (has 34%N) then 34%N else 39%N in
  let q := String (ascii_of_N quote) EmptyString in
  q +:+ String.concat "" (map (repr_char quote) cs) +:+ q.

(** *** [float(s)] for a string *)

(** The white space of C, which [float] skips at both ends. *)
Definition is_c_space (c : ascii) : bool :=
  let n := N_of_ascii c in ((9 <=? n) && (n <=? 13) || (n =? 32))%N.

Fixpoint c_lstrip (s : string) : string :=
  match s with
  | String c s' => if is_c_space c then c_lstrip s' else s
  | EmptyString => s
  end.

Fixpoint rev_string (acc s : string) : string :=
  match s with
  | String c s' => rev_string (String c acc) s'
  | EmptyString => acc
  end.

Definition c_strip (s : string) : string :=
  rev_string "" (c_lstrip (rev_string "" (c_lstrip s))).

(** What [float] reads a character as: an ASCII character as itself, any
    other white space as a space, any other decimal digit as the ASCII
    digit of its value; no other character is accepted. *)
Definition ascii_of_char (c : Unicode.char) : option ascii :=
  let n := Unicode.code c in
  (if n <? 127 then Some (ascii_of_N n)
   else if Unicode.isspace n then Some " "%char
   else match Unicode.decimal n with
        | Some d => Some (ascii_of_N (48 + d))
        | None => None
        end)%N.

Fixpoint to_ascii (l : list Unicode.char) : option string :=
  match l with
  | [] => Some EmptyString
  | c :: l' =>
      match ascii_of_char c, to_ascii l' with
      | Some a, Some r => Some (String a r)
      | _, _ => None
      end
  end.

(** [digit (["_"] digit)*]: the digits read, most significant first. *)
Fixpoint digitpart_rest (s : string) : list Z * string :=
  match s with
  | String c s' =>
      match DateTime.digit_val c with
      | Some d => let '(ds, r) := digitpart_rest s' in (d :: ds, r)
      | None =>
          if Ascii.eqb c "_" then
            match s' with
            | String c' _ =>
                match DateTime.digit_val c' with
                | Some _ => digitpart_rest s'
                | None => ([], s)
                end
            | EmptyString => ([], s)
            end
          else ([], s)
      end
  | EmptyString => ([], s)
  end.

Definition digitpart (s : string) : option (list Z * string) :=
  match s with
  | String c _ =>
      match DateTime.digit_val c with
      | Some _ => Some (digitpart_rest s)
      | None => None
      end
  | EmptyString => None
  end.

Definition digits_value (ds : list Z) : Z :=
  fold_left (λ acc d, 10 * acc + d) ds 0.

Definition sign (s : string) : bool * string :=
  match s with
  | String "-" s' => (true, s')
  | String "+" s' => (false, s')
  | _ => (false, s)
  end.

(** [("e" | "E") ["+" | "-"] digitpart], or nothing. *)
Definition exponent (s : string) : option (Z * string) :=
  match s with
  | String c s' =>
      if Ascii.eqb c "e" || Ascii.eqb c "E" then
        let '(neg, s'') := sign s' in
        match digitpart s'' with
        | Some (ds, r) =>
            Some (if neg then - digits_value ds else digits_value ds, r)
        | None => None
        end
      else Some (0, s)
  | EmptyString => Some (0, s)
  end.

(** [[digitpart] "." digitpart | digitpart ["."]]: the digits before and
    after the point. *)
Definition number (s : string) : option (list Z * list Z * string) :=
  match digitpart s with
  | Some (ip, r) =>
      match r with
      | String "." r' =>
          match digitpart r' with
          | Some (fp, r'') => Some (ip, fp, r'')
          | None => Some (ip, [], r')
          end
      | _ => Some (ip, [], r)
      end
  | None =>
      match s with
      | String "." r' =>
          match digitpart r' with
          | Some (fp, r'') => Some ([], fp, r'')
          | None => None
          end
      | _ => None
      end
  end.

(** The number an ASCII text denotes, the white space at its ends
    apart. *)
Definition float_of_ascii (s : string) : option pyfloat :=
  let '(neg, body) := sign (c_strip s) in
  let low := PyStr.lower body in
  if String.eqb low "inf" || String.eqb low "infinity" then Some (Inf neg)
  else if String.eqb low "nan" then Some NaN
  else
    match number body with
    | Some (ip, fp, r) =>
        match exponent r with
        | Some (ex, EmptyString) =>
            let mant := digits_value (ip ++ fp) in
            let e10 := ex - Z.of_nat (length fp) in
            Some (if 0 <=? e10 then round_to_double neg (mant * 10 ^ e10) 1
                  else round_to_double neg mant (10 ^ (- e10)))
        | _ => None
        end
    | None => None
    end.

Definition float_of_string (s : string) : option pyfloat :=
  match to_ascii (Unicode.chars s) with
  | Some a => float_of_ascii a
  | None => None
  end.

(** [float(x)]. *)
Definition py_float (x : pyval) : exn + pyfloat :=
  match x with
  | PyFloat f => inr f
  | PyStr s =>
      match float_of_string s with
      | Some f => inr f
      | None => inl (ValueError ("could not convert string to float: " +:+ repr s))
      end
  end.

(** [f"{x:.2f}"]: the decimal expansion of the exact value, rounded to
    two fractional digits, ties to even. *)
Definition fmt_2f (x : pyfloat) : string :=
  match x with
  | NaN => "nan"
  | Inf false => "inf"
  | Inf true => "-inf"
  | Finite neg m e =>
      let c := if 0 <=? e then Z.of_N m * 2 ^ e * 100
               else round_half_even (Z.of_N m * 100) (2 ^ (- e)) in
      (if neg then "-" else "") +:+ PyStr.of_int (c / 100) +:+ "."
        +:+ DateTime.pad2 (c mod 100)
  end.

Definition is_finite (x : pyfloat) : bool :=
  match x with Finite _ _ _ => true | _ => false end.

(** *** Text with exactly two decimal places *)

Definition is_digit (c : ascii) : bool :=
  match DateTime.digit_val c with Some _ => true | None => false end.

Fixpoint all_digits (s : string) : bool :=
  match s with
  | String c s' => is_digit c && all_digits s'
  | EmptyString => true
  end.

(** An optional minus sign, one or more digits, a point and two digits. *)
Definition two_decimals (s : string) : Prop :=
  ∃ sgn ip d1 d2,
    s = sgn +:+ ip +:+ "." +:+ String d1 (String d2 EmptyString)
    ∧ (sgn = "" ∨ sgn = "-") ∧ ip ≠ "" ∧ all_digits ip = true
    ∧ is_digit d1 = true ∧ is_digit d2 = true.

End PyVal.

(** ** The record store: the [logs] table of the SQLite database *)

Module Store.
Import PyVal.

(** One row of [logs], with the columns the queries select.  [TEXT]
    columns hold strings; the [REAL] columns hold what [sqlite3] returns
    for them. *)
Record row := Row {
  timestamp : string;
  o2 : pyval; rh1 : pyval; temp1 : pyval; rh2 : pyval; temp2 : pyval;
  elio_ok : string; aspirazione_ok : string; operatore : string
}.

(** The table, in order of [id]. *)
Definition store := list row.

(** [CREATE TABLE IF NOT EXISTS logs]: an existing table is kept, a
    missing one is created empty. *)
Definition init_db (db : option store) : store :=
  match db with Some st => st | None => [] end.

(** The order of SQLite on [TEXT] values: byte by byte. *)
Definition str_le (a b : string) : Prop := String.leb a b = true.

Global Instance str_le_dec a b : Decision (str_le a b).
Proof. unfold str_le. apply _. Defined.

Definition ts_le (r1 r2 : row) : Prop := str_le (timestamp r1) (timestamp r2).
Definition ts_ge (r1 r2 : row) : Prop := str_le (timestamp r2) (timestamp r1).

Global Instance ts_le_dec r1 r2 : Decision (ts_le r1 r2).
Proof. unfold ts_le. apply _. Defined.
Global Instance ts_ge_dec r1 r2 : Decision (ts_ge r1 r2).
Proof. unfold ts_ge. apply _. Defined.

(** [ORDER BY timestamp ASC] and [ORDER BY timestamp DESC]. *)
Definition order_by_timestamp_asc (rows : list row) : list row :=
  merge_sort ts_le rows.
Definition order_by_timestamp_desc (rows : list row) : list row :=
  merge_sort ts_ge rows.

Definition is_si_no (s : string) : bool := String.eqb s "SI" || String.eqb s "NO".

(** What a [REAL NOT NULL] column makes of a float bound to it: NaN is
    bound as [NULL] and refused; a zero is stored as the integer 0 and
    read back as [0.0], whatever its sign. *)
Definition sql_real (column : string) (f : pyfloat) : exn + pyval :=
  match f with
  | NaN => inl (IntegrityError ("NOT NULL constraint failed: logs." +:+ column))
  | Finite _ 0%N _ => inr (PyFloat (Finite false 0 0))
  | _ => inr (PyFloat f)
  end.

(** The [INSERT] of [insert_record] on the table; [now] is the reading
    of [datetime.now()].  The [NOT NULL] constraints are checked in the
    order of the columns, then the [CHECK] constraints; the messages are
    those of SQLite 3.40.  What [sqlite3] does when the file is unreadable
    or the write lock is taken is in [Db.insert_record]. *)
Definition insert_record (now : DateTime.datetime)
    (o2 rh1 temp1 rh2 temp2 : pyfloat)
    (elio_ok aspirazione_ok operatore : string) : M store string :=
  let now_iso := DateTime.strftime DateTime.ISO now in
  match sql_real "o2" o2 with inl e => raise e | inr v1 =>
  match sql_real "rh1" rh1 with inl e => raise e | inr v2 =>
  match sql_real "temp1" temp1 with inl e => raise e | inr v3 =>
  match sql_real "rh2" rh2 with inl e => raise e | inr v4 =>
  match sql_real "temp2" temp2 with inl e => raise e | inr v5 =>
    if negb (is_si_no elio_ok)
    then raise (IntegrityError "CHECK constraint failed: elio_ok IN ('SI','NO')")
    else if negb (is_si_no aspirazione_ok)
    then raise (IntegrityError "CHECK constraint failed: aspirazione_ok IN ('SI','NO')")
    else
      st ← get;
      _ ← put (st ++ [Row now_iso v1 v2 v3 v4 v5 elio_ok aspirazione_ok operatore]);
      mret now_iso
  end end end end end.

(** [parse_it_date]: the nine formats, in the order the source tries them. *)
Definition date_formats : list DateTime.format :=
  [DateTime.ISO; DateTime.ISO_HM; DateTime.ISO_DATE;
   DateTime.IT_HMS; DateTime.IT_HM; DateTime.IT_DATE;
   DateTime.IT2_HMS; DateTime.IT2_HM; DateTime.IT2_DATE].

Fixpoint try_formats (s : string) (fmts : list DateTime.format)
  : exn + DateTime.datetime :=
  match fmts with
  | [] => inl (ValueError
      "Formato data/ora non valido. Usa es. 'gg/mm/aa' o 'gg/mm/aaaa' (opzionale 'HH:MM').")
  | fmt :: fmts' =>
      match DateTime.strptime s fmt with
      | inr dt => inr dt
      | inl _ => try_formats s fmts'
      end
  end.

Definition parse_it_date (s : string) : exn + DateTime.datetime :=
  try_formats (strip s) date_formats.

Definition normalize_to_iso (s : string) (start_of_day : bool) : exn + string :=
  match parse_it_date s with
  | inl e => inl e
  | inr dt =>
      let n := len (strip s) in
      let only_date :=
        ((n =? 8)%nat || (n =? 10)%nat)
        && (PyStr.contains "/" s || PyStr.contains "-" s) in
      let dt :=
        if only_date then
          if start_of_day then DateTime.replace_time dt 0 0 0
          else DateTime.replace_time dt 23 59 59
        else dt in
      inr (DateTime.strftime DateTime.ISO dt)
  end.

(** Truthiness of an optional string argument: [if start:]. *)
Definition given (a : option string) : option string :=
  match a with
  | Some s => if PyStr.truthy s then Some s else None
  | None => None
  end.

(** [fetch_records] on the table: the bounds given are normalised, then
    the query runs.  What [sqlite3] does when the file is unreadable is in
    [Db.fetch_records]. *)
Definition fetch_records (start end_ : option string) (st : store)
  : exn + list row :=
  match given start, given end_ with
  | Some s, Some e =>
      match normalize_to_iso s true, normalize_to_iso e false with
      | inr lo, inr hi =>
          inr (order_by_timestamp_asc
                 (filter (λ r, str_le lo (timestamp r) ∧ str_le (timestamp r) hi) st))
      | inl err, _ => inl err
      | _, inl err => inl err
      end
  | Some s, None =>
      match normalize_to_iso s true with
      | inr lo => inr (order_by_timestamp_asc (filter (λ r, str_le lo (timestamp r)) st))
      | inl err => inl err
      end
  | None, Some e =>
      match normalize_to_iso e false with
      | inr hi => inr (order_by_timestamp_asc (filter (λ r, str_le (timestamp r) hi) st))
      | inl err => inl err
      end
  | None, None => inr (order_by_timestamp_asc st)
  end.

(** [ORDER BY timestamp DESC LIMIT 1]. *)
Definition fetch_last_record (st : store) : option row :=
  head (order_by_timestamp_desc st).

(** The time a canonical timestamp denotes, in seconds. *)
Definition seconds_of (ts : string) : Z :=
  match DateTime.strptime ts DateTime.ISO with
  | inr dt => DateTime.seconds dt
  | inl _ => 0
  end.

(** The timestamps [insert_record] writes: a valid [datetime] printed
    with ["%Y-%m-%d %H:%M:%S"]. *)
Definition canonical (ts : string) : Prop :=
  ∃ dt, DateTime.valid dt ∧ ts = DateTime.strftime DateTime.ISO dt.

Definition canonical_store (st : store) : Prop :=
  Forall (λ r, canonical (timestamp r)) st.

(** *** The window of the dashboard, in time *)

Definition thirty_days : Z := 30 * 86400.

(** [r] was taken no later than [r']. *)
Definition time_le (r r' : row) : Prop :=
  seconds_of (timestamp r) ≤ seconds_of (timestamp r').

(** [r] lies in the closed interval of 30 times 24 hours ending at [last]. *)
Definition in_window (last r : row) : Prop :=
  seconds_of (timestamp last) - thirty_days ≤ seconds_of (timestamp r)
  ∧ seconds_of (timestamp r) ≤ seconds_of (timestamp last).

Global Instance in_window_dec last r : Decision (in_window last r).
Proof. unfold in_window. apply _. Defined.

(** Some reading is at least 30 days after [datetime.min], the earliest
    [datetime]: the start of the window of the latest reading is then a
    [datetime] too. *)
Definition window_representable (st : store) : Prop :=
  ∃ r, r ∈ st
       ∧ DateTime.seconds DateTime.min + thirty_days ≤ seconds_of (timestamp r).

End Store.

(** ** The database file and the connections to it

    [Store] gives the statements of the program on a database that holds
    the table [logs] and that can be written.  Here the database is as
    [sqlite3] finds it.  Its file may be no database, or lack the table,
    once [restore_database] has copied another file over it: every
    statement then raises, and the callers catch that.  And a connection
    may hold the write lock: [insert_record] closes its connection only
    after [commit], so when [execute] raises, the connection is left open
    with its transaction, until the garbage collector frees it. *)

Module Db.
Import PyVal Store.

Inductive file :=
  | Logs (st : store)                        (* a database with the table [logs] *)
  | Unreadable (at_connect : bool) (e : exn).
      (* [sqlite3] raises [e]: in [connect], or else in the first [execute] *)

Record db := mk {
  db_file : file;
  db_locked : bool    (* an abandoned connection holds the write lock *)
}.

(** What a statement that writes raises after the five seconds it waits
    for the lock. *)
Definition LOCKED : exn := OperationalError "database is locked".

(** [insert_record].  The write lock is taken before the constraints are
    checked.  A statement that fails a constraint leaves its transaction
    open, and nothing closes the connection. *)
Definition insert_record (now : DateTime.datetime)
    (o2 rh1 temp1 rh2 temp2 : pyfloat)
    (elio_ok aspirazione_ok operatore : string) : M db string :=
  λ d,
    match db_file d with
    | Unreadable _ e => (inl e, d)
    | Logs st =>
        if db_locked d then (inl LOCKED, d)
        else
          match Store.insert_record now o2 rh1 temp1 rh2 temp2 elio_ok
                  aspirazione_ok operatore st with
          | (inr ts, st') => (inr ts, mk (Logs st') false)
          | (inl e, st') => (inl e, mk (Logs st') true)
          end
    end.

(** The garbage collector frees the abandoned connections: their
    transactions are rolled back and the lock is released. *)
Definition collect (d : db) : db := mk (db_file d) false.

(** The part of [fetch_records] between [connect] and [execute]: the
    bounds that are given are normalised. *)
Definition query_params (start end_ : option string) : exn + list string :=
  match given start, given end_ with
  | Some s, Some e =>
      match normalize_to_iso s true, normalize_to_iso e false with
      | inr lo, inr hi => inr [lo; hi]
      | inl err, _ => inl err
      | _, inl err => inl err
      end
  | Some s, None =>
      match normalize_to_iso s true with
      | inr lo => inr [lo]
      | inl err => inl err
      end
  | None, Some e =>
      match normalize_to_iso e false with
      | inr hi => inr [hi]
      | inl err => inl err
      end
  | None, None => inr []
  end.

(** [fetch_records].  A reader is not kept out by the write lock. *)
Definition fetch_records (start end_ : option string) (d : db) : exn + list row :=
  match db_file d with
  | Unreadable true e => inl e
  | Unreadable false e =>
      match query_params start end_ with
      | inl err => inl err
      | inr _ => inl e
      end
  | Logs st => Store.fetch_records start end_ st
  end.

(** [fetch_last_record]. *)
Definition fetch_last_record (d : db) : exn + option row :=
  match db_file d with
  | Unreadable _ e => inl e
  | Logs st => inr (Store.fetch_last_record st)
  end.

End Db.

(** ** The host: environment variables, search path, file system *)

Record filesystem := Filesystem {
  fs_files : gmap string string;   (* regular files and their content *)
  fs_dirs : gset string;           (* directories *)
  fs_readonly : gset string;       (* paths [open(p, "w")] cannot write *)
  fs_copy2_works : bool            (* whether [shutil.copy2] is usable *)
}.

(** The content of a file is held as text whose line breaks are written
    [\n]: on disk each of them is the line separator of the platform, as
    text mode writes it. *)

Definition isfile (fs : filesystem) (p : string) : bool :=
  bool_decide (is_Some (fs_files fs !! p)).

Definition isdir (fs : filesystem) (p : string) : bool :=
  bool_decide (p ∈ fs_dirs fs).

Definition path_exists (fs : filesystem) (p : string) : bool :=
  isfile fs p || isdir fs p.

Record host := Host {
  h_environ : gmap string string;        (* os.environ *)
  h_which : string → option string;      (* shutil.which on the inherited PATH *)
  h_platform : string;                   (* sys.platform *)
  h_app_dir : string;                    (* APP_DIR *)
  h_fs : filesystem
}.

(** [os.sep]: the backslash on Windows, the slash elsewhere. *)
Definition h_sep (h : host) : string :=
  if PyStr.startswith "win" (h_platform h) then "\" else "/".

Definition CR : ascii := ascii_of_nat 13.
Definition LF : ascii := ascii_of_nat 10.

(** [os.linesep]: carriage return and line feed on Windows, a line feed
    elsewhere. *)
Definition h_linesep (h : host) : string :=
  if PyStr.startswith "win" (h_platform h)
  then String CR (String LF EmptyString) else String LF EmptyString.

(** The bytes on disk of a content: every [\n] is the line separator. *)
Fixpoint on_disk (linesep : string) (text : string) : string :=
  match text with
  | String c text' =>
      if Ascii.eqb c LF then linesep +:+ on_disk linesep text'
      else String c (on_disk linesep text')
  | EmptyString => EmptyString
  end.

(** Universal newlines, which text mode applies on reading: a carriage
    return, alone or before a line feed, is read as [\n]. *)
Fixpoint universal_newlines (s : string) : string :=
  match s with
  | String c s' =>
      if Ascii.eqb c CR then
        String LF (match s' with
                   | String c' s'' =>
                       if Ascii.eqb c' LF then universal_newlines s''
                       else universal_newlines s'
                   | EmptyString => EmptyString
                   end)
      else String c (universal_newlines s')
  | EmptyString => EmptyString
  end.

(** [os.path.join a b] for a second component [b] without a drive: an
    absolute [b] replaces [a], otherwise one separator is put between the
    two unless [a] is empty or already ends with it. *)
Definition ends_with_sep (sep a : string) : bool :=
  let la := String.length a in
  let ls := String.length sep in
  (ls <=? la)%nat && String.eqb (String.substring (la - ls)%nat ls a) sep.

Definition path_join (sep a b : string) : string :=
  if PyStr.startswith sep b then b
  else if String.eqb a "" then b
  else if ends_with_sep sep a then a +:+ b
  else a +:+ sep +:+ b.

(** *** File operations

    [open(p, "w")] fails on a directory and on a path the process may not
    write; the existence of the parent directory is not modelled. *)

Definition set_files (fs : filesystem) (files : gmap string string) : filesystem :=
  Filesystem files (fs_dirs fs) (fs_readonly fs) (fs_copy2_works fs).

Definition set_fs (h : host) (fs : filesystem) : host :=
  Host (h_environ h) (h_which h) (h_platform h) (h_app_dir h) fs.

(** [os.makedirs(p, exist_ok=True)]. *)
Definition makedirs (p : string) : M filesystem unit :=
  λ fs, if isfile fs p then (inl (OSError "File exists"), fs)
        else (inr tt, Filesystem (fs_files fs) ({[p]} ∪ fs_dirs fs)
                                 (fs_readonly fs) (fs_copy2_works fs)).

Definition writable (fs : filesystem) (p : string) : bool :=
  negb (isdir fs p) && negb (bool_decide (p ∈ fs_readonly fs)).

(** [with open(p, "w", encoding="utf-8") as f: f.write(text)]. *)
Definition write_text (p text : string) : M filesystem unit :=
  λ fs, if writable fs p then (inr tt, set_files fs (<[p := text]> (fs_files fs)))
        else (inl (OSError "Permission denied"), fs).

(** What text mode reads back of a content written in text mode. *)
Definition read_back (linesep : string) (text : string) : string :=
  universal_newlines (on_disk linesep text).

Fixpoint has_cr (s : string) : bool :=
  match s with
  | String c s' => Ascii.eqb c CR || has_cr s'
  | EmptyString => false
  end.

(** [with open(p, "r", encoding="utf-8") as f: f.read()]: the bytes on
    disk, read with universal newlines. *)
Definition read_text (linesep : string) (p : string) : M filesystem string :=
  λ fs, match fs_files fs !! p with
        | Some text => (inr (read_back linesep text), fs)
        | None => (inl FileNotFoundError, fs)
        end.

(** [shutil.copy2(src, dst)] onto a file path. *)
Definition copy2 (src dst : string) : M filesystem unit :=
  λ fs, if negb (fs_copy2_works fs) then (inl (OSError "copy failed"), fs)
        else match fs_files fs !! src with
             | Some text =>
                 if writable fs dst
                 then (inr tt, set_files fs (<[dst := text]> (fs_files fs)))
                 else (inl (OSError "Permission denied"), fs)
             | None => (inl FileNotFoundError, fs)
             end.

(** ** Tool resolver *)

Module Resolver.
Section WithHost.
Variable h : host.

Definition join := path_join (h_sep h).

(** [env.get(k) or rest]. *)
Definition env_get_or (k : string) (rest : string) : string :=
  match h_environ h !! k with
  | Some v => if PyStr.truthy v then v else rest
  | None => rest
  end.

(** [dict.fromkeys(l)]: the keys of [l] in order of first occurrence. *)
Fixpoint dict_fromkeys (seen l : list string) : list string :=
  match l with
  | [] => []
  | x :: l' =>
      if bool_decide (x ∈ seen) then dict_fromkeys seen l'
      else x :: dict_fromkeys (x :: seen) l'
  end.

Definition when (c : string) (l : list string) : list string :=
  if PyStr.truthy c then l else [].

Definition _possible_node_dirs : list string :=
  let userprofile := env_get_or "USERPROFILE" (env_get_or "HOMEPATH" "") in
  let appdata := env_get_or "APPDATA" "" in
  let localapp := env_get_or "LOCALAPPDATA" "" in
  let program_files := env_get_or "ProgramFiles" "" in
  let program_files_x86 := env_get_or "ProgramFiles(x86)" "" in
  let dirs :=
    when appdata [join appdata "npm"] ++
    when localapp [join (join localapp "Programs") "npm";
                   join (join localapp "Programs") "nodejs"] ++
    when program_files [join program_files "nodejs"] ++
    when program_files_x86 [join program_files_x86 "nodejs"] ++
    when userprofile [join (join (join userprofile "AppData") "Roaming") "npm";
                      join (join userprofile ".npm") "_npx"] in
  filter (λ d, PyStr.truthy d && isdir (h_fs h) d = true) (dict_fromkeys [] dirs).

Definition suffixes : list string := [""; ".cmd"; ".exe"; ".bat"].

(** A usable hit of one name on the inherited search path. *)
Definition path_hit (n : string) : option string :=
  match h_which h n with
  | Some p => if PyStr.truthy p then Some p else None
  | None => None
  end.

(** The first loop: [for n in names: p = which(n); if p: return p]. *)
Fixpoint search_path (names : list string) : option string :=
  match names with
  | [] => None
  | n :: names' =>
      match h_which h n with
      | Some p => if PyStr.truthy p then Some p else search_path names'
      | None => search_path names'
      end
  end.

(** The innermost loop: [for suf in suffixes]. *)
Fixpoint probe_suffixes (d base : string) (sufs : list string) : option string :=
  match sufs with
  | [] => None
  | suf :: sufs' =>
      let cand := join d (base +:+ suf) in
      if isfile (h_fs h) cand then Some cand else probe_suffixes d base sufs'
  end.

(** [for d in dirs]. *)
Fixpoint probe_dirs (dirs : list string) (base : string) : option string :=
  match dirs with
  | [] => None
  | d :: dirs' =>
      match probe_suffixes d base suffixes with
      | Some cand => Some cand
      | None => probe_dirs dirs' base
      end
  end.

(** [for base in names]. *)
Fixpoint probe_names (dirs : list string) (names : list string) : option string :=
  match names with
  | [] => None
  | base :: names' =>
      match probe_dirs dirs base with
      | Some cand => Some cand
      | None => probe_names dirs names'
      end
  end.

(** [_which_executable] over an explicit directory list. *)
Definition which_executable_in (dirs names : list string) : option string :=
  match search_path names with
  | Some p => Some p
  | None => probe_names dirs names
  end.

Definition _which_executable (names : list string) : option string :=
  which_executable_in _possible_node_dirs names.

(** The candidates of the second phase in the order the loops visit them. *)
Definition candidates (dirs names : list string) : list string :=
  base ← names; d ← dirs; suf ← suffixes; [join d (base +:+ suf)].

(** A directory contains a match for one of the names. *)
Definition has_match (names : list string) (d : string) : Prop :=
  ∃ base suf, base ∈ names ∧ suf ∈ suffixes ∧
              isfile (h_fs h) (join d (base +:+ suf)) = true.

End WithHost.
End Resolver.

(** ** Subprocesses *)

(** Values of the keyword arguments given to [subprocess.Popen]. *)
Inductive kwval :=
  | KNone
  | KBool (b : bool)
  | KInt (n : Z)
  | KStr (s : string)
  | KPipe                               (* subprocess.PIPE *)
  | KStdout                             (* subprocess.STDOUT *)
  | KEnv (e : gmap string string)
  | KStartupInfo (dwFlags wShowWindow : Z).

Definition kw_truthy (v : option kwval) : bool :=
  match v with
  | None | Some KNone => false
  | Some (KBool b) => b
  | Some (KInt n) => negb (n =? 0)
  | Some (KStr s) => PyStr.truthy s
  | Some (KEnv e) => bool_decide (e ≠ ∅)
  | Some _ => true
  end.

Definition kw_absent (v : option kwval) : bool :=
  match v with None => true | Some _ => false end.

(** [kwargs.get(k) is None]. *)
Definition kw_is_none (v : option kwval) : bool :=
  match v with None | Some KNone => true | Some _ => false end.

(** What a started child does: the result of [communicate(input, timeout)]
    (the return code and the captured output, or an exception), and
    whether [kill()] raises. *)
Record proc := Proc {
  proc_communicate : option string → Z → exn + (Z * string);
  proc_kill_raises : option exn
}.

Inductive event :=
  | EvPopen (cmd : list string) (kwargs : gmap string kwval)
  | EvCommunicate (input : option string) (timeout : Z)
  | EvKill.

(** The operating system as seen by [subprocess.Popen]: from the events so
    far and the call, either an exception or a started child. *)
Definition spawner := list event → list string → gmap string kwval → exn + proc.

Module Subprocess.
Section WithHost.
Variable h : host.
Variable os_popen : spawner.

Abbreviation Proc := (M (list event)).

Definition emit (e : event) : Proc unit := λ tr, (inr tt, tr ++ [e]).

(** [subprocess.Popen(cmd, **kwargs)]. *)
Definition Popen (cmd : list string) (kwargs : gmap string kwval) : Proc proc :=
  λ tr, match os_popen tr cmd kwargs with
        | inl e => (inl e, tr)
        | inr p => (inr p, tr ++ [EvPopen cmd kwargs])
        end.

Definition communicate (p : proc) (input : option string) (timeout : Z)
  : Proc (Z * string) :=
  _ ← emit (EvCommunicate input timeout);
  match proc_communicate p input timeout with
  | inl e => raise e
  | inr r => mret r
  end.

Definition kill (p : proc) : Proc unit :=
  match proc_kill_raises p with
  | Some e => raise e
  | None => emit EvKill
  end.

Definition STARTF_USESHOWWINDOW : Z := 1.
Definition CREATE_NO_WINDOW : Z := 0x08000000.

Definition setdefault (k : string) (v : kwval) (kw : gmap string kwval)
  : gmap string kwval :=
  match kw !! k with Some _ => kw | None => <[k := v]> kw end.

Definition kw_int (v : option kwval) (dflt : Z) : Z :=
  match v with Some (KInt n) => n | _ => dflt end.

Definition _popen_no_window (cmd : list string) (kwargs : gmap string kwval)
  : Proc proc :=
  let kwargs := setdefault "shell" (KBool false) kwargs in
  let kwargs := setdefault "stdout" KPipe kwargs in
  let kwargs := setdefault "stderr" KStdout kwargs in
  let kwargs :=
    if kw_absent (kwargs !! "stdin") && kw_truthy (kwargs !! "text")
       && negb (kw_is_none (kwargs !! "input"))
    then <["stdin" := KPipe]> kwargs else kwargs in
  let kwargs :=
    if PyStr.startswith "win" (h_platform h) then
      <["creationflags" :=
          KInt (Z.lor (kw_int (kwargs !! "creationflags") 0) CREATE_NO_WINDOW)]>
        (<["startupinfo" := KStartupInfo STARTF_USESHOWWINDOW 0]> kwargs)
    else kwargs in
  Popen cmd kwargs.

(** The three [except] clauses of [_run_subprocess]; [p] is the binding of
    the local [proc] when the exception was raised. *)
Definition run_handler (p : option proc) (e : exn) : Proc (Z * string) :=
  match e with
  | TimeoutExpired =>
      _ ← attempt (match p with Some p => kill p | None => raise NameError end);
      mret (1, "Timeout esecuzione comando.")
  | FileNotFoundError => mret (1, "Comando non trovato.")
  | e => mret (1, "Errore esecuzione comando: " +:+ exn_str e)
  end.

Definition _run_subprocess (cmd : list string) (input_text : option string)
    (timeout : Z) (env : option (gmap string string)) : Proc (Z * string) :=
  let env' := match env with
              | Some e => if bool_decide (e ≠ ∅) then e else h_environ h
              | None => h_environ h
              end in
  let kwargs : gmap string kwval :=
    <["stdin" := match input_text with Some _ => KPipe | None => KNone end]>
    (<["stdout" := KPipe]>
    (<["stderr" := KStdout]>
    (<["text" := KBool true]>
    (<["env" := KEnv env']>
    (<["cwd" := KStr (h_app_dir h)]> ∅))))) in
  r ← attempt (_popen_no_window cmd kwargs);
  match r with
  | inl e => run_handler None e
  | inr p =>
      r2 ← attempt (communicate p input_text timeout);
      match r2 with
      | inl e => run_handler (Some p) e
      | inr (rc, out) => mret (rc, out)
      end
  end.

End WithHost.

(** What the specification asks of the events of one invocation: no
    shell, both output streams captured into one pipe, and a positive
    timeout of at most five minutes on every wait. *)
Definition event_contained (e : event) : Prop :=
  match e with
  | EvPopen _ kw =>
      kw !! "shell" = Some (KBool false) ∧ kw !! "stdout" = Some KPipe ∧
      kw !! "stderr" = Some KStdout
  | EvCommunicate _ t => 0 < t ≤ 300
  | EvKill => True
  end.

(** A computation that never raises and only adds contained events. *)
Definition contained {A} (m : M (list event) A) : Prop :=
  ∀ tr, ∃ a evs, m tr = (inr a, tr ++ evs) ∧ Forall event_contained evs.

End Subprocess.

(** ** Deploy dispatcher *)

Module Dispatcher.
Section WithHost.
Variable h : host.
Variable os_popen : spawner.

Abbreviation Proc := (M (list event)).
Abbreviation _run_subprocess := (Subprocess._run_subprocess h os_popen).
Abbreviation _which_executable := (Resolver._which_executable h).

Definition SURGE_DOMAIN : string := "".
Definition SURGE_EMAIL : string := "".
Definition SURGE_PASSWORD : string := "".

(** The line break ["\n"]. *)
Definition nl : string := String (ascii_of_nat 10) EmptyString.

Definition _surge_login_if_needed (surge_cmd : string) : Proc (bool * string) :=
  '(rc, out) ← _run_subprocess [surge_cmd; "whoami"] None 30 None;
  if (rc =? 0) && PyStr.truthy out &&
     (PyStr.contains "email" (PyStr.lower out)
      || PyStr.contains "you are" (PyStr.lower out)
      || PyStr.contains "logged" (PyStr.lower out))
  then mret (true, out)
  else
    let login_input := SURGE_EMAIL +:+ nl +:+ SURGE_PASSWORD +:+ nl in
    '(rc2, out2) ← _run_subprocess [surge_cmd; "login"] (Some login_input) 60 None;
    '(rc3, out3) ← _run_subprocess [surge_cmd; "whoami"] None 30 None;
    let ok := (rc2 =? 0) || (rc3 =? 0) in
    mret (ok, out +:+ nl +:+ out2 +:+ nl +:+ out3).

(** The package-runner half of [deploy_to_surge]; [last] is the record
    of the direct attempt. *)
Definition deploy_with_npx (folder last : string) : Proc (bool * string) :=
  match _which_executable ["npx"] with
  | None =>
      mret (false, last +:+ nl +:+
        "[npx] non trovato. Installa Node.js (npx) o aggiungi surge alla PATH.")
  | Some npx_cmd =>
      '(rc_login, out_login) ← _run_subprocess [npx_cmd; "surge"; "whoami"] None 60 None;
      _ ← (if negb (rc_login =? 0)
              || PyStr.contains "not logged" (PyStr.lower out_login)
              || PyStr.contains "no token" (PyStr.lower out_login)
           then
             _ ← _run_subprocess [npx_cmd; "surge"; "login"]
                   (Some (SURGE_EMAIL +:+ nl +:+ SURGE_PASSWORD +:+ nl)) 120 None;
             mret tt
           else mret tt);
      '(rc2, out2) ← _run_subprocess [npx_cmd; "surge"; folder; SURGE_DOMAIN; "--yes"]
                        None 300 None;
      if rc2 =? 0 then mret (true, out2)
      else mret (false, last +:+ nl +:+ "[npx surge] rc=" +:+ PyStr.of_int rc2
                          +:+ nl +:+ out2)
  end.

Definition deploy_to_surge (folder : string) : Proc (bool * string) :=
  match _which_executable ["surge"] with
  | Some surge_cmd =>
      '(ok_login, log1) ← _surge_login_if_needed surge_cmd;
      '(rc, out) ← _run_subprocess [surge_cmd; folder; SURGE_DOMAIN; "--yes"]
                      None 240 None;
      if rc =? 0 then mret (true, out)
      else deploy_with_npx folder ("[surge] rc=" +:+ PyStr.of_int rc +:+ nl +:+ out)
  | None =>
      deploy_with_npx folder "[surge] non trovato; provo npx"
  end.

End WithHost.
End Dispatcher.

(** ** Dashboard generation *)

Module Dashboard.
Import PyVal Store.

(** ["%d/%m/%y %H:%M"]. *)
Definition DISPLAY : DateTime.format :=
  [DateTime.Dir_d; DateTime.Lit "/"; DateTime.Dir_m; DateTime.Lit "/";
   DateTime.Dir_y; DateTime.Lit " "; DateTime.Dir_H; DateTime.Lit ":";
   DateTime.Dir_M].

Definition it_ts_display (ts_iso : string) : string :=
  match DateTime.strptime ts_iso DateTime.ISO with
  | inr dt => DateTime.strftime DISPLAY dt
  | inl _ => ts_iso
  end.

(** [format_num].  The [except] branch is only reached by a value
    [float] rejects, which is never a float; there [str(x)] is the string
    itself. *)
Definition format_num (x : pyval) : string :=
  match py_float x with
  | inr f => fmt_2f f
  | inl _ => match x with PyStr s => s | PyFloat f => fmt_2f f end
  end.

Definition nl : string := String (ascii_of_nat 10) EmptyString.
(** The double quote character. *)
Definition dq : string := String (ascii_of_nat 34) EmptyString.

(** *** Aggregation: the latest reading and its 30-day window *)

Definition aggregate (st : store) : exn + (row * list row) :=
  match fetch_last_record st with
  | None => inl (RuntimeError "Nessun record presente nel database.")
  | Some last =>
      match DateTime.strptime (timestamp last) DateTime.ISO with
      | inl e => inl e
      | inr last_dt =>
          match DateTime.sub_days last_dt 30 with
          | inl e => inl e
          | inr start_dt =>
              match fetch_records
                      (Some (DateTime.strftime DateTime.ISO start_dt))
                      (Some (DateTime.strftime DateTime.ISO last_dt)) st with
              | inl e => inl e
              | inr records => inr (last, records)
              end
          end
      end
  end.

(** *** Rendering *)

(** The five numeric series of the chart and the rows of the table. *)
Record series := Series {
  labels : list string;
  o2_vals : list pyfloat; rh1_vals : list pyfloat; t1_vals : list pyfloat;
  rh2_vals : list pyfloat; t2_vals : list pyfloat;
  table_rows : list string
}.

Definition table_row (r : row) : string :=
  nl +:+ "<tr>" +:+ nl +:+
  "  <td>" +:+ it_ts_display (timestamp r) +:+ "</td>" +:+ nl +:+
  "  <td>" +:+ format_num (o2 r) +:+ "</td>" +:+ nl +:+
  "  <td>" +:+ format_num (rh1 r) +:+ "</td>" +:+ nl +:+
  "  <td>" +:+ format_num (temp1 r) +:+ "</td>" +:+ nl +:+
  "  <td>" +:+ format_num (rh2 r) +:+ "</td>" +:+ nl +:+
  "  <td>" +:+ format_num (temp2 r) +:+ "</td>" +:+ nl +:+
  "  <td>" +:+ elio_ok r +:+ "</td>" +:+ nl +:+
  "  <td>" +:+ aspirazione_ok r +:+ "</td>" +:+ nl +:+
  "  <td>" +:+ operatore r +:+ "</td>" +:+ nl +:+
  "</tr>".

(** The body of [for r in records:] on the accumulated lists. *)
Definition add_record (acc : series) (r : row) : exn + series :=
  match py_float (o2 r) with inl e => inl e | inr a =>
  match py_float (rh1 r) with inl e => inl e | inr b =>
  match py_float (temp1 r) with inl e => inl e | inr c =>
  match py_float (rh2 r) with inl e => inl e | inr d =>
  match py_float (temp2 r) with inl e => inl e | inr e' =>
    inr (Series (labels acc ++ [it_ts_display (timestamp r)])
                (o2_vals acc ++ [a]) (rh1_vals acc ++ [b]) (t1_vals acc ++ [c])
                (rh2_vals acc ++ [d]) (t2_vals acc ++ [e'])
                (table_rows acc ++ [table_row r]))
  end end end end end.

Fixpoint build_series (acc : series) (records : list row) : exn + series :=
  match records with
  | [] => inr acc
  | r :: records' =>
      match add_record acc r with
      | inl e => inl e
      | inr acc' => build_series acc' records'
      end
  end.

(** [float] accepts the value, and all five sensor values of a row. *)
Definition numeric (x : pyval) : bool :=
  match py_float x with inr _ => true | inl _ => false end.

Definition numeric_row (r : row) : bool :=
  numeric (o2 r) && numeric (rh1 r) && numeric (temp1 r)
  && numeric (rh2 r) && numeric (temp2 r).

(** The values interpolated into the page. *)
Record page := Page {
  pg_chart_tag : string;
  pg_last_ts : string;
  pg_last_operatore : string;
  pg_last_o2 : string; pg_last_rh1 : string; pg_last_temp1 : string;
  pg_last_rh2 : string; pg_last_temp2 : string;
  pg_elio_badge : string; pg_elio : string;
  pg_aspirazione_badge : string; pg_aspirazione : string;
  pg_table : string;
  pg_generated : string;
  pg_series : series
}.

Definition CHART_LOCAL : string :=
  "<script src=" +:+ dq +:+ "chart.umd.min.js" +:+ dq +:+ "></script>".
Definition CHART_CDN : string :=
  "<script src=" +:+ dq +:+ "https://cdn.jsdelivr.net/npm/chart.js" +:+ dq
    +:+ "></script>".

Definition badge (v : string) : string := if String.eqb v "SI" then "ok" else "no".

Section Generator.
Variable h : host.
(** The fixed markup, style sheet and script of the page as a function of
    the interpolated values (the f-string of [generate_dashboard_html];
    the series are serialised by [json.dumps] inside it). *)
Variable html_template : page → string.
Variable st : store.
(** The two readings of [datetime.now()]: for the footer and for the name
    of the archival copy. *)
Variable now_footer now_name : DateTime.datetime.

Definition lift {A} (r : exn + A) : M filesystem A :=
  match r with inl e => raise e | inr a => mret a end.

(** The choice of the Chart.js script tag. *)
Definition choose_chart_tag (out_dir : string) (use_offline : bool)
  : M filesystem string :=
  let local_chart_in_outdir := path_join (h_sep h) out_dir "chart.umd.min.js" in
  let local_chart_in_app := path_join (h_sep h) (h_app_dir h) "chart.umd.min.js" in
  fs ← get;
  if use_offline && path_exists fs local_chart_in_outdir then mret CHART_LOCAL
  else if use_offline && path_exists fs local_chart_in_app then
    r ← attempt (copy2 local_chart_in_app local_chart_in_outdir);
    match r with
    | inr _ => mret CHART_LOCAL
    | inl _ => mret CHART_CDN
    end
  else mret CHART_CDN.

Definition render (last : row) (s : series) (chart_tag : string) : string :=
  html_template
    (Page chart_tag (it_ts_display (timestamp last)) (operatore last)
          (format_num (o2 last)) (format_num (rh1 last)) (format_num (temp1 last))
          (format_num (rh2 last)) (format_num (temp2 last))
          (badge (elio_ok last)) (elio_ok last)
          (badge (aspirazione_ok last)) (aspirazione_ok last)
          (PyStr.join (table_rows s))
          (DateTime.strftime DISPLAY now_footer)
          s).

(** The two files written at the end of [generate_dashboard_html]. *)
Definition write_dashboard (out_dir html : string) : M filesystem (string * string) :=
  let ts_name := DateTime.strftime DateTime.STAMP now_name in
  let path_latest := path_join (h_sep h) out_dir "dashboard_latest.html" in
  let path_ts := path_join (h_sep h) out_dir ("dashboard_" +:+ ts_name +:+ ".html") in
  _ ← write_text path_latest html;
  _ ← write_text path_ts html;
  mret (path_latest, path_ts).

(** [generate_dashboard_html] up to the page text: the checks, the
    snapshot, the series and the script tag. *)
Definition render_dashboard (out_dir : string) (use_offline : bool)
  : M filesystem string :=
  if negb (PyStr.truthy out_dir)
  then raise (RuntimeError "Cartella dashboard non impostata.")
  else
    fs ← get;
    _ ← (if path_exists fs out_dir then mret tt else makedirs out_dir);
    '(last, records) ← lift (aggregate st);
    s ← lift (build_series (Series [] [] [] [] [] [] []) records);
    chart_tag ← choose_chart_tag out_dir use_offline;
    mret (render last s chart_tag).

Definition generate_dashboard_html (out_dir : string) (use_offline : bool)
  : M filesystem (string * string) :=
  html ← render_dashboard out_dir use_offline;
  write_dashboard out_dir html.

End Generator.
End Dashboard.

(** ** The application: saving a reading and publishing the dashboard

    The dialogs and widgets are left out; the deploy that the source hands
    to a worker thread is run to completion in sequence. *)

Module App.
Import PyVal Store.

Record app := mk {
  app_store : store;
  app_fs : filesystem;
  app_trace : list event     (* the subprocess events so far *)
}.

(** How [save_record] ends: one of its two error dialogs, or the verdict
    that the worker hands to [_done]. *)
Inductive outcome :=
  | ValidationError (msg : string)
  | Failed (msg : string)
  | Deployed (ok : bool) (log : string).

(** The values of the form. *)
Record form := Form {
  f_o2 : string; f_rh1 : string; f_temp1 : string; f_rh2 : string;
  f_temp2 : string; f_elio : string; f_aspirazione : string;
  f_operatore : string
}.

Fixpoint replace_comma (s : string) : string :=
  match s with
  | String c s' => String (if Ascii.eqb c "," then "."%char else c) (replace_comma s')
  | EmptyString => EmptyString
  end.

Definition parse_float (value_str field_name : string) : exn + pyfloat :=
  let s := replace_comma (strip value_str) in
  if String.eqb s "" then inl (ValueError ("Il campo '" +:+ field_name +:+ "' è vuoto."))
  else match float_of_string s with
       | Some f => inr f
       | None => inl (ValueError ("Il campo '" +:+ field_name
                        +:+ "' deve essere un numero. Valore dato: '"
                        +:+ value_str +:+ "'"))
       end.

Section WithHost.
Variable h : host.
Variable os_popen : spawner.
Variable html_template : Dashboard.page → string.
(** The preference [chart_offline] of the configuration. *)
Variable chart_offline : bool.

Definition DASH_FOLDER_NAME : string := "dashboardmri".
Definition DASH_DIR : string := path_join (h_sep h) (h_app_dir h) DASH_FOLDER_NAME.

Definition INDEX : string := path_join (h_sep h) DASH_DIR "index.html".

(** The end of [_generate_dashboard_to_fixed_dir]: [index.html] becomes a
    copy of the stable file, by [shutil.copy2] or, when that raises, by
    reading the stable file and writing its text. *)
Definition mirror_index (latest : string) : M filesystem unit :=
  r ← attempt (copy2 latest INDEX);
  match r with
  | inr _ => mret tt
  | inl _ =>
      (* [open(index, "w")] truncates before the source is read *)
      _ ← write_text INDEX "";
      text ← read_text (h_linesep h) latest;
      write_text INDEX text
  end.

(** The content of [index.html] after the mirroring of a stable file
    that holds [html]: a copy of it, or what the fallback reads of it. *)
Definition mirrored (fs : filesystem) (html : string) : string :=
  if fs_copy2_works fs then html else read_back (h_linesep h) html.

Definition _generate_dashboard_to_fixed_dir (st : store)
    (now_footer now_name : DateTime.datetime) : M filesystem (string * string) :=
  _ ← makedirs DASH_DIR;
  '(latest, tsfile) ←
    Dashboard.generate_dashboard_html h html_template st now_footer now_name
      DASH_DIR chart_offline;
  _ ← mirror_index latest;
  mret (latest, tsfile).

(** The commit of a rendered page [html]: the two writes that end
    [generate_dashboard_html] and the mirroring that follows them in
    [_generate_dashboard_to_fixed_dir]. *)
Definition commit (now_name : DateTime.datetime) (html : string)
  : M filesystem (string * string) :=
  '(latest, tsfile) ← Dashboard.write_dashboard h now_name DASH_DIR html;
  _ ← mirror_index latest;
  mret (latest, tsfile).

Definition LATEST : string := path_join (h_sep h) DASH_DIR "dashboard_latest.html".
Definition ARCHIVE (now_name : DateTime.datetime) : string :=
  path_join (h_sep h) DASH_DIR
    ("dashboard_" +:+ DateTime.strftime DateTime.STAMP now_name +:+ ".html").

(** The publish cycle of [save_record]: generate and commit the
    dashboard, then deploy it.  An exception of the first step ends the
    cycle before the worker is started. *)
Definition publish_cycle (now_footer now_name : DateTime.datetime) : M app (bool * string) :=
  λ a,
    match _generate_dashboard_to_fixed_dir (app_store a) now_footer now_name (app_fs a) with
    | (inl e, fs') => (inl e, mk (app_store a) fs' (app_trace a))
    | (inr _, fs') =>
        let '(r, tr') :=
          Dispatcher.deploy_to_surge (set_fs h fs') os_popen DASH_DIR (app_trace a) in
        (r, mk (app_store a) fs' tr')
    end.

Definition insert (now : DateTime.datetime) (o2 rh1 temp1 rh2 temp2 : pyfloat)
    (elio aspirazione operatore : string) : M app string :=
  λ a,
    let '(r, st') := insert_record now o2 rh1 temp1 rh2 temp2 elio aspirazione
                       operatore (app_store a) in
    (r, mk st' (app_fs a) (app_trace a)).

Definition lift {A} (r : exn + A) : M app A :=
  match r with inl e => raise e | inr a => mret a end.

(** The [try] block of [save_record]. *)
Definition save_record_body (f : form)
    (now now_footer now_name : DateTime.datetime) : M app (bool * string) :=
  o2 ← lift (parse_float (f_o2 f) "Percentuale O2");
  rh1 ← lift (parse_float (f_rh1 f) "RH Umidità 1");
  temp1 ← lift (parse_float (f_temp1 f) "Temperatura 1");
  rh2 ← lift (parse_float (f_rh2 f) "RH Umidità 2");
  temp2 ← lift (parse_float (f_temp2 f) "Temperatura 2");
  let operatore := strip (f_operatore f) in
  if negb (PyStr.truthy operatore)
  then raise (ValueError "Il campo 'Operatore' non può essere vuoto.")
  else
    let operatore :=
      if (10 <? len operatore)%nat then slice_to 10 operatore
      else operatore in
    _ ← insert now o2 rh1 temp1 rh2 temp2 (f_elio f) (f_aspirazione f) operatore;
    publish_cycle now_footer now_name.

Definition save_record (f : form) (now now_footer now_name : DateTime.datetime)
    (a : app) : outcome * app :=
  match save_record_body f now now_footer now_name a with
  | (inr (ok, log), a') => (Deployed ok log, a')
  | (inl (ValueError msg), a') => (ValidationError msg, a')
  | (inl e, a') => (Failed ("Si è verificato un errore: " +:+ exn_str e), a')
  end.

(** [manual_generate_dashboard]: regenerate without deploying. *)
Definition manual_generate_dashboard (now_footer now_name : DateTime.datetime)
    (a : app) : option string * app :=
  match _generate_dashboard_to_fixed_dir (app_store a) now_footer now_name (app_fs a) with
  | (inl e, fs') => (Some ("Impossibile generare la dashboard:" +:+ Dashboard.nl
                             +:+ exn_str e),
                     mk (app_store a) fs' (app_trace a))
  | (inr _, fs') => (None, mk (app_store a) fs' (app_trace a))
  end.

(** [restore_database]: once a file is chosen and the overwrite is
    confirmed, the database becomes a copy of that file; [backup] is the
    [logs] table the chosen file holds. *)
Definition restore_database (chosen : option store) (confirmed : bool) (a : app) : app :=
  match chosen with
  | Some backup => if confirmed then mk backup (app_fs a) (app_trace a) else a
  | None => a
  end.

(** The operations of the program on the record store. *)
Inductive operation :=
  | OpInit
  | OpSave (f : form) (now now_footer now_name : DateTime.datetime)
  | OpRegenerate (now_footer now_name : DateTime.datetime)
  | OpQuery (start end_ : option string)
  | OpRestore (chosen : option store) (confirmed : bool).

Definition run_operation (op : operation) (a : app) : app :=
  match op with
  | OpInit => mk (init_db (Some (app_store a))) (app_fs a) (app_trace a)
  | OpSave f now now_footer now_name => (save_record f now now_footer now_name a).2
  | OpRegenerate now_footer now_name => (manual_generate_dashboard now_footer now_name a).2
  | OpQuery _ _ => a
  | OpRestore chosen confirmed => restore_database chosen confirmed a
  end.

End WithHost.
End App.

(** ** The registry viewer and the HTML export *)

Module Viewer.
Import PyVal Store.

(** The double quote character and the line break. *)
Definition dq : string := String (ascii_of_nat 34) EmptyString.
Definition nl : string := String (ascii_of_nat 10) EmptyString.

(** The lines of a text, joined by line breaks. *)
Definition lines (l : list string) : string := String.concat nl l.

(** [COLUMNS]: the labels of the table head. *)
Definition COLUMN_LABELS : list string :=
  ["Data/Ora"; "O2 (%)"; "RH Umidità 1 (%)"; "Temperatura 1 (°C)";
   "RH Umidità 2 (%)"; "Temperatura 2 (°C)"; "Livello di elio (SI/NO)";
   "Aspirazione forzata (SI/NO)"; "Operatore"].

(** [x or dflt] for an optional string. *)
Definition or_else (x : option string) (dflt : string) : string :=
  match given x with Some s => s | None => dflt end.

Definition export_head (title period : string) : string :=
  lines
    ["<!doctype html>";
     "<html lang=" +:+ dq +:+ "it" +:+ dq +:+ ">";
     "<head>";
     "<meta charset=" +:+ dq +:+ "utf-8" +:+ dq +:+ ">";
     "<title>" +:+ title +:+ "</title>";
     "<meta name=" +:+ dq +:+ "viewport" +:+ dq +:+ " content=" +:+ dq +:+ "width=device-width, initial-scale=1" +:+ dq +:+ ">";
     "<style>";
     "body { font-family: 'Segoe UI', Arial, Helvetica, sans-serif; margin: 40px; background:#f8f9fa; color:#2c3e50; }";
     "h1 { margin-bottom: .2rem; text-align:center; }";
     "p.meta { color: #555; margin-top: 0; text-align:center; }";
     "table { border-collapse: collapse; width: 100%; margin-top: 16px; background:#fff; box-shadow:0 2px 10px rgba(0,0,0,.05);}";
     "th, td { border-bottom: 1px solid #ecf0f1; padding: 10px; text-align: center; font-size: 14px; }";
     "th { background: #3498db; color:#fff; position:sticky; top:0; }";
     "tr:nth-child(even) { background: #f8f9fa; }";
     ".footer { margin-top: 24px; font-size: 12px; color: #777; text-align:center; }";
     "@media print {";
     "  body { margin: 0; }";
     "  h1 { font-size: 20px; }";
     "}";
     "</style>";
     "</head>";
     "<body>";
     "<h1>🏥 " +:+ title +:+ "</h1>";
     "<p class=" +:+ dq +:+ "meta" +:+ dq +:+ ">" +:+ period +:+ "</p>";
     "<table>";
     "<thead>";
     "<tr>"].

Definition export_tail (rows generated : string) : string :=
  lines
    ["</tr>";
     "</thead>";
     "<tbody>";
     rows;
     "</tbody>";
     "</table>";
     "<div class=" +:+ dq +:+ "footer" +:+ dq +:+ ">Generato il " +:+ generated +:+ "</div>";
     "</body>";
     "</html>"].

(** The line under the title: empty unless a bound was given. *)
Definition export_period (start end_ : option string) : string :=
  match given start, given end_ with
  | None, None => ""
  | _, _ => "Intervallo: " +:+ or_else start "-" +:+ " → " +:+ or_else end_ "-"
  end.

(** The values shown for a row, in the order of the columns. *)
Definition row_values (r : row) : list string :=
  [Dashboard.it_ts_display (timestamp r);
   Dashboard.format_num (o2 r); Dashboard.format_num (rh1 r);
   Dashboard.format_num (temp1 r); Dashboard.format_num (rh2 r);
   Dashboard.format_num (temp2 r);
   elio_ok r; aspirazione_ok r; operatore r].

(** One [<tr>] of the export: a line break, then a line per cell. *)
Definition export_row (r : row) : string :=
  nl +:+ "<tr>" +:+ nl
  +:+ PyStr.join (map (λ v, "  <td>" +:+ v +:+ "</td>" +:+ nl) (row_values r))
  +:+ "</tr>".

Definition export_document (records : list row) (start end_ : option string)
    (now : DateTime.datetime) : string :=
  let title := "Registro Parametri Ambientali MRI" in
  let headers := PyStr.join (map (λ label, "<th>" +:+ label +:+ "</th>") COLUMN_LABELS) in
  export_head title (export_period start end_) +:+ headers
  +:+ export_tail (PyStr.join (map export_row records))
                  (DateTime.strftime Dashboard.DISPLAY now).

(** [export_html]. *)
Definition export_html (records : list row) (filepath : string)
    (start end_ : option string) (now : DateTime.datetime) : M filesystem unit :=
  write_text filepath (export_document records start end_ now).

(** [get_filters]: an entry that is blank after stripping is no bound. *)
Definition get_filter (entry : string) : option string :=
  let s := strip entry in if PyStr.truthy s then Some s else None.

Fixpoint replace_char (a b : ascii) (s : string) : string :=
  match s with
  | String c s' => String (if Ascii.eqb c a then b else c) (replace_char a b s')
  | EmptyString => EmptyString
  end.

(** The file name proposed by [do_export_html]. *)
Definition default_name (start end_ : option string) : string :=
  replace_char "/" "-"
    (replace_char ":" "-"
       (replace_char " " "_"
          ("registro_MRI_" +:+ or_else start "inizio" +:+ "_to_"
             +:+ or_else end_ "fine" +:+ ".html"))).

(** How [refresh] and [do_export_html] end. *)
Inductive outcome :=
  | QueryError (msg : string)        (* the error dialog of the query *)
  | NoData                           (* "Nessun dato" *)
  | Cancelled                        (* no file chosen *)
  | Exported (filepath : string)
  | ExportError (msg : string).

(** [refresh]: the rows of the table, or the message of the error dialog. *)
Definition refresh (start_entry end_entry : string) (d : Db.db)
  : string + list (list string) :=
  match Db.fetch_records (get_filter start_entry) (get_filter end_entry) d with
  | inl e => inl (exn_str e)
  | inr records => inr (map row_values records)
  end.

(** [App.refresh_main_registry]: the table of the main window, which
    queries without bounds. *)
Definition refresh_main_registry (d : Db.db) : string + list (list string) :=
  match Db.fetch_records None None d with
  | inl e => inl (exn_str e)
  | inr records => inr (map row_values records)
  end.

(** [do_export_html]; [chosen] is the answer of the save dialog, empty when
    it is dismissed. *)
Definition do_export_html (start_entry end_entry : string) (chosen : string)
    (now : DateTime.datetime) (st : store) (fs : filesystem) : outcome * filesystem :=
  let start := get_filter start_entry in
  let end_ := get_filter end_entry in
  match fetch_records start end_ st with
  | inl e => (QueryError (exn_str e), fs)
  | inr [] => (NoData, fs)
  | inr records =>
      if negb (PyStr.truthy chosen) then (Cancelled, fs)
      else match export_html records chosen start end_ now fs with
           | (inr _, fs') => (Exported chosen, fs')
           | (inl e, fs') => (ExportError (exn_str e), fs')
           end
  end.

End Viewer.

(** ** The configuration file *)

Module Config.

(** A JSON value as [json.load] returns it. *)
#[warning="-register-all"]
Inductive json :=
  | JNull
  | JBool (b : bool)
  | JNum (n : Z)
  | JStr (s : string)
  | JList (l : list json)
  | JDict (d : list (string * json)).

(** [bool(v)]. *)
Definition truthy (v : json) : bool :=
  match v with
  | JNull => false
  | JBool b => b
  | JNum n => negb (n =? 0)
  | JStr s => PyStr.truthy s
  | JList l => match l with [] => false | _ => true end
  | JDict d => match d with [] => false | _ => true end
  end.

(** [DEFAULT_CONFIG]. *)
Definition DEFAULT_CONFIG : list (string * json) :=
  [("dashboard_dir", JStr ""); ("chart_offline", JBool false)].

Definition setdefault (k : string) (v : json) (cfg : gmap string json)
  : gmap string json :=
  match cfg !! k with Some _ => cfg | None => <[k := v]> cfg end.

(** [load_config]; [loaded] is what opening the file and [json.load]
    give: an exception, or the value read.  A value that is not an object
    has no [setdefault], which raises inside the [try]. *)
Definition load_config (loaded : exn + json) : gmap string json :=
  match loaded with
  | inr (JDict d) =>
      fold_left (λ cfg kv, setdefault kv.1 kv.2 cfg) DEFAULT_CONFIG
                (list_to_map (reverse d))
  | _ => list_to_map DEFAULT_CONFIG
  end.

(** [bool(self.config_data.get("chart_offline"))]. *)
Definition chart_offline (cfg : gmap string json) : bool :=
  match cfg !! "chart_offline" with Some v => truthy v | None => false end.

End Config.

(** ** Saving a reading on the database as [sqlite3] finds it

    [App] runs the program on a database that holds the table and can be
    written.  [Session] runs [save_record] on the database of [Db]: the
    insert may find the file unreadable or the write lock taken, and an
    insert that fails leaves the lock behind. *)

Module Session.
Import PyVal Store.

Record session := mk {
  s_db : Db.db;
  s_fs : filesystem;
  s_trace : list event     (* the subprocess events so far *)
}.

Section WithHost.
Variable h : host.
Variable os_popen : spawner.
Variable html_template : Dashboard.page → string.
Variable chart_offline : bool.

(** [_generate_dashboard_to_fixed_dir]: the directory is made first;
    [generate_dashboard_html] then reads the database. *)
Definition _generate_dashboard_to_fixed_dir (d : Db.db)
    (now_footer now_name : DateTime.datetime) : M filesystem (string * string) :=
  match Db.db_file d with
  | Db.Logs st =>
      App._generate_dashboard_to_fixed_dir h html_template chart_offline st
        now_footer now_name
  | Db.Unreadable _ e => _ ← makedirs (App.DASH_DIR h); raise e
  end.

Definition publish_cycle (now_footer now_name : DateTime.datetime)
  : M session (bool * string) :=
  λ s,
    match _generate_dashboard_to_fixed_dir (s_db s) now_footer now_name (s_fs s) with
    | (inl e, fs') => (inl e, mk (s_db s) fs' (s_trace s))
    | (inr _, fs') =>
        let '(r, tr') :=
          Dispatcher.deploy_to_surge (set_fs h fs') os_popen (App.DASH_DIR h)
            (s_trace s) in
        (r, mk (s_db s) fs' tr')
    end.

Definition insert (now : DateTime.datetime) (o2 rh1 temp1 rh2 temp2 : pyfloat)
    (elio aspirazione operatore : string) : M session string :=
  λ s,
    let '(r, d') := Db.insert_record now o2 rh1 temp1 rh2 temp2 elio aspirazione
                      operatore (s_db s) in
    (r, mk d' (s_fs s) (s_trace s)).

Definition lift {A} (r : exn + A) : M session A :=
  match r with inl e => raise e | inr a => mret a end.

(** The [try] block of [save_record]. *)
Definition save_record_body (f : App.form)
    (now now_footer now_name : DateTime.datetime) : M session (bool * string) :=
  o2 ← lift (App.parse_float (App.f_o2 f) "Percentuale O2");
  rh1 ← lift (App.parse_float (App.f_rh1 f) "RH Umidità 1");
  temp1 ← lift (App.parse_float (App.f_temp1 f) "Temperatura 1");
  rh2 ← lift (App.parse_float (App.f_rh2 f) "RH Umidità 2");
  temp2 ← lift (App.parse_float (App.f_temp2 f) "Temperatura 2");
  let operatore := strip (App.f_operatore f) in
  if negb (PyStr.truthy operatore)
  then raise (ValueError "Il campo 'Operatore' non può essere vuoto.")
  else
    let operatore :=
      if (10 <? len operatore)%nat then slice_to 10 operatore
      else operatore in
    _ ← insert now o2 rh1 temp1 rh2 temp2 (App.f_elio f) (App.f_aspirazione f)
          operatore;
    publish_cycle now_footer now_name.

Definition save_record (f : App.form) (now now_footer now_name : DateTime.datetime)
    (s : session) : App.outcome * session :=
  match save_record_body f now now_footer now_name s with
  | (inr (ok, log), s') => (App.Deployed ok log, s')
  | (inl (ValueError msg), s') => (App.ValidationError msg, s')
  | (inl e, s') => (App.Failed ("Si è verificato un errore: " +:+ exn_str e), s')
  end.

End WithHost.
End Session.

(** ** Concrete scenarios

    Small stores, hosts and subprocess behaviours on which the properties
    below are exercised. *)

Module Scenario.
Import PyVal Store.

Definition fl (s : string) : pyfloat := default NaN (float_of_string s).

(** The reading of the specification's scenario. *)
Definition reading : row :=
  Row "2024-01-10 08:00:00" (PyFloat (fl "20.90")) (PyFloat (fl "45.00"))
      (PyFloat (fl "21.50")) (PyFloat (fl "44.00")) (PyFloat (fl "21.30"))
      "SI" "NO" "MRossi".

(** A reading three weeks earlier, and one from the autumn before. *)
Definition earlier : row :=
  Row "2023-12-20 17:45:10" (PyFloat (fl "20.8")) (PyFloat (fl "46"))
      (PyFloat (fl "21.1")) (PyFloat (fl "43.5")) (PyFloat (fl "21"))
      "SI" "SI" "LBianchi".
Definition old : row :=
  Row "2023-10-02 07:15:00" (PyFloat (fl "20.7")) (PyFloat (fl "47"))
      (PyFloat (fl "21.9")) (PyFloat (fl "44.5")) (PyFloat (fl "22"))
      "NO" "SI" "MRossi".

Definition one_reading : store := [reading].
Definition three_readings : store := [old; reading; earlier].

(** A reading whose oxygen column holds text that is not a number. *)
Definition text_reading : row :=
  Row "2024-01-10 08:00:00" (PyStr "abc") (PyFloat (fl "45.00"))
      (PyFloat (fl "21.50")) (PyFloat (fl "44.00")) (PyFloat (fl "21.30"))
      "SI" "NO" "MRossi".

(** A row of a database written by another tool, stamped without leading
    zeros. *)
Definition foreign_reading : row :=
  Row "2024-1-5 8:0:0" (PyFloat (fl "20.90")) (PyFloat (fl "45.00"))
      (PyFloat (fl "21.50")) (PyFloat (fl "44.00")) (PyFloat (fl "21.30"))
      "SI" "NO" "MRossi".

(** A reading stamped in the format of [insert_record], two weeks after
    [datetime.min]. *)
Definition ancient_reading : row :=
  Row "0001-01-15 00:00:00" (PyFloat (fl "20.90")) (PyFloat (fl "45.00"))
      (PyFloat (fl "21.50")) (PyFloat (fl "44.00")) (PyFloat (fl "21.30"))
      "SI" "NO" "MRossi".
Definition jan15_year1 : DateTime.datetime := DateTime.mk 1 1 15 0 0 0.

Definition jan10 : DateTime.datetime := DateTime.mk 2024 1 10 8 0 0.
Definition jan10_later : DateTime.datetime := DateTime.mk 2024 1 10 8 0 7.
Definition dec20 : DateTime.datetime := DateTime.mk 2023 12 20 17 45 10.
Definition oct02 : DateTime.datetime := DateTime.mk 2023 10 2 7 15 0.

(** A template that lists the interpolated texts. *)
Definition plain_template (p : Dashboard.page) : string :=
  Dashboard.pg_chart_tag p +:+ Dashboard.pg_last_ts p +:+ Dashboard.pg_last_operatore p
  +:+ Dashboard.pg_last_o2 p +:+ Dashboard.pg_table p +:+ Dashboard.pg_generated p.

(** A reading whose operator name holds a carriage return. *)
Definition cr_reading : row :=
  Row "2024-01-10 08:00:00" (PyFloat (fl "20.90")) (PyFloat (fl "45.00"))
      (PyFloat (fl "21.50")) (PyFloat (fl "44.00")) (PyFloat (fl "21.30"))
      "SI" "NO" ("M" +:+ String CR "Rossi").

(** A page that holds a carriage return, and what text mode reads of
    it. *)
Definition page_cr : string := "<p>a" +:+ String CR "b</p>".
Definition page_lf : string := "<p>a" +:+ String LF "b</p>".

Definition dash_dir : string := "/opt/mri/dashboardmri".

Definition fs_ready : filesystem := Filesystem ∅ {[dash_dir]} ∅ true.
Definition fs_no_copy2 : filesystem := Filesystem ∅ {[dash_dir]} ∅ false.

(** A host with neither tool installed. *)
Definition host_bare : host := Host ∅ (λ _, None) "linux" "/opt/mri" fs_ready.

(** A host with both tools on the search path. *)
Definition host_tools : host :=
  Host ∅ (λ n, if String.eqb n "surge" then Some "/usr/bin/surge"
               else if String.eqb n "npx" then Some "/usr/bin/npx" else None)
       "linux" "/opt/mri" fs_ready.

(** A Windows host: [npx.cmd] sits in the Node.js directory under Program
    Files, the npm directory of the user is empty, nothing is on the
    search path. *)
Definition npm_dir : string := "C:\Users\mri\AppData\Roaming\npm".
Definition nodejs_dir : string := "C:\Program Files\nodejs".
Definition host_windows : host :=
  Host (<["APPDATA" := "C:\Users\mri\AppData\Roaming"]>
         (<["ProgramFiles" := "C:\Program Files"]> ∅))
       (λ _, None) "win32" "C:\mri"
       (Filesystem {["C:\Program Files\nodejs\npx.cmd" := "@echo off"]}
                   {[npm_dir; nodejs_dir]} ∅ true).

(** A host where [surge.cmd] is only in the npm directory of the user while
    [npx] is on the search path. *)
Definition host_mixed : host :=
  Host (<["APPDATA" := "C:\Users\mri\AppData\Roaming"]> ∅)
       (λ n, if String.eqb n "npx" then Some "C:\Program Files\nodejs\npx.cmd" else None)
       "win32" "C:\mri"
       (Filesystem {["C:\Users\mri\AppData\Roaming\npm\surge.cmd" := "@echo off"]}
                   {[npm_dir]} ∅ true).

(** [surge] exits 1 with ["surge-failed"]; anything else exits 0 with
    ["npx-ok"]. *)
Definition spawner_surge_fails : spawner :=
  λ _ cmd _,
    inr (Proc (λ _ _, match cmd with
                      | c :: _ => if String.eqb c "/usr/bin/surge"
                                  then inr (1, "surge-failed") else inr (0, "npx-ok")
                      | [] => inr (0, "")
                      end) None).

(** Every child runs into the timeout. *)
Definition spawner_hangs : spawner :=
  λ _ _ _, inr (Proc (λ _ _, inl TimeoutExpired) None).

Definition form_ok : App.form :=
  App.Form "20,90" "45" "21.5" "44" "21.3" "SI" "NO" "MRossi".

End Scenario.

(** ** Further scenarios *)

Module Cases.
Import PyVal Store Scenario.

(** The reading of [form_ok], as [parse_float] reads it. *)
Definition o2_ok : pyfloat := fl "20.90".
Definition rh1_ok : pyfloat := fl "45".
Definition temp1_ok : pyfloat := fl "21.5".
Definition rh2_ok : pyfloat := fl "44".
Definition temp2_ok : pyfloat := fl "21.3".

(** Forms that fail a check: a blank operator, an oxygen value that is
    not a number. *)
Definition form_blank_operator : App.form :=
  App.Form "20,90" "45" "21.5" "44" "21.3" "SI" "NO" "   ".
Definition form_bad_o2 : App.form :=
  App.Form "venti" "45" "21.5" "44" "21.3" "SI" "NO" "MRossi".

(** A form whose oxygen value is the text [nan], which [float] accepts. *)
Definition form_nan : App.form :=
  App.Form "nan" "45" "21.5" "44" "21.3" "SI" "NO" "MRossi".

(** A dashboard directory whose stable file may not be written. *)
Definition fs_locked : filesystem :=
  Filesystem ∅ {[dash_dir]} {["/opt/mri/dashboardmri/dashboard_latest.html"]} true.

(** The Chart.js script lies beside the application. *)
Definition fs_chart : filesystem :=
  Filesystem {["/opt/mri/chart.umd.min.js" := "/* chart */"]} {[dash_dir]} ∅ true.
Definition host_chart : host := Host ∅ (λ _, None) "linux" "/opt/mri" fs_chart.

(** Every child exits 0 with ["ok"]; every child exits 1 with ["boom"]. *)
Definition child_ok : proc := Proc (λ _ _, inr (0, "ok")) None.
Definition spawner_ok : spawner := λ _ _ _, inr child_ok.
Definition spawner_all_fail : spawner :=
  λ _ _ _, inr (Proc (λ _ _, inr (1, "boom")) None).

(** [whoami] exits 0 saying that nobody is logged in; everything else
    exits 0 with ["ok"]. *)
Definition spawner_not_logged : spawner :=
  λ _ cmd _,
    inr (Proc (λ _ _, if bool_decide ("whoami" ∈ cmd)
                      then inr (0, "Not logged in") else inr (0, "ok")) None).

(** The database with the reading of the scenario, and the file that is
    no database. *)
Definition db_one_reading : Db.db := Db.mk (Db.Logs one_reading) false.
Definition db_foreign : Db.db :=
  Db.mk (Db.Unreadable false (DatabaseError "file is not a database")) false.

(** A form with a long operator name that holds an accented letter. *)
Definition form_long_name : App.form :=
  App.Form "20,90" "45" "21.5" "44" "21.3" "SI" "NO" " Niccolò Rossi ".

(** The message of [parse_it_date]. *)
Definition date_error : exn :=
  ValueError
    "Formato data/ora non valido. Usa es. 'gg/mm/aa' o 'gg/mm/aaaa' (opzionale 'HH:MM').".

(** A configuration file that sets the offline preference and a key the
    program does not know. *)
Definition config_file : Config.json :=
  Config.JDict [("chart_offline", Config.JBool true); ("theme", Config.JStr "dark")].

End Cases.

(** * Properties *)

(** ** Calendar arithmetic *)

Section DateTimeFacts.
Import DateTime.

Ltac zdiv := Z.div_mod_to_equations; lia.

Lemma is_leap_cases y :
  (is_leap y = true ∧ y mod 4 = 0 ∧ (y mod 100 ≠ 0 ∨ y mod 400 = 0))
  ∨ (is_leap y = false ∧ (y mod 4 ≠ 0 ∨ (y mod 100 = 0 ∧ y mod 400 ≠ 0))).
Proof.
  unfold is_leap.
  destruct (Z.eqb_spec (y mod 4) 0), (Z.eqb_spec (y mod 100) 0),
    (Z.eqb_spec (y mod 400) 0); cbn; intuition lia.
Qed.

Lemma days_before_next_year y :
  days_before_year (y + 1) = days_before_year y + 365 + leap_day y.
Proof.
  unfold days_before_year, leap_day.
  replace (y + 1 - 1) with y by lia.
  destruct (is_leap_cases y) as [(-> & ?) | (-> & ?)]; zdiv.
Qed.

Lemma days_before_year_mono y1 y2 :
  y1 + 2 ≤ y2 → days_before_year y1 + 366 < days_before_year y2.
Proof. unfold days_before_year. intros. zdiv. Qed.

Lemma month_cases m :
  1 ≤ m ≤ 12 →
  m = 1 ∨ m = 2 ∨ m = 3 ∨ m = 4 ∨ m = 5 ∨ m = 6 ∨
  m = 7 ∨ m = 8 ∨ m = 9 ∨ m = 10 ∨ m = 11 ∨ m = 12.
Proof. lia. Qed.

Ltac months m H :=
  destruct (month_cases m H) as [?|[?|[?|[?|[?|[?|[?|[?|[?|[?|[?|?]]]]]]]]]]]; subst m.

(** The day of the year of a valid date lies within the year. *)
Lemma day_of_year_bounds y m d :
  1 ≤ m ≤ 12 → 1 ≤ d ≤ days_in_month y m →
  1 ≤ days_before_month y m + d ≤ 365 + leap_day y.
Proof.
  intros Hm Hd. unfold days_in_month, days_before_month, leap_day in *.
  months m Hm; destruct (is_leap y); cbn in *; lia.
Qed.

Lemma day_of_year_mono y m1 d1 m2 d2 :
  1 ≤ m1 → m1 < m2 → m2 ≤ 12 → 1 ≤ d1 ≤ days_in_month y m1 → 1 ≤ d2 →
  days_before_month y m1 + d1 < days_before_month y m2 + d2.
Proof.
  intros H1 H12 H2 Hd1 Hd2. unfold days_in_month, days_before_month in *.
  assert (Hm1 : 1 ≤ m1 ≤ 12) by lia. assert (Hm2 : 1 ≤ m2 ≤ 12) by lia.
  months m1 Hm1; months m2 Hm2; try lia; destruct (is_leap y); cbn in *; lia.
Qed.

Lemma ymd2ord_year_mono y1 m1 d1 y2 m2 d2 :
  y1 < y2 → 1 ≤ m1 ≤ 12 → 1 ≤ d1 ≤ days_in_month y1 m1 →
  1 ≤ m2 ≤ 12 → 1 ≤ d2 →
  ymd2ord y1 m1 d1 < ymd2ord y2 m2 d2.
Proof.
  intros Hy Hm1 Hd1 Hm2 Hd2. unfold ymd2ord.
  pose proof (day_of_year_bounds y1 m1 d1 Hm1 Hd1) as B1.
  assert (B2 : 0 ≤ days_before_month y2 m2).
  { unfold days_before_month. months m2 Hm2; destruct (is_leap y2); cbn; lia. }
  assert (leap_day y1 ≤ 1) by (unfold leap_day; destruct (is_leap y1); lia).
  destruct (Z.eq_dec y2 (y1 + 1)) as [->|Hne].
  - rewrite days_before_next_year. lia.
  - pose proof (days_before_year_mono y1 y2). lia.
Qed.

(** *** [_ord2ymd] inverts [_ymd2ord] *)

Lemma month_day_table leap :
  forallb (month_day_ok leap) (seq 0 365) = true.
Proof. destruct leap; vm_compute; reflexivity. Qed.

Lemma month_day_spec n leap :
  0 ≤ n < 365 →
  ∃ m d, month_day n leap = (m, d) ∧ 1 ≤ m ≤ 12
         ∧ 1 ≤ d ≤ (if (m =? 2) && leap then 29 else DAYS_IN_MONTH m)
         ∧ DAYS_BEFORE_MONTH m + (if (2 <? m) && leap then 1 else 0) + d = n + 1.
Proof.
  intros Hn.
  pose proof (month_day_table leap) as T.
  rewrite forallb_forall in T.
  specialize (T (Z.to_nat n)).
  assert (Hin : In (Z.to_nat n) (seq 0 365)) by (apply in_seq; lia).
  specialize (T Hin). unfold month_day_ok in T.
  rewrite Z2Nat.id in T by lia.
  destruct (month_day n leap) as [m d]. exists m, d.
  repeat (apply andb_prop in T as [T ?]).
  split; [reflexivity|]. lia.
Qed.

Lemma ord2ymd_spec n :
  1 ≤ n ≤ MAXORDINAL →
  ∃ y m d, ord2ymd n = (y, m, d) ∧ 1 ≤ y ≤ 9999 ∧ 1 ≤ m ≤ 12
           ∧ 1 ≤ d ≤ days_in_month y m ∧ ymd2ord y m d = n.
Proof.
  intros Hn. unfold ord2ymd, MAXORDINAL, DI400Y, DI100Y, DI4Y in *.
  set (n0 := n - 1).
  set (n400 := n0 / 146097). set (r400 := n0 mod 146097).
  set (n100 := r400 / 36524). set (r100 := r400 mod 36524).
  set (n4 := r100 / 1461). set (r4 := r100 mod 1461).
  set (n1 := r4 / 365). set (r1 := r4 mod 365).
  assert (E400 : n0 = 146097 * n400 + r400 ∧ 0 ≤ r400 < 146097) by (subst n400 r400; zdiv).
  assert (E100 : r400 = 36524 * n100 + r100 ∧ 0 ≤ r100 < 36524) by (subst n100 r100; zdiv).
  assert (E4 : r100 = 1461 * n4 + r4 ∧ 0 ≤ r4 < 1461) by (subst n4 r4; zdiv).
  assert (E1 : r4 = 365 * n1 + r1 ∧ 0 ≤ r1 < 365) by (subst n1 r1; zdiv).
  assert (B : 0 ≤ n400 ≤ 24 ∧ 0 ≤ n100 ≤ 4 ∧ 0 ≤ n4 ≤ 24 ∧ 0 ≤ n1 ≤ 4) by lia.
  clearbody n400 r400 n100 r100 n4 r4 n1 r1. subst n0.
  destruct ((n1 =? 4) || (n100 =? 4)) eqn:Elast.
  - (* the last day of a leap year *)
    exists (n400 * 400 + 1 + n100 * 100 + n4 * 4 + n1 - 1), 12, 31.
    split; [reflexivity|].
    apply orb_true_iff in Elast.
    unfold ymd2ord, days_before_year, days_before_month, days_in_month.
    destruct (is_leap_cases (n400 * 400 + 1 + n100 * 100 + n4 * 4 + n1 - 1))
      as [(-> & L) | (-> & L)]; cbn;
      (destruct Elast as [E|E]; apply Z.eqb_eq in E; subst; zdiv).
  - apply orb_false_iff in Elast as [En1 En100].
    apply Z.eqb_neq in En1, En100.
    set (leap := (n1 =? 3) && (negb (n4 =? 24) || (n100 =? 3))).
    destruct (month_day_spec r1 leap) as (m & d & -> & Hm & Hd & Hsum); [lia|].
    set (y := n400 * 400 + 1 + n100 * 100 + n4 * 4 + n1).
    assert (Hleap : is_leap y = leap).
    { subst leap y.
      destruct (is_leap_cases (n400 * 400 + 1 + n100 * 100 + n4 * 4 + n1))
        as [(-> & L) | (-> & L)];
        destruct (Z.eqb_spec n1 3), (Z.eqb_spec n4 24), (Z.eqb_spec n100 3);
        cbn; try reflexivity; exfalso; zdiv. }
    exists y, m, d. split; [reflexivity|].
    unfold days_in_month, ymd2ord, days_before_month. rewrite Hleap.
    repeat split; try lia.
    unfold days_before_year. subst y. zdiv.
Qed.

End DateTimeFacts.


(** ** Printing and parsing timestamps *)

Section TimestampFacts.
Import DateTime.

Ltac zdiv := Z.div_mod_to_equations; lia.

Lemma digit_cases d :
  0 ≤ d ≤ 9 →
  d = 0 ∨ d = 1 ∨ d = 2 ∨ d = 3 ∨ d = 4 ∨ d = 5 ∨ d = 6 ∨ d = 7 ∨ d = 8 ∨ d = 9.
Proof. lia. Qed.

Ltac digits d H :=
  destruct (digit_cases d H) as [?|[?|[?|[?|[?|[?|[?|[?|[?|?]]]]]]]]]; subst d.

Lemma digit_val_digit d : 0 ≤ d ≤ 9 → digit_val (digit d) = Some d.
Proof. intros H. digits d H; reflexivity. Qed.

Lemma is_space_digit d : 0 ≤ d ≤ 9 → is_space (digit d) = false.
Proof. intros H. digits d H; reflexivity. Qed.

Lemma append_cons c (s r : string) : String c s +:+ r = String c (s +:+ r).
Proof. reflexivity. Qed.

Lemma append_nil_l (r : string) : "" +:+ r = r.
Proof. reflexivity. Qed.

Lemma pad2_append n r :
  pad2 n +:+ r = String (digit (n / 10)) (String (digit (n mod 10)) r).
Proof. reflexivity. Qed.

Lemma two_digits_pad2 n r :
  0 ≤ n < 100 → two_digits (pad2 n +:+ r) = Some (n / 10, n mod 10, r).
Proof.
  intros H. rewrite pad2_append. cbn [two_digits].
  rewrite !digit_val_digit by zdiv. reflexivity.
Qed.

Lemma field_pad2 ok2 ok1 n r :
  0 ≤ n < 100 → ok2 (n / 10) (n mod 10) = true →
  field ok2 ok1 (pad2 n +:+ r) = Some (n, r).
Proof.
  intros H Hok. unfold field. rewrite two_digits_pad2, Hok by exact H.
  do 2 f_equal. zdiv.
Qed.

Ltac bools :=
  repeat match goal with
    | |- context [?a =? ?b] => destruct (Z.eqb_spec a b)
    | |- context [?a <=? ?b] => destruct (Z.leb_spec a b)
    end; cbn; try reflexivity; exfalso; zdiv.

Lemma parse_m_pad2 n r : 1 ≤ n ≤ 12 → parse_m (pad2 n +:+ r) = Some (n, r).
Proof. intros H. apply field_pad2; [lia|]. bools. Qed.

Lemma parse_d_pad2 n r : 1 ≤ n ≤ 31 → parse_d (pad2 n +:+ r) = Some (n, r).
Proof.
  intros H. unfold parse_d. rewrite field_pad2; [reflexivity|lia|]. bools.
Qed.

Lemma parse_H_pad2 n r : 0 ≤ n < 24 → parse_H (pad2 n +:+ r) = Some (n, r).
Proof. intros H. apply field_pad2; [lia|]. bools. Qed.

Lemma parse_M_pad2 n r : 0 ≤ n < 60 → parse_M (pad2 n +:+ r) = Some (n, r).
Proof. intros H. apply field_pad2; [lia|]. bools. Qed.

Lemma parse_S_pad2 n r : 0 ≤ n < 60 → parse_S (pad2 n +:+ r) = Some (n, r).
Proof. intros H. apply field_pad2; [lia|]. bools. Qed.

Lemma append_assoc (a b c : string) : (a +:+ b) +:+ c = a +:+ (b +:+ c).
Proof.
  induction a as [|x a IH]; [reflexivity|].
  rewrite !append_cons, IH. reflexivity.
Qed.

Lemma parse_Y_pad4 n r : 0 ≤ n ≤ 9999 → parse_Y (pad4 n +:+ r) = Some (n, r).
Proof.
  intros H. unfold parse_Y, pad4. rewrite append_assoc.
  rewrite two_digits_pad2 by zdiv. rewrite two_digits_pad2 by zdiv.
  do 2 f_equal. zdiv.
Qed.

Lemma skip_spaces_pad2 n r : 0 ≤ n < 100 → skip_spaces (pad2 n +:+ r) = pad2 n +:+ r.
Proof.
  intros H. rewrite pad2_append. cbn [skip_spaces].
  rewrite is_space_digit by zdiv. reflexivity.
Qed.

Lemma valid_fields dt :
  valid dt →
  1 ≤ year dt ≤ 9999 ∧ 1 ≤ month dt ≤ 12
  ∧ 1 ≤ day dt ≤ days_in_month (year dt) (month dt)
  ∧ 0 ≤ hour dt < 24 ∧ 0 ≤ minute dt < 60 ∧ 0 ≤ second dt < 60.
Proof.
  unfold valid, validb. intros H.
  repeat (apply andb_prop in H as [H ?]). lia.
Qed.

Lemma days_in_month_le y m : days_in_month y m ≤ 31.
Proof.
  unfold days_in_month, DAYS_IN_MONTH.
  destruct ((m =? 2) && is_leap y); [lia|].
  destruct m as [|p|p]; [lia| |lia].
  do 4 (try destruct p as [p|p|]; try lia).
Qed.

(** The canonical text of a timestamp, character by character. *)
Lemma strftime_ISO dt :
  strftime ISO dt =
    pad4 (year dt) +:+ "-" +:+ pad2 (month dt) +:+ "-" +:+ pad2 (day dt) +:+ " "
    +:+ pad2 (hour dt) +:+ ":" +:+ pad2 (minute dt) +:+ ":" +:+ pad2 (second dt).
Proof. reflexivity. Qed.

Lemma lit_step c r acc :
  is_space c = false → parse_directive (Lit c) (String c EmptyString +:+ r) acc = Some (acc, r).
Proof.
  intros Hc. rewrite append_cons, append_nil_l. cbn [parse_directive].
  rewrite Hc, Ascii.eqb_refl. reflexivity.
Qed.

Lemma space_step n r acc :
  0 ≤ n < 100 →
  parse_directive (Lit " ") (" " +:+ pad2 n +:+ r) acc = Some (acc, pad2 n +:+ r).
Proof.
  intros Hn. rewrite append_cons, append_nil_l. cbn [parse_directive].
  replace (is_space " ") with true by reflexivity.
  rewrite skip_spaces_pad2 by exact Hn. reflexivity.
Qed.

(** Parsing what [strftime] printed gives the [datetime] back. *)
Lemma strptime_strftime dt :
  valid dt → strptime (strftime ISO dt) ISO = inr dt.
Proof.
  intros Hv. pose proof (valid_fields dt Hv) as (Hy & Hm & Hd & HH & HM & HS).
  pose proof (days_in_month_le (year dt) (month dt)).
  unfold strptime. rewrite strftime_ISO. unfold ISO.
  cbn [strptime_fields]. unfold parse_directive at 1.
  rewrite parse_Y_pad4 by lia.
  cbn [strptime_fields]. rewrite lit_step by reflexivity.
  cbn [strptime_fields]. unfold parse_directive at 1.
  rewrite parse_m_pad2 by lia.
  cbn [strptime_fields]. rewrite lit_step by reflexivity.
  cbn [strptime_fields]. unfold parse_directive at 1.
  rewrite parse_d_pad2 by lia.
  cbn [strptime_fields]. rewrite space_step by lia.
  cbn [strptime_fields]. unfold parse_directive at 1.
  rewrite parse_H_pad2 by lia.
  cbn [strptime_fields]. rewrite lit_step by reflexivity.
  cbn [strptime_fields]. unfold parse_directive at 1.
  rewrite parse_M_pad2 by lia.
  cbn [strptime_fields]. rewrite lit_step by reflexivity.
  cbn [strptime_fields]. unfold parse_directive at 1.
  replace (pad2 (second dt)) with (pad2 (second dt) +:+ "") by reflexivity.
  rewrite parse_S_pad2 by lia.
  cbn [year month day hour minute second String.eqb].
  destruct dt as [y m d hh mm ss]. cbn [year month day hour minute second].
  unfold valid in Hv. rewrite Hv. reflexivity.
Qed.

(** *** The order of timestamps as text is their order in time *)

Lemma compare_digit a b :
  0 ≤ a ≤ 9 → 0 ≤ b ≤ 9 → Ascii.compare (digit a) (digit b) = (a ?= b).
Proof. intros Ha Hb. digits a Ha; digits b Hb; reflexivity. Qed.

Lemma compare_cons c1 s1 c2 s2 :
  String.compare (String c1 s1) (String c2 s2) =
  match Ascii.compare c1 c2 with Eq => String.compare s1 s2 | ne => ne end.
Proof. reflexivity. Qed.

Lemma compare_pad2 a r1 b r2 :
  0 ≤ a < 100 → 0 ≤ b < 100 →
  String.compare (pad2 a +:+ r1) (pad2 b +:+ r2) =
  match a ?= b with Eq => String.compare r1 r2 | ne => ne end.
Proof.
  intros Ha Hb. rewrite !pad2_append, !compare_cons.
  rewrite !compare_digit by zdiv.
  destruct (Z.compare_spec (a / 10) (b / 10)),
           (Z.compare_spec (a mod 10) (b mod 10)),
           (Z.compare_spec a b); try reflexivity; exfalso; zdiv.
Qed.

Lemma compare_lit c r1 r2 :
  String.compare (String c EmptyString +:+ r1) (String c EmptyString +:+ r2)
  = String.compare r1 r2.
Proof.
  rewrite !append_cons, !append_nil_l, compare_cons.
  unfold Ascii.compare. rewrite N.compare_refl. reflexivity.
Qed.

Lemma compare_pad4 a r1 b r2 :
  0 ≤ a ≤ 9999 → 0 ≤ b ≤ 9999 →
  String.compare (pad4 a +:+ r1) (pad4 b +:+ r2) =
  match a ?= b with Eq => String.compare r1 r2 | ne => ne end.
Proof.
  intros Ha Hb. unfold pad4. rewrite !append_assoc.
  rewrite compare_pad2 by zdiv. rewrite compare_pad2 by zdiv.
  destruct (Z.compare_spec (a / 100) (b / 100)),
           (Z.compare_spec (a mod 100) (b mod 100)),
           (Z.compare_spec a b); try reflexivity; exfalso; zdiv.
Qed.

Lemma toordinal_bounds dt : valid dt → 1 ≤ toordinal dt ≤ MAXORDINAL.
Proof.
  intros Hv. pose proof (valid_fields dt Hv) as (Hy & Hm & Hd & _).
  pose proof (day_of_year_bounds _ _ _ Hm Hd) as B.
  unfold toordinal, MAXORDINAL. split.
  - unfold ymd2ord. assert (0 ≤ days_before_year (year dt));
      [unfold days_before_year; zdiv | lia].
  - destruct (Z.eq_dec (year dt) 9999) as [E|E].
    + unfold ymd2ord. rewrite E in *. unfold leap_day in B.
      replace (is_leap 9999) with false in B by reflexivity.
      replace (days_before_year 9999) with 3651694 by reflexivity. lia.
    + assert (ymd2ord (year dt) (month dt) (day dt) < ymd2ord 9999 1 1);
        [apply ymd2ord_year_mono; lia|].
      replace (ymd2ord 9999 1 1) with 3651695 in * by reflexivity. lia.
Qed.

Lemma seconds_compare dt1 dt2 :
  valid dt1 → valid dt2 →
  (seconds dt1 ?= seconds dt2) =
  match year dt1 ?= year dt2 with
  | Eq => match month dt1 ?= month dt2 with
          | Eq => match day dt1 ?= day dt2 with
                  | Eq => match hour dt1 ?= hour dt2 with
                          | Eq => match minute dt1 ?= minute dt2 with
                                  | Eq => second dt1 ?= second dt2
                                  | ne => ne
                                  end
                          | ne => ne
                          end
                  | ne => ne
                  end
          | ne => ne
          end
  | ne => ne
  end.
Proof.
  intros Hv1 Hv2.
  pose proof (valid_fields dt1 Hv1) as (Hy1 & Hm1 & Hd1 & HH1 & HM1 & HS1).
  pose proof (valid_fields dt2 Hv2) as (Hy2 & Hm2 & Hd2 & HH2 & HM2 & HS2).
  unfold seconds, toordinal.
  destruct (Z.compare_spec (year dt1) (year dt2)) as [Ey|Ly|Ly].
  - rewrite Ey in *.
    destruct (Z.compare_spec (month dt1) (month dt2)) as [Em|Lm|Lm].
    + rewrite Em in *. unfold ymd2ord.
      destruct (Z.compare_spec (day dt1) (day dt2));
        [destruct (Z.compare_spec (hour dt1) (hour dt2));
          [destruct (Z.compare_spec (minute dt1) (minute dt2));
            [destruct (Z.compare_spec (second dt1) (second dt2))|..]|..]|..];
        first [apply Z.compare_eq_iff | apply Z.compare_lt_iff | apply Z.compare_gt_iff];
        lia.
    + pose proof (day_of_year_mono (year dt2) (month dt1) (day dt1)
                    (month dt2) (day dt2)).
      apply Z.compare_lt_iff. unfold ymd2ord. lia.
    + pose proof (day_of_year_mono (year dt2) (month dt2) (day dt2)
                    (month dt1) (day dt1)).
      apply Z.compare_gt_iff. unfold ymd2ord. lia.
  - pose proof (ymd2ord_year_mono (year dt1) (month dt1) (day dt1)
                  (year dt2) (month dt2) (day dt2)).
    apply Z.compare_lt_iff. lia.
  - pose proof (ymd2ord_year_mono (year dt2) (month dt2) (day dt2)
                  (year dt1) (month dt1) (day dt1)).
    apply Z.compare_gt_iff. lia.
Qed.

(** Comparing two canonical timestamps as strings is comparing the
    instants they denote. *)
Lemma compare_strftime dt1 dt2 :
  valid dt1 → valid dt2 →
  String.compare (strftime ISO dt1) (strftime ISO dt2)
  = (seconds dt1 ?= seconds dt2).
Proof.
  intros Hv1 Hv2. rewrite seconds_compare by assumption.
  pose proof (valid_fields dt1 Hv1) as (Hy1 & Hm1 & Hd1 & HH1 & HM1 & HS1).
  pose proof (valid_fields dt2 Hv2) as (Hy2 & Hm2 & Hd2 & HH2 & HM2 & HS2).
  pose proof (days_in_month_le (year dt1) (month dt1)).
  pose proof (days_in_month_le (year dt2) (month dt2)).
  rewrite !strftime_ISO.
  rewrite compare_pad4 by lia. destruct (year dt1 ?= year dt2); try reflexivity.
  rewrite compare_lit, compare_pad2 by lia.
  destruct (month dt1 ?= month dt2); try reflexivity.
  rewrite compare_lit, compare_pad2 by lia.
  destruct (day dt1 ?= day dt2); try reflexivity.
  rewrite compare_lit, compare_pad2 by lia.
  destruct (hour dt1 ?= hour dt2); try reflexivity.
  rewrite compare_lit, compare_pad2 by lia.
  destruct (minute dt1 ?= minute dt2); try reflexivity.
  rewrite compare_lit.
  replace (pad2 (second dt1)) with (pad2 (second dt1) +:+ "") by reflexivity.
  replace (pad2 (second dt2)) with (pad2 (second dt2) +:+ "") by reflexivity.
  rewrite compare_pad2 by lia.
  destruct (second dt1 ?= second dt2); reflexivity.
Qed.

End TimestampFacts.

(** ** Characters and bytes *)

Section UnicodeFacts.
Import Unicode PyVal.

Lemma append_nil_r (s : string) : s +:+ "" = s.
Proof. induction s as [|c s IH]; [reflexivity|]. by rewrite append_cons, IH. Qed.

Lemma bytes_app (l1 l2 : list char) : bytes (l1 ++ l2) = bytes l1 +:+ bytes l2.
Proof.
  induction l1 as [|c l1 IH]; [reflexivity|].
  cbn [app bytes fold_right]. fold (bytes (l1 ++ l2)) (bytes l1).
  by rewrite IH, append_assoc.
Qed.

Lemma bytes_cons (c : char) (l : list char) : bytes (c :: l) = c.2 +:+ bytes l.
Proof. reflexivity. Qed.

Lemma bytes_strays (bs : string) : bytes (strays bs) = bs.
Proof.
  induction bs as [|b bs IH]; [reflexivity|].
  unfold strays. cbn [list_ascii_of_string map]. rewrite bytes_cons.
  fold (strays bs). by rewrite IH.
Qed.

(** How a character begins. *)
Lemma start_cases (b : ascii) :
  ((N_of_ascii b < 128)%N ∧ start b = inl [(N_of_ascii b, String b "")])
  ∨ ((128 ≤ N_of_ascii b)%N
     ∧ (start b = inl [stray b] ∨ ∃ c k, start b = inr (Partial c k (String b "")))).
Proof.
  unfold start.
  destruct (N.ltb_spec (N_of_ascii b) 128); [by left|right].
  split; [done|].
  destruct (_ && _); [right; by eexists _, _|].
  destruct (_ && _); [right; by eexists _, _|].
  destruct (_ && _); [right; by eexists _, _|]. by left.
Qed.

Lemma continues_high (q : partial) (b : ascii) :
  continues q b = true → (128 ≤ N_of_ascii b)%N.
Proof.
  unfold continues, next_range. intros [H _]%andb_prop. apply N.leb_le in H.
  destruct (p_bytes q) as [|b0 [|]]; cbn [fst] in H; try lia.
  repeat (destruct (_ =? _)%N); cbn [fst] in H; lia.
Qed.

(** Decoding loses no byte. *)
Lemma bytes_decode (p : option partial) (s : string) :
  bytes (decode p s) = pending p +:+ s.
Proof.
  revert p. induction s as [|b s IH]; intros p.
  - destruct p as [q|]; cbn [decode pending]; [|reflexivity].
    by rewrite bytes_strays, append_nil_r.
  - assert (Hrestart : ∀ before,
      bytes (match start b with
             | inl cs => before ++ cs ++ decode None s
             | inr q => before ++ decode (Some q) s
             end) = bytes before +:+ String b s).
    { intros before.
      destruct (start_cases b) as [[_ ->]|[_ [->|(c & k & ->)]]];
        rewrite ?bytes_app, ?IH; cbn [pending p_bytes bytes fold_right snd stray];
        by rewrite ?append_cons, ?append_nil_l. }
    cbn [decode]. cbv zeta. destruct p as [q|]; cbn [pending].
    + destruct (continues q b).
      * destruct (p_need q) as [|[|k]]; rewrite ?bytes_cons, IH; cbn [pending p_bytes snd];
          by rewrite ?append_assoc, ?append_cons, ?append_nil_l.
      * by rewrite Hrestart, bytes_strays.
    + by rewrite Hrestart.
Qed.

Lemma bytes_chars (s : string) : bytes (chars s) = s.
Proof. apply (bytes_decode None). Qed.

(** No character is made of no byte. *)
Lemma strays_nonempty (bs : string) : Forall (λ c : char, c.2 ≠ "") (strays bs).
Proof.
  unfold strays. induction bs as [|b bs IH]; cbn [list_ascii_of_string map];
    constructor; done.
Qed.

Lemma append_nonempty_r (a : string) (b : ascii) : a +:+ String b "" ≠ "".
Proof. by destruct a. Qed.

Lemma decode_nonempty (p : option partial) (s : string) :
  Forall (λ c : char, c.2 ≠ "") (decode p s).
Proof.
  revert p. induction s as [|b s IH]; intros p.
  - destruct p; cbn [decode]; [apply strays_nonempty|constructor].
  - assert (Hrestart : ∀ before, Forall (λ c : char, c.2 ≠ "") before →
      Forall (λ c : char, c.2 ≠ "")
        (match start b with
         | inl cs => before ++ cs ++ decode None s
         | inr q => before ++ decode (Some q) s
         end)).
    { intros before Hb.
      destruct (start_cases b) as [[_ ->]|[_ [->|(c & k & ->)]]];
        repeat (apply Forall_app; split); try apply IH; try exact Hb;
        by repeat constructor. }
    cbn [decode]. cbv zeta. destruct p as [q|].
    + destruct (continues q b).
      * destruct (p_need q) as [|[|k]]; try apply IH;
          (constructor; [apply append_nonempty_r|apply IH]).
      * apply Hrestart, strays_nonempty.
    + apply Hrestart. constructor.
Qed.

(** An ASCII byte is a character by itself. *)
Lemma chars_cons_ascii (b : ascii) (s : string) :
  (N_of_ascii b < 128)%N → chars (String b s) = (N_of_ascii b, String b "") :: chars s.
Proof.
  intros Hb. unfold chars. cbn [decode]. cbv zeta.
  destruct (start_cases b) as [[_ ->]|[Hh _]]; [reflexivity|lia].
Qed.

Lemma decode_snoc_ascii (p : option partial) (s : string) (b : ascii) :
  (N_of_ascii b < 128)%N →
  decode p (s +:+ String b "") = decode p s ++ [(N_of_ascii b, String b "")].
Proof.
  intros Hb.
  assert (Hc : ∀ q, continues q b = false).
  { intros q. destruct (continues q b) eqn:E; [|reflexivity].
    apply continues_high in E. lia. }
  assert (Hs : start b = inl [(N_of_ascii b, String b "")]).
  { destruct (start_cases b) as [[_ ->]|[Hh _]]; [reflexivity|lia]. }
  revert p. induction s as [|c s IH]; intros p.
  - rewrite append_nil_l. cbn [decode]. cbv zeta. rewrite Hs.
    destruct p as [q|]; rewrite ?Hc; cbn [app]; by rewrite ?app_nil_r.
  - rewrite append_cons. cbn [decode]. cbv zeta.
    destruct p as [q|].
    + destruct (continues q c).
      * destruct (p_need q) as [|[|k]]; by rewrite IH.
      * destruct (start c) as [cs|q']; by rewrite IH, ?app_assoc.
    + destruct (start c) as [cs|q']; by rewrite IH, ?app_assoc.
Qed.

(** [strip] leaves a text alone that begins and ends with an ASCII
    character other than white space. *)
Lemma strip_ends (a z : ascii) (m : string) :
  (N_of_ascii a < 128)%N → (N_of_ascii z < 128)%N →
  isspace (N_of_ascii a) = false → isspace (N_of_ascii z) = false →
  strip (String a (m +:+ String z "")) = String a (m +:+ String z "").
Proof.
  intros Ha Hz Hsa Hsz. unfold strip.
  rewrite (chars_cons_ascii a) by exact Ha.
  unfold chars. rewrite (decode_snoc_ascii None m z) by exact Hz.
  cbn [lstrip code fst]. rewrite Hsa.
  rewrite reverse_cons, reverse_app. cbn [reverse app]. rewrite reverse_singleton.
  cbn [app lstrip code fst]. rewrite Hsz.
  rewrite reverse_cons, reverse_app, reverse_involutive, reverse_singleton.
  cbn [app]. rewrite bytes_cons, bytes_app, (bytes_decode None). reflexivity.
Qed.

Lemma len_cons_ascii (b : ascii) (s : string) :
  (N_of_ascii b < 128)%N → len (String b s) = S (len s).
Proof. intros Hb. unfold len. by rewrite chars_cons_ascii. Qed.

Lemma digit_ascii d :
  0 ≤ d ≤ 9 →
  (N_of_ascii (DateTime.digit d) < 128)%N
  ∧ isspace (N_of_ascii (DateTime.digit d)) = false.
Proof.
  intros H.
  destruct (digit_cases d H) as [?|[?|[?|[?|[?|[?|[?|[?|[?|?]]]]]]]]]; subst d;
    by split.
Qed.

End UnicodeFacts.

(** ** Slices and the decimal comma *)

Section SliceFacts.
Import Unicode PyVal.

Lemma str_length_app (a b : string) :
  String.length (a +:+ b) = (String.length a + String.length b)%nat.
Proof. induction a as [|c a IH]; [reflexivity|]. rewrite append_cons. cbn. by rewrite IH. Qed.

Lemma append_inv_l (a x y : string) : a +:+ x = a +:+ y → x = y.
Proof.
  induction a as [|c a IH]; [by rewrite !append_nil_l|].
  rewrite !append_cons. intros [= H]. by apply IH.
Qed.

Lemma bytes_nil_inv (l : list char) :
  Forall (λ c : char, c.2 ≠ "") l → bytes l = "" → l = [].
Proof.
  destruct l as [|c l]; [done|]. intros [Hc _]%Forall_cons. rewrite bytes_cons.
  by destruct (c.2).
Qed.

(** Two prefixes of a list of characters that have the same bytes are the
    same prefix. *)
Lemma prefix_bytes_eq (l1 m1 l2 m2 : list char) :
  l1 ++ l2 = m1 ++ m2 → Forall (λ c : char, c.2 ≠ "") (l1 ++ l2) →
  bytes l1 = bytes m1 → l1 = m1.
Proof.
  revert m1. induction l1 as [|c l1 IH]; intros m1 E Hne Hb.
  - symmetry. apply bytes_nil_inv; [|done].
    rewrite E in Hne. by apply Forall_app in Hne as [? _].
  - destruct m1 as [|c' m1].
    + exfalso. apply Forall_cons in Hne as [Hc _]. rewrite bytes_cons in Hb.
      cbn in Hb. by destruct (c.2).
    + injection E as <- E. f_equal. apply Forall_cons in Hne as [_ Hne].
      apply IH; [exact E|exact Hne|].
      rewrite !bytes_cons in Hb. by apply append_inv_l in Hb.
Qed.

(** One byte of input: the characters completed and the state after it. *)
Lemma decode_step (p : option partial) (b : ascii) :
  ∃ em p', (∀ z, decode p (String b z) = em ++ decode p' z)
           ∧ bytes em +:+ pending p' = pending p +:+ String b "".
Proof.
  assert (Hrestart : ∀ before, ∃ em p',
    (∀ z, match start b with
          | inl cs => before ++ cs ++ decode None z
          | inr q => before ++ decode (Some q) z
          end = em ++ decode p' z)
    ∧ bytes em +:+ pending p' = bytes before +:+ String b "").
  { intros before.
    destruct (start_cases b) as [[_ ->]|[_ [->|(c & k & ->)]]].
    - exists (before ++ [(N_of_ascii b, String b "")]), None. split.
      + intros z. by rewrite <- app_assoc.
      + by rewrite bytes_app, append_nil_r.
    - exists (before ++ [stray b]), None. split.
      + intros z. by rewrite <- app_assoc.
      + by rewrite bytes_app, append_nil_r.
    - exists before, (Some (Partial c k (String b ""))). by split. }
  destruct p as [q|]; cbn [pending].
  - destruct (continues q b) eqn:Hc.
    + destruct (p_need q) as [|[|k]] eqn:Hn.
      * exists [(p_code q * 64 + (N_of_ascii b - 128), p_bytes q +:+ String b "")%N], None.
        split; [intros z; cbn [decode]; cbv zeta; by rewrite Hc, Hn|].
        cbn [bytes fold_right snd pending]. by rewrite !append_nil_r.
      * exists [(p_code q * 64 + (N_of_ascii b - 128), p_bytes q +:+ String b "")%N], None.
        split; [intros z; cbn [decode]; cbv zeta; by rewrite Hc, Hn|].
        cbn [bytes fold_right snd pending]. by rewrite !append_nil_r.
      * exists [], (Some (Partial (p_code q * 64 + (N_of_ascii b - 128)) (S k)
                            (p_bytes q +:+ String b ""))).
        split; [intros z; cbn [decode]; cbv zeta; by rewrite Hc, Hn|reflexivity].
    + destruct (Hrestart (strays (p_bytes q))) as (em & p' & H1 & H2).
      exists em, p'. split; [intros z; cbn [decode]; cbv zeta; by rewrite Hc, H1|].
      by rewrite H2, bytes_strays.
  - destruct (Hrestart []) as (em & p' & H1 & H2).
    exists em, p'. split; [intros z; cbn [decode]; cbv zeta; by rewrite H1|].
    by rewrite H2.
Qed.

(** A first part of the input: the characters completed and the state
    after it. *)
Lemma decode_split (p : option partial) (x : string) :
  ∃ em p', (∀ y, decode p (x +:+ y) = em ++ decode p' y)
           ∧ bytes em +:+ pending p' = pending p +:+ x.
Proof.
  revert p. induction x as [|b x IH]; intros p.
  - exists [], p. split; [done|]. by rewrite append_nil_r.
  - destruct (decode_step p b) as (e0 & p1 & H1 & H2).
    destruct (IH p1) as (em & p' & H3 & H4).
    exists (e0 ++ em), p'. split.
    + intros y. by rewrite append_cons, H1, H3, app_assoc.
    + rewrite bytes_app, append_assoc, H4, <- append_assoc, H2, append_assoc.
      reflexivity.
Qed.

Lemma strays_app (a b : string) : strays (a +:+ b) = strays a ++ strays b.
Proof.
  induction a as [|c a IH]; [reflexivity|].
  rewrite append_cons. unfold strays. cbn [list_ascii_of_string map].
  fold (strays (a +:+ b)) (strays a). by rewrite IH.
Qed.

(** The bytes of a character begun either end up in that character, or
    they are read one by one. *)
Lemma decode_pending (q : partial) (y : string) :
  decode (Some q) y = strays (p_bytes q) ++ decode None y
  ∨ ∃ c rest, decode (Some q) y = c :: rest
              ∧ (String.length (p_bytes q) < String.length c.2)%nat.
Proof.
  revert q. induction y as [|b y IH]; intros q.
  - left. cbn [decode]. by rewrite app_nil_r.
  - cbn [decode]. cbv zeta.
    destruct (continues q b) eqn:Hc; [|left; by destruct (start b)].
    assert (Hs : start b = inl [stray b]).
    { pose proof (continues_high q b Hc) as Hh.
      assert (Hlt : (N_of_ascii b < 192)%N).
      { unfold continues, next_range in Hc. apply andb_prop in Hc as [_ Hc].
        apply N.leb_le in Hc.
        destruct (p_bytes q) as [|b0 [|]]; cbn [snd] in Hc; try lia.
        repeat (destruct (_ =? _)%N); cbn [snd] in Hc; lia. }
      unfold start.
      destruct (N.ltb_spec (N_of_ascii b) 128); [lia|].
      destruct (N.leb_spec 194 (N_of_ascii b)); [lia|]. cbn [andb].
      destruct (N.leb_spec 224 (N_of_ascii b)); [lia|]. cbn [andb].
      destruct (N.leb_spec 240 (N_of_ascii b)); [lia|]. reflexivity. }
    assert (Hlen : (String.length (p_bytes q)
                    < String.length (p_bytes q +:+ String b ""))%nat).
    { rewrite str_length_app. cbn. lia. }
    destruct (p_need q) as [|[|k]].
    + right. by eexists _, _.
    + right. by eexists _, _.
    + destruct (IH (Partial (p_code q * 64 + (N_of_ascii b - 128)) (S k)
                      (p_bytes q +:+ String b ""))) as [E|(c & rest & E & Hl)].
      * left. rewrite E. cbn [p_bytes]. rewrite Hs, strays_app, <- app_assoc.
        reflexivity.
      * right. exists c, rest. split; [exact E|]. cbn [p_bytes] in Hl. lia.
Qed.

(** The characters of a slice are the slice of the characters. *)
Lemma chars_take (s : string) (n : nat) :
  chars (bytes (take n (chars s))) = take n (chars s).
Proof.
  set (l1 := take n (chars s)). set (l2 := drop n (chars s)).
  assert (Hl : l1 ++ l2 = chars s) by apply take_drop.
  assert (Hne : Forall (λ c : char, c.2 ≠ "") (l1 ++ l2))
    by (rewrite Hl; apply decode_nonempty).
  assert (Hs : s = bytes l1 +:+ bytes l2) by (by rewrite <- bytes_app, Hl, bytes_chars).
  destruct (decode_split None (bytes l1)) as (em & p' & Hd & Hb).
  cbn [pending] in Hb. rewrite append_nil_l in Hb.
  pose proof (Hd (bytes l2)) as Hy. rewrite <- Hs in Hy. fold (chars s) in Hy.
  pose proof (Hd "") as Hx. rewrite append_nil_r in Hx. fold (chars (bytes l1)) in Hx.
  rewrite <- Hl in Hy. rewrite Hx. symmetry.
  destruct p' as [q|]; cbn [decode pending] in *.
  - destruct (decode_pending q (bytes l2)) as [E|(c & rest & E & Hlen)];
      rewrite E in Hy.
    + rewrite app_assoc in Hy.
      apply (prefix_bytes_eq _ _ _ _ Hy Hne). by rewrite bytes_app, bytes_strays.
    + (* the bytes of [l1] would end inside the character [c] *)
      assert (Hcmp : ∃ t, (l1 = em ++ t ∧ t ++ l2 = c :: rest) ∨ (em = l1 ++ t ∧ t ≠ [])).
      { clear -Hy. revert em Hy. induction l1 as [|x l1 IH]; intros em Hy.
        - destruct em as [|y em]; [exists []; by left|].
          exists (y :: em). right. by split.
        - destruct em as [|y em].
          + exists (x :: l1). by left.
          + injection Hy as <- Hy. destruct (IH em Hy) as [t [[-> Ht]|[-> Ht]]].
            * exists t. by left.
            * exists t. by right. }
      destruct Hcmp as [t [[Et Ht]|[Et Ht]]].
      * rewrite Et, bytes_app in Hb. apply append_inv_l in Hb.
        destruct t as [|c' t].
        -- rewrite Hb, Et. reflexivity.
        -- exfalso. injection Ht as -> _.
           rewrite Hb, bytes_cons, str_length_app in Hlen. lia.
      * exfalso.
        assert (Hbt : bytes t = "").
        { rewrite Et, bytes_app in Hb. apply (f_equal String.length) in Hb.
          rewrite !str_length_app in Hb.
          destruct (bytes t); [reflexivity|cbn in Hb; lia]. }
        apply Ht, bytes_nil_inv; [|exact Hbt].
        rewrite Hy, Et in Hne.
        apply Forall_app in Hne as [Hne _]. by apply Forall_app in Hne as [_ ?].
  - rewrite app_nil_r. rewrite append_nil_r in Hb.
    by apply (prefix_bytes_eq _ _ _ _ Hy Hne).
Qed.

Lemma len_slice_to (n : nat) (s : string) : (len (slice_to n s) ≤ n)%nat.
Proof. unfold len, slice_to. rewrite chars_take, length_take. lia. Qed.

Lemma slice_to_short (n : nat) (s : string) : (len s ≤ n)%nat → slice_to n s = s.
Proof. intros H. unfold slice_to. rewrite take_ge by exact H. apply bytes_chars. Qed.

Lemma chars_nil_inv (s : string) : chars s = [] → s = "".
Proof. intros H. by rewrite <- (bytes_chars s), H. Qed.

Lemma slice_to_nonempty (n : nat) (s : string) :
  s ≠ "" → n ≠ 0%nat → slice_to n s ≠ "".
Proof.
  intros Hs Hn. unfold slice_to.
  destruct (chars s) as [|c l] eqn:E; [by apply chars_nil_inv in E|].
  destruct n as [|n]; [done|]. cbn [take]. rewrite bytes_cons.
  pose proof (decode_nonempty None s) as Hne. fold (chars s) in Hne. rewrite E in Hne.
  apply Forall_cons in Hne as [Hc _]. by destruct (c.2).
Qed.

(** *** The decimal comma *)

Lemma replace_comma_app (x y : string) :
  App.replace_comma (x +:+ y) = App.replace_comma x +:+ App.replace_comma y.
Proof.
  induction x as [|c x IH]; [reflexivity|].
  rewrite append_cons. cbn [App.replace_comma]. by rewrite IH, append_cons.
Qed.

(** What [replace] does to a character: the comma becomes the point. *)
Abbreviation comma_to_point :=
  (λ c : char, if String.eqb c.2 "," then (46%N, ".") else c).

(** A character that [replace] handles as [comma_to_point] does. *)
Abbreviation plain :=
  (λ c : char, c = (44%N, ",") ∨ App.replace_comma c.2 = c.2).

Lemma comma_to_point_fixed (c : char) :
  App.replace_comma c.2 = c.2 → comma_to_point c = c.
Proof.
  intros H. cbv beta. destruct (String.eqb_spec c.2 ",") as [E|E]; [|reflexivity].
  rewrite E in H. discriminate.
Qed.

Lemma replace_comma_high (b : ascii) :
  (128 ≤ N_of_ascii b)%N → App.replace_comma (String b "") = String b "".
Proof.
  intros H. cbn [App.replace_comma].
  destruct (Ascii.eqb_spec b ",") as [->|]; [cbn in H; lia|reflexivity].
Qed.

Lemma strays_plain (bs : string) :
  App.replace_comma bs = bs →
  map comma_to_point (strays bs) = strays bs ∧ Forall plain (strays bs).
Proof.
  induction bs as [|b bs IH]; [by split|].
  cbn [App.replace_comma]. intros [= Hb Hbs]. destruct (IH Hbs) as [IH1 IH2].
  assert (Hc : App.replace_comma (stray b).2 = (stray b).2).
  { cbn [stray snd App.replace_comma]. by rewrite Hb. }
  unfold strays. cbn [list_ascii_of_string map]. fold (strays bs). split.
  - rewrite IH1. f_equal. by apply comma_to_point_fixed.
  - constructor; [by right|exact IH2].
Qed.

Lemma start_replace_comma (b : ascii) :
  let b' := if Ascii.eqb b "," then "."%char else b in
  match start b with
  | inl cs => start b' = inl (map comma_to_point cs) ∧ Forall plain cs
  | inr q => start b' = inr q ∧ App.replace_comma (p_bytes q) = p_bytes q
  end.
Proof.
  cbv zeta. destruct (Ascii.eqb_spec b ",") as [->|Hb].
  - split; [reflexivity|]. constructor; [by left|constructor].
  - assert (Hr : App.replace_comma (String b "") = String b "").
    { cbn [App.replace_comma]. by destruct (Ascii.eqb_spec b ","). }
    destruct (start_cases b) as [[_ ->]|[_ [->|(c & k & ->)]]].
    + split; [|constructor; [by right|constructor]].
      cbn [map]. by rewrite (comma_to_point_fixed (_, _) Hr).
    + split; [|constructor; [by right|constructor]].
      cbn [map]. by rewrite (comma_to_point_fixed (stray b) Hr).
    + by split.
Qed.

Lemma continues_replace_comma (q : partial) (b : ascii) :
  continues q (if Ascii.eqb b "," then "."%char else b) = continues q b.
Proof.
  destruct (Ascii.eqb_spec b ",") as [->|]; [|reflexivity].
  destruct (continues q ".") eqn:E1; [apply continues_high in E1; cbn in E1; lia|].
  destruct (continues q ",") eqn:E2; [apply continues_high in E2; cbn in E2; lia|].
  reflexivity.
Qed.

(** Decoding commutes with the replacement. *)
Lemma decode_replace_comma (s : string) (p : option partial) :
  App.replace_comma (pending p) = pending p →
  decode p (App.replace_comma s) = map comma_to_point (decode p s)
  ∧ Forall plain (decode p s).
Proof.
  revert p. induction s as [|b s IH]; intros p Hp.
  - destruct p as [q|]; cbn [decode App.replace_comma pending] in *; [|by split].
    destruct (strays_plain _ Hp) as [H1 H2]. by rewrite H1.
  - cbn [App.replace_comma decode]. cbv zeta.
    assert (Hrestart : ∀ before,
      map comma_to_point before = before → Forall plain before →
      match start (if Ascii.eqb b "," then "."%char else b) with
      | inl cs => before ++ cs ++ decode None (App.replace_comma s)
      | inr q => before ++ decode (Some q) (App.replace_comma s)
      end
      = map comma_to_point
          match start b with
          | inl cs => before ++ cs ++ decode None s
          | inr q => before ++ decode (Some q) s
          end
      ∧ Forall plain
          match start b with
          | inl cs => before ++ cs ++ decode None s
          | inr q => before ++ decode (Some q) s
          end).
    { intros before Hb1 Hb2. pose proof (start_replace_comma b) as Hs. cbv zeta in Hs.
      destruct (start b) as [cs|q]; destruct Hs as [-> Hs].
      - destruct (IH None eq_refl) as [-> IH2]. split.
        + by rewrite !map_app, Hb1.
        + by repeat (apply Forall_app; split).
      - destruct (IH (Some q) Hs) as [-> IH2]. split.
        + by rewrite map_app, Hb1.
        + by apply Forall_app. }
    destruct p as [q|]; cbn [pending] in Hp.
    + rewrite continues_replace_comma.
      destruct (continues q b) eqn:Hc.
      * pose proof (continues_high q b Hc) as Hh.
        assert (Eb : (if Ascii.eqb b "," then "."%char else b) = b).
        { destruct (Ascii.eqb_spec b ",") as [->|]; [cbn in Hh; lia|reflexivity]. }
        rewrite Eb.
        assert (Hbs : App.replace_comma (p_bytes q +:+ String b "")
                      = p_bytes q +:+ String b "").
        { by rewrite replace_comma_app, Hp, replace_comma_high. }
        destruct (p_need q) as [|[|k]].
        -- destruct (IH None eq_refl) as [-> IH2]. split.
           ++ cbn [map]. f_equal. symmetry. by apply (comma_to_point_fixed (_, _)).
           ++ constructor; [by right|exact IH2].
        -- destruct (IH None eq_refl) as [-> IH2]. split.
           ++ cbn [map]. f_equal. symmetry. by apply (comma_to_point_fixed (_, _)).
           ++ constructor; [by right|exact IH2].
        -- by apply IH.
      * destruct (strays_plain _ Hp) as [H1 H2]. by apply Hrestart.
    + by apply Hrestart.
Qed.

Lemma bytes_comma_to_point (l : list char) :
  Forall plain l → bytes (map comma_to_point l) = App.replace_comma (bytes l).
Proof.
  induction 1 as [|c l Hc Hl IH]; [reflexivity|].
  cbn [map]. rewrite !bytes_cons, replace_comma_app, IH. f_equal.
  destruct Hc as [->|Hc]; [reflexivity|]. by rewrite comma_to_point_fixed.
Qed.

Lemma lstrip_comma_to_point (l : list char) :
  Forall plain l → lstrip (map comma_to_point l) = map comma_to_point (lstrip l).
Proof.
  induction 1 as [|c l Hc Hl IH]; [reflexivity|].
  cbn [map lstrip].
  assert (E : isspace (code (comma_to_point c)) = isspace (code c)).
  { destruct Hc as [->|Hc]; [reflexivity|]. by rewrite comma_to_point_fixed. }
  rewrite E. destruct (isspace (code c)); [exact IH|reflexivity].
Qed.

Lemma lstrip_Forall (P : char → Prop) (l : list char) :
  Forall P l → Forall P (lstrip l).
Proof.
  induction 1 as [|c l Hc Hl IH]; [constructor|].
  cbn [lstrip]. destruct (isspace (code c)); [exact IH|by constructor].
Qed.

Lemma reverse_map {A B} (f : A → B) (l : list A) :
  reverse (map f l) = map f (reverse l).
Proof.
  induction l as [|x l IH]; [reflexivity|].
  cbn [map]. by rewrite !reverse_cons, IH, map_app.
Qed.

(** [strip] and the replacement of the comma commute: neither the comma
    nor the point is white space. *)
Lemma strip_replace_comma (s : string) :
  strip (App.replace_comma s) = App.replace_comma (strip s).
Proof.
  unfold strip, chars.
  destruct (decode_replace_comma s None eq_refl) as [-> Hp].
  assert (H1 : Forall plain (lstrip (decode None s))) by (by apply lstrip_Forall).
  assert (H2 : Forall plain (reverse (lstrip (decode None s))))
    by (by apply Forall_reverse).
  assert (H3 : Forall plain (lstrip (reverse (lstrip (decode None s)))))
    by (by apply lstrip_Forall).
  rewrite lstrip_comma_to_point, reverse_map, lstrip_comma_to_point, reverse_map
    by assumption.
  apply bytes_comma_to_point. by apply Forall_reverse.
Qed.

End SliceFacts.
(** ** The record store *)

(** The length of a text of ASCII characters, one character at a time. *)
Ltac ascii_len :=
  repeat (rewrite len_cons_ascii;
          [|first [reflexivity
                  |apply digit_ascii; Z.div_mod_to_equations; lia]]).

Section StoreFacts.
Import DateTime PyVal Store.

Lemma leb_compare a b : String.leb a b = true ↔ String.compare a b ≠ Gt.
Proof. unfold String.leb. destruct (String.compare a b); split; congruence. Qed.

Lemma str_le_trans a b c : str_le a b → str_le b c → str_le a c.
Proof.
  unfold str_le. rewrite !leb_compare. revert b c.
  induction a as [|x xs IH]; intros [|y ys] [|z zs]; cbn; try congruence.
  unfold Ascii.compare.
  destruct (N.compare_spec (N_of_ascii x) (N_of_ascii y)) as [Exy|Lxy|Lxy];
    destruct (N.compare_spec (N_of_ascii y) (N_of_ascii z)) as [Eyz|Lyz|Lyz];
    destruct (N.compare_spec (N_of_ascii x) (N_of_ascii z)) as [Exz|Lxz|Lxz];
    try congruence; try lia.
  apply IH.
Qed.

Global Instance ts_le_trans : Transitive ts_le.
Proof. intros a b c. apply str_le_trans. Qed.
Global Instance ts_le_total : Total ts_le.
Proof. intros a b. apply String.leb_total. Qed.
Global Instance ts_ge_trans : Transitive ts_ge.
Proof. intros a b c H1 H2. exact (str_le_trans _ _ _ H2 H1). Qed.
Global Instance ts_ge_total : Total ts_ge.
Proof. intros a b. apply String.leb_total. Qed.

(** What a canonical timestamp denotes. *)
Lemma canonical_inv ts :
  canonical ts →
  ∃ dt, valid dt ∧ ts = strftime ISO dt ∧ strptime ts ISO = inr dt
        ∧ seconds_of ts = seconds dt.
Proof.
  intros (dt & Hv & ->). exists dt. repeat split; [exact Hv| |].
  - by apply strptime_strftime.
  - unfold seconds_of. by rewrite strptime_strftime.
Qed.

(** On canonical timestamps the order of the text column is the order in
    time. *)
Lemma str_le_seconds a b :
  canonical a → canonical b → (str_le a b ↔ seconds_of a ≤ seconds_of b).
Proof.
  intros (da & Hva & -> & _ & ->)%canonical_inv (db & Hvb & -> & _ & ->)%canonical_inv.
  unfold str_le. rewrite leb_compare, compare_strftime by assumption.
  rewrite Z.compare_gt_iff. lia.
Qed.

Lemma fetch_last_record_spec (st : store) :
  st ≠ [] →
  ∃ last, fetch_last_record st = Some last ∧ last ∈ st
          ∧ ∀ r, r ∈ st → ts_le r last.
Proof.
  intros Hne. unfold fetch_last_record, order_by_timestamp_desc.
  pose proof (merge_sort_Permutation ts_ge st) as Hp.
  pose proof (StronglySorted_merge_sort ts_ge st) as Hs.
  destruct (merge_sort ts_ge st) as [|last l] eqn:E.
  - apply Permutation_nil_l in Hp. congruence.
  - exists last. split; [reflexivity|]. split.
    + rewrite <- Hp. by left.
    + intros r Hr. rewrite <- Hp in Hr. apply StronglySorted_inv in Hs as [_ Hall].
      apply elem_of_cons in Hr as [->|Hr].
      * unfold ts_le, str_le. destruct (String.leb_total (timestamp last) (timestamp last)); auto.
      * rewrite Forall_forall in Hall. exact (Hall r Hr).
Qed.

(** A text that begins and ends with a digit is left as it is. *)
Lemma strip_digits (a z : Z) (m : string) :
  0 ≤ a ≤ 9 → 0 ≤ z ≤ 9 →
  strip (String (digit a) (m +:+ String (digit z) ""))
  = String (digit a) (m +:+ String (digit z) "").
Proof.
  intros Ha Hz. destruct (digit_ascii a Ha), (digit_ascii z Hz).
  by apply strip_ends.
Qed.

Lemma strip_strftime dt : valid dt → strip (strftime ISO dt) = strftime ISO dt.
Proof.
  intros Hv. pose proof (valid_fields dt Hv) as (Hy & Hm & Hd & HH & HM & HS).
  set (m := String (digit (year dt / 100 mod 10))
              (pad2 (year dt mod 100) +:+ "-" +:+ pad2 (month dt) +:+ "-"
               +:+ pad2 (day dt) +:+ " " +:+ pad2 (hour dt) +:+ ":"
               +:+ pad2 (minute dt) +:+ ":"
               +:+ String (digit (second dt / 10)) "")).
  change (strftime ISO dt)
    with (String (digit (year dt / 100 / 10)) (m +:+ String (digit (second dt mod 10)) "")).
  apply strip_digits; Z.div_mod_to_equations; lia.
Qed.

Lemma length_strftime dt : String.length (strftime ISO dt) = 19%nat.
Proof. reflexivity. Qed.

Lemma len_strftime dt : valid dt → len (strftime ISO dt) = 19%nat.
Proof.
  intros Hv. pose proof (valid_fields dt Hv) as (Hy & Hm & Hd & HH & HM & HS).
  pose proof (days_in_month_le (year dt) (month dt)) as Hdm.
  rewrite strftime_ISO. unfold pad4. rewrite !append_assoc, !pad2_append.
  rewrite !append_cons, !append_nil_l. unfold pad2.
  ascii_len. reflexivity.
Qed.

Lemma truthy_strftime dt : PyStr.truthy (strftime ISO dt) = true.
Proof. reflexivity. Qed.

Lemma parse_it_date_canonical dt :
  valid dt → parse_it_date (strftime ISO dt) = inr dt.
Proof.
  intros Hv. unfold parse_it_date. rewrite strip_strftime by exact Hv.
  unfold date_formats. cbn [try_formats]. by rewrite strptime_strftime.
Qed.

(** A canonical bound is passed to the query unchanged. *)
Lemma normalize_to_iso_canonical dt b :
  valid dt → normalize_to_iso (strftime ISO dt) b = inr (strftime ISO dt).
Proof.
  intros Hv. unfold normalize_to_iso.
  rewrite parse_it_date_canonical, strip_strftime, len_strftime by exact Hv.
  reflexivity.
Qed.

Lemma fetch_records_canonical lo hi (st : store) :
  valid lo → valid hi →
  fetch_records (Some (strftime ISO lo)) (Some (strftime ISO hi)) st =
  inr (order_by_timestamp_asc
         (filter (λ r, str_le (strftime ISO lo) (timestamp r)
                       ∧ str_le (timestamp r) (strftime ISO hi)) st)).
Proof.
  intros Hlo Hhi. unfold fetch_records, given.
  rewrite !truthy_strftime, !normalize_to_iso_canonical by assumption.
  reflexivity.
Qed.

Lemma sub_days_spec dt n :
  valid dt → 0 ≤ n → n < toordinal dt →
  ∃ dt', sub_days dt n = inr dt' ∧ valid dt'
         ∧ seconds dt' = seconds dt - n * 86400.
Proof.
  intros Hv Hn Hlt. pose proof (toordinal_bounds dt Hv) as Hb.
  pose proof (valid_fields dt Hv) as (Hy & Hm & Hd & HH & HM & HS).
  unfold sub_days.
  destruct (Z.ltb_spec 0 (toordinal dt - n)); [|lia].
  destruct (Z.leb_spec (toordinal dt - n) MAXORDINAL); [|lia].
  cbn [andb].
  destruct (ord2ymd_spec (toordinal dt - n)) as (y & m & d & -> & Hy' & Hm' & Hd' & Hord);
    [lia|].
  eexists. split; [reflexivity|].
  set (secs := hour dt * 3600 + minute dt * 60 + second dt).
  assert (Hs : 0 ≤ secs < 86400) by (subst secs; lia).
  assert (E1 : secs / 3600 = hour dt) by (subst secs; Z.div_mod_to_equations; lia).
  assert (E2 : secs mod 3600 / 60 = minute dt) by (subst secs; Z.div_mod_to_equations; lia).
  assert (E3 : (secs mod 3600) mod 60 = second dt)
    by (subst secs; Z.div_mod_to_equations; lia).
  rewrite E1, E2, E3. split.
  - unfold valid, validb. cbn [year month day hour minute second].
    repeat (apply andb_true_intro; split); lia.
  - unfold seconds, toordinal. cbn [year month day hour minute second].
    rewrite Hord. unfold toordinal. lia.
Qed.

End StoreFacts.

(** ** Snapshot aggregation *)

Section AggregateFacts.
Import DateTime PyVal Store.

Lemma filter_ext_elem {A} (P Q : A → Prop) `{∀ x, Decision (P x)}
    `{∀ x, Decision (Q x)} (l : list A) :
  (∀ x, x ∈ l → (P x ↔ Q x)) → filter P l = filter Q l.
Proof.
  induction l as [|x l IH]; intros Hext; [reflexivity|].
  assert (IH' : filter P l = filter Q l)
    by (apply IH; intros y Hy; apply Hext; by right).
  assert (Hx : P x ↔ Q x) by (apply Hext; by left).
  rewrite !filter_cons.
  destruct (decide (P x)) as [HP|HP], (decide (Q x)) as [HQ|HQ];
    [by rewrite IH' | tauto | tauto | exact IH'].
Qed.

Lemma Permutation_reflexive_eq {A} (l l' : list A) : l = l' → l ≡ₚ l'.
Proof. intros ->. reflexivity. Qed.

Lemma StronglySorted_transfer {A} (R R' : A → A → Prop) (P : A → Prop) (l : list A) :
  (∀ x y, P x → P y → R x y → R' x y) →
  Forall P l → StronglySorted R l → StronglySorted R' l.
Proof.
  intros HR HP. induction 1 as [|x l Hs IH Hall]; [constructor|].
  apply Forall_cons in HP as [Hx Hl]. constructor; [by apply IH|].
  rewrite Forall_forall in *. intros y Hy. apply HR; auto.
Qed.

(** C1 (as the code has it). On a store that holds at least one
    reading, whose timestamps are in the format [insert_record] writes and
    whose window start is representable, aggregation returns the latest reading (the row
    [fetch_last_record] returns, no row is later) together with exactly the
    rows whose time lies in the closed interval from 30 times 24 hours
    before the latest reading to the latest reading, in ascending order
    of time. *)
Theorem aggregate_window (st : store) :
  st ≠ [] → canonical_store st → window_representable st →
  ∃ last records,
    Dashboard.aggregate st = inr (last, records)
    ∧ fetch_last_record st = Some last
    ∧ last ∈ st
    ∧ (∀ r, r ∈ st → time_le r last)
    ∧ records ≡ₚ filter (in_window last) st
    ∧ StronglySorted time_le records.
Proof.
  intros Hne Hcan (r0 & Hr0 & Hrep).
  destruct (fetch_last_record_spec st Hne) as (last & Elast & Hin & Hmax).
  unfold canonical_store in Hcan. rewrite Forall_forall in Hcan.
  destruct (canonical_inv _ (Hcan last Hin)) as (dl & Hvl & Ets & Eparse & Esec).
  assert (Hmax' : ∀ r, r ∈ st → time_le r last).
  { intros r Hr. apply str_le_seconds; auto. apply (Hmax r Hr). }
  assert (Hord : 30 < toordinal dl).
  { pose proof (Hmax' r0 Hr0) as Hle. unfold time_le in Hle.
    rewrite Esec in Hle. unfold thirty_days in Hrep.
    replace (seconds DateTime.min) with 86400 in Hrep by reflexivity.
    pose proof (valid_fields dl Hvl) as (_ & _ & _ & HH & HM & HS).
    unfold seconds in Hle. lia. }
  destruct (sub_days_spec dl 30 Hvl) as (ds & Esub & Hvs & Esecs); [lia|lia|].
  exists last, (order_by_timestamp_asc
                  (filter (λ r, str_le (strftime ISO ds) (timestamp r)
                                ∧ str_le (timestamp r) (strftime ISO dl)) st)).
  split; [|split; [exact Elast|split; [exact Hin|split; [exact Hmax'|split]]]].
  - unfold Dashboard.aggregate. rewrite Elast, Eparse, Esub.
    by rewrite fetch_records_canonical.
  - unfold order_by_timestamp_asc. rewrite merge_sort_Permutation.
    apply Permutation_reflexive_eq, filter_ext_elem.
    intros r Hr. unfold in_window. rewrite <- Ets.
    assert (Hcs : canonical (strftime ISO ds)) by (by exists ds).
    rewrite (str_le_seconds _ _ Hcs (Hcan r Hr)).
    rewrite (str_le_seconds _ _ (Hcan r Hr) (Hcan last Hin)).
    unfold seconds_of at 1. rewrite strptime_strftime by exact Hvs.
    rewrite Esecs, Esec. unfold thirty_days. reflexivity.
  - unfold order_by_timestamp_asc.
    apply (StronglySorted_transfer ts_le time_le (λ r, canonical (timestamp r))).
    + intros x y Hx Hy Hxy. by apply str_le_seconds.
    + apply Forall_forall. intros r Hr.
      rewrite merge_sort_Permutation in Hr.
      apply list_elem_of_filter in Hr as [_ Hr]. by apply Hcan.
    + apply StronglySorted_merge_sort; apply _.
Qed.

End AggregateFacts.

(** ** The format of the timestamp column *)

Section InvariantFacts.
Import DateTime PyVal Store.
Variable h : host.
Variable os_popen : spawner.
Variable html_template : Dashboard.page → string.
Variable chart_offline : bool.

Lemma insert_record_spec now a b c d e elio asp op (st : store) :
  (∃ err, insert_record now a b c d e elio asp op st = (inl err, st))
  ∨ (∃ row, insert_record now a b c d e elio asp op st
            = (inr (strftime ISO now), st ++ [row])
            ∧ timestamp row = strftime ISO now).
Proof.
  unfold insert_record.
  destruct (sql_real "o2" a); [left; by eexists|].
  destruct (sql_real "rh1" b); [left; by eexists|].
  destruct (sql_real "temp1" c); [left; by eexists|].
  destruct (sql_real "rh2" d); [left; by eexists|].
  destruct (sql_real "temp2" e); [left; by eexists|].
  destruct (is_si_no elio); cbn [negb]; [|left; by eexists].
  destruct (is_si_no asp); cbn [negb]; [|left; by eexists].
  right. eexists. split; reflexivity.
Qed.

(** The row a successful [insert_record] appends. *)
Lemma insert_record_row now a b c d e elio asp op (st st' : store) ts :
  insert_record now a b c d e elio asp op st = (inr ts, st') →
  ∃ w1 w2 w3 w4 w5,
    ts = strftime ISO now
    ∧ st' = st ++ [Row (strftime ISO now) w1 w2 w3 w4 w5 elio asp op]
    ∧ sql_real "o2" a = inr w1 ∧ sql_real "rh1" b = inr w2
    ∧ sql_real "temp1" c = inr w3 ∧ sql_real "rh2" d = inr w4
    ∧ sql_real "temp2" e = inr w5
    ∧ is_si_no elio = true ∧ is_si_no asp = true.
Proof.
  unfold insert_record.
  destruct (sql_real "o2" a) as [?|w1]; [discriminate|].
  destruct (sql_real "rh1" b) as [?|w2]; [discriminate|].
  destruct (sql_real "temp1" c) as [?|w3]; [discriminate|].
  destruct (sql_real "rh2" d) as [?|w4]; [discriminate|].
  destruct (sql_real "temp2" e) as [?|w5]; [discriminate|].
  destruct (is_si_no elio); cbn [negb]; [|discriminate].
  destruct (is_si_no asp); cbn [negb]; [|discriminate].
  intros [= <- <-]. by exists w1, w2, w3, w4, w5.
Qed.

Lemma insert_record_ok now a b c d e elio asp op (st : store) w1 w2 w3 w4 w5 :
  sql_real "o2" a = inr w1 → sql_real "rh1" b = inr w2 →
  sql_real "temp1" c = inr w3 → sql_real "rh2" d = inr w4 →
  sql_real "temp2" e = inr w5 →
  is_si_no elio = true → is_si_no asp = true →
  insert_record now a b c d e elio asp op st
  = (inr (strftime ISO now),
     st ++ [Row (strftime ISO now) w1 w2 w3 w4 w5 elio asp op]).
Proof.
  intros E1 E2 E3 E4 E5 He Ha. unfold insert_record.
  by rewrite E1, E2, E3, E4, E5, He, Ha.
Qed.

(** What the [REAL NOT NULL] column does with a float. *)
Lemma sql_real_inr column f w : sql_real column f = inr w → f ≠ NaN.
Proof. by destruct f. Qed.

Lemma sql_real_not_nan column f : f ≠ NaN → ∃ w, sql_real column f = inr w.
Proof. destruct f as [neg [|m] e| |]; intros H; try done; by eexists. Qed.

Lemma sql_real_nan column :
  sql_real column NaN
  = inl (IntegrityError ("NOT NULL constraint failed: logs." +:+ column)).
Proof. reflexivity. Qed.

Lemma publish_cycle_store nf nn (a : App.app) :
  App.app_store (App.publish_cycle h os_popen html_template chart_offline nf nn a).2
  = App.app_store a.
Proof.
  unfold App.publish_cycle.
  destruct (App._generate_dashboard_to_fixed_dir _ _ _ _ _ _ _) as [[e|r] fs'];
    [reflexivity|].
  destruct (Dispatcher.deploy_to_surge _ _ _ _) as [r' tr']. reflexivity.
Qed.

(** [save_record] leaves the table as it is or appends one row stamped
    with the clock reading. *)
Lemma save_record_store f now nf nn (a : App.app) :
  let a' := (App.save_record h os_popen html_template chart_offline f now nf nn a).2 in
  App.app_store a' = App.app_store a
  ∨ ∃ row, App.app_store a' = App.app_store a ++ [row]
           ∧ timestamp row = strftime ISO now.
Proof.
  cbn zeta.
  assert (Hbody :
    let a' := (App.save_record_body h os_popen html_template chart_offline
                 f now nf nn a).2 in
    App.app_store a' = App.app_store a
    ∨ ∃ row, App.app_store a' = App.app_store a ++ [row]
             ∧ timestamp row = strftime ISO now).
  { cbn zeta. unfold App.save_record_body, App.lift, mbind, M_bind, bind.
    destruct (App.parse_float (App.f_o2 f) _); [by left|]. cbn.
    destruct (App.parse_float (App.f_rh1 f) _); [by left|]. cbn.
    destruct (App.parse_float (App.f_temp1 f) _); [by left|]. cbn.
    destruct (App.parse_float (App.f_rh2 f) _); [by left|]. cbn.
    destruct (App.parse_float (App.f_temp2 f) _); [by left|]. cbn.
    destruct (negb (PyStr.truthy _)); [by left|].
    unfold App.insert.
    match goal with |- context [insert_record ?n ?a ?b ?c ?d ?e ?x ?y ?z ?s] =>
      destruct (insert_record_spec n a b c d e x y z s) as [[err E]|(row & E & Hts)];
      rewrite E
    end.
    - by left.
    - rewrite publish_cycle_store. cbn. right. eauto. }
  unfold App.save_record.
  destruct (App.save_record_body _ _ _ _ _ _ _ _ _) as [[e|[ok log]] a'];
    [destruct e|]; exact Hbody.
Qed.

(** C10 (as the code has it). [insert_record] stamps the row with the
    clock reading in the format ["%Y-%m-%d %H:%M:%S"]; on timestamps of
    that format the comparison of strings that [BETWEEN], [>=], [<=] and
    [ORDER BY] use is the comparison of the instants; and every operation
    of the program keeps all timestamps of the table in that format,
    provided that a restored database file holds such a table. *)
Theorem canonical_timestamps_preserved :
  (∀ now a b c d e elio asp op (st st' : store) ts,
     valid now →
     insert_record now a b c d e elio asp op st = (inr ts, st') →
     ts = strftime ISO now ∧ canonical ts
     ∧ ∃ row, st' = st ++ [row] ∧ timestamp row = ts)
  ∧ (∀ ts1 ts2, canonical ts1 → canonical ts2 →
       String.compare ts1 ts2 = (seconds_of ts1 ?= seconds_of ts2))
  ∧ (∀ op (a : App.app),
       canonical_store (App.app_store a) →
       (∀ f now nf nn, op = App.OpSave f now nf nn → valid now) →
       (∀ backup, op = App.OpRestore (Some backup) true → canonical_store backup) →
       canonical_store
         (App.app_store (App.run_operation h os_popen html_template chart_offline op a))).
Proof.
  split; [|split].
  - intros now a b c d e elio asp op st st' ts Hv E.
    destruct (insert_record_spec now a b c d e elio asp op st)
      as [[err E']|(row & E' & Hts)]; rewrite E' in E; [discriminate|].
    injection E as <- <-. split; [reflexivity|]. split; [by exists now|]. eauto.
  - intros ts1 ts2 (d1 & Hv1 & -> & _ & ->)%canonical_inv
      (d2 & Hv2 & -> & _ & ->)%canonical_inv.
    by apply compare_strftime.
  - intros op a Hcan Hsave Hrestore. destruct op as [|f now nf nn|nf nn|s e|chosen confirmed];
      cbn [App.run_operation].
    + exact Hcan.
    + destruct (save_record_store f now nf nn a) as [->|(row & -> & Hts)];
        [exact Hcan|].
      apply Forall_app. split; [exact Hcan|].
      apply Forall_singleton. rewrite Hts. exists now. split; [|reflexivity].
      by eapply Hsave.
    + unfold App.manual_generate_dashboard.
      destruct (App._generate_dashboard_to_fixed_dir _ _ _ _ _ _ _) as [[?|?] ?];
        exact Hcan.
    + exact Hcan.
    + unfold App.restore_database.
      destruct chosen as [backup|]; [|exact Hcan].
      destruct confirmed; [|exact Hcan]. by apply Hrestore.
Qed.

End InvariantFacts.

(** ** Rendering *)

Section RenderFacts.
Import DateTime PyVal Store Dashboard.

Lemma all_digits_uint u : all_digits (NilEmpty.string_of_uint u) = true.
Proof. induction u; cbn; auto. Qed.

Lemma of_int_digits z :
  0 ≤ z → PyStr.of_int z ≠ "" ∧ all_digits (PyStr.of_int z) = true.
Proof.
  intros Hz. unfold PyStr.of_int.
  destruct z as [|p|p]; [split; [discriminate|reflexivity]| |lia].
  cbn [Z.to_int NilZero.string_of_int]. unfold NilZero.string_of_uint.
  destruct (Pos.to_uint p) eqn:E; [split; [discriminate|reflexivity]|..];
    (split; [discriminate|]); rewrite <- E at 1;
    rewrite all_digits_uint; reflexivity.
Qed.

Lemma is_digit_digit d : 0 ≤ d ≤ 9 → is_digit (digit d) = true.
Proof. intros H. unfold is_digit. by rewrite digit_val_digit. Qed.

Lemma round_half_even_nonneg num den :
  0 ≤ num → 0 < den → 0 ≤ round_half_even num den.
Proof.
  intros Hn Hd. unfold round_half_even.
  assert (0 ≤ num / den) by (apply Z.div_pos; lia).
  repeat case_match; lia.
Qed.

Lemma fmt_2f_two_decimals f : is_finite f = true → two_decimals (fmt_2f f).
Proof.
  destruct f as [neg m e| |]; [intros _|discriminate..].
  cbn [fmt_2f].
  set (c := if 0 <=? e then Z.of_N m * 2 ^ e * 100
            else round_half_even (Z.of_N m * 100) (2 ^ (- e))).
  assert (Hc : 0 ≤ c).
  { subst c. destruct (Z.leb_spec 0 e).
    - assert (0 ≤ 2 ^ e) by (apply Z.pow_nonneg; lia). nia.
    - apply round_half_even_nonneg; [lia|]. apply Z.pow_pos_nonneg; lia. }
  clearbody c.
  assert (Hq : 0 ≤ c / 100) by (apply Z.div_pos; lia).
  destruct (of_int_digits (c / 100) Hq) as [Hne Hall].
  exists (if neg then "-" else ""), (PyStr.of_int (c / 100)),
    (digit (c mod 100 / 10)), (digit ((c mod 100) mod 10)).
  split; [reflexivity|].
  split; [destruct neg; auto|].
  split; [exact Hne|]. split; [exact Hall|].
  split; apply is_digit_digit; Z.div_mod_to_equations; lia.
Qed.

Lemma format_num_cases x :
  (∃ f, py_float x = inr f ∧ format_num x = fmt_2f f)
  ∨ (∃ s e, x = PyStr s ∧ py_float x = inl e ∧ format_num x = s).
Proof.
  unfold format_num. destruct x as [f|s]; cbn.
  - left. by exists f.
  - destruct (float_of_string s) as [f|]; [left; by exists f|].
    right. by eexists _, _.
Qed.

Lemma add_record_numeric acc r :
  numeric_row r = true →
  ∃ acc', add_record acc r = inr acc'
          ∧ table_rows acc' = table_rows acc ++ [table_row r]
          ∧ labels acc' = labels acc ++ [it_ts_display (timestamp r)].
Proof.
  unfold numeric_row, numeric, add_record. intros H.
  repeat (apply andb_prop in H as [H ?]).
  destruct (py_float (o2 r)); [discriminate|].
  destruct (py_float (rh1 r)); [discriminate|].
  destruct (py_float (temp1 r)); [discriminate|].
  destruct (py_float (rh2 r)); [discriminate|].
  destruct (py_float (temp2 r)); [discriminate|].
  eexists. repeat split.
Qed.

Lemma add_record_not_numeric acc r :
  numeric_row r = false → ∃ e, add_record acc r = inl e.
Proof.
  unfold numeric_row, numeric, add_record. intros H.
  destruct (py_float (o2 r)); [by eexists|].
  destruct (py_float (rh1 r)); [by eexists|].
  destruct (py_float (temp1 r)); [by eexists|].
  destruct (py_float (rh2 r)); [by eexists|].
  destruct (py_float (temp2 r)); [by eexists|]. discriminate.
Qed.

Lemma build_series_numeric records : ∀ acc,
  forallb numeric_row records = true →
  ∃ s, build_series acc records = inr s
       ∧ table_rows s = table_rows acc ++ map table_row records
       ∧ labels s = labels acc ++ map (λ r, it_ts_display (timestamp r)) records.
Proof.
  induction records as [|r records IH]; intros acc H.
  - exists acc. by rewrite !app_nil_r.
  - cbn in H. apply andb_prop in H as [Hr Hrest].
    destruct (add_record_numeric acc r Hr) as (acc' & E & Ht & Hl).
    destruct (IH acc' Hrest) as (s & Es & Hts & Hls).
    exists s. cbn [build_series]. rewrite E. split; [exact Es|].
    rewrite Hts, Hls, Ht, Hl, <- !app_assoc. by split.
Qed.

Lemma build_series_not_numeric records : ∀ acc,
  forallb numeric_row records = false → ∃ e, build_series acc records = inl e.
Proof.
  induction records as [|r records IH]; intros acc H; [discriminate|].
  cbn in H. cbn [build_series].
  destruct (numeric_row r) eqn:Hr.
  - destruct (add_record_numeric acc r Hr) as (acc' & -> & _). by apply IH.
  - destruct (add_record_not_numeric acc r Hr) as [e ->]. by eexists.
Qed.

End RenderFacts.

(** ** Generating and committing the dashboard *)

Section FilesystemFacts.

Lemma bind_inr {S A B} (m : M S A) (k : A → M S B) s b s' :
  (m ≫= k) s = (inr b, s') →
  ∃ a s1, m s = (inr a, s1) ∧ k a s1 = (inr b, s').
Proof.
  unfold mbind, M_bind, bind. destruct (m s) as [[e|a] s1]; [discriminate|].
  intros E. by exists a, s1.
Qed.

Lemma bind_inl {S A B} (m : M S A) (k : A → M S B) s e s' :
  m s = (inl e, s') → (m ≫= k) s = (inl e, s').
Proof. unfold mbind, M_bind, bind. by intros ->. Qed.

Lemma writable_set_files fs files p :
  writable (set_files fs files) p = writable fs p.
Proof. reflexivity. Qed.

Lemma write_text_inr p text fs u fs' :
  write_text p text fs = (inr u, fs') →
  writable fs p = true ∧ fs' = set_files fs (<[p := text]> (fs_files fs)).
Proof.
  unfold write_text. destruct (writable fs p); [|discriminate].
  by intros [= _ <-].
Qed.

Lemma write_text_ok p text fs :
  writable fs p = true →
  write_text p text fs = (inr tt, set_files fs (<[p := text]> (fs_files fs))).
Proof. unfold write_text. by intros ->. Qed.

Lemma copy2_cases src dst fs :
  (∃ e, copy2 src dst fs = (inl e, fs))
  ∨ (∃ text, fs_files fs !! src = Some text ∧ writable fs dst = true
             ∧ copy2 src dst fs = (inr tt, set_files fs (<[dst := text]> (fs_files fs)))).
Proof.
  unfold copy2. destruct (fs_copy2_works fs); cbn; [|left; by eexists].
  destruct (fs_files fs !! src) as [text|]; [|left; by eexists].
  destruct (writable fs dst); [|left; by eexists].
  right. by exists text.
Qed.

Lemma lookup_insert_val (m : gmap string string) k k' v :
  m !! k' = Some v → <[k := v]> m !! k' = Some v.
Proof.
  intros H. destruct (decide (k = k')) as [->|Hne].
  - apply lookup_insert_eq.
  - by rewrite lookup_insert_ne.
Qed.

Lemma string_app_inv_head (a b1 b2 : string) : a +:+ b1 = a +:+ b2 → b1 = b2.
Proof.
  induction a as [|c a IH]; [done|].
  rewrite !append_cons. intros [= E]. by apply IH.
Qed.

(** Two names joined to one directory stay apart. *)
Lemma path_join_inj sep a b1 b2 :
  PyStr.startswith sep b1 = false → PyStr.startswith sep b2 = false →
  path_join sep a b1 = path_join sep a b2 → b1 = b2.
Proof.
  unfold path_join. intros -> ->.
  destruct (String.eqb a ""); [done|].
  destruct (ends_with_sep sep a).
  - apply string_app_inv_head.
  - intros E. apply string_app_inv_head in E. by apply string_app_inv_head in E.
Qed.

Lemma h_sep_cases h : h_sep h = "\" ∨ h_sep h = "/".
Proof. unfold h_sep. destruct (PyStr.startswith _ _); auto. Qed.

Lemma path_join_truthy sep a b :
  PyStr.truthy b = true → PyStr.startswith sep b = false → PyStr.truthy sep = true →
  PyStr.truthy (path_join sep a b) = true.
Proof.
  unfold path_join. intros Hb -> Hs.
  destruct (String.eqb_spec a ""); [exact Hb|].
  destruct a as [|c a]; [done|].
  destruct (ends_with_sep sep (String c a)); reflexivity.
Qed.

End FilesystemFacts.

Section CommitFacts.
Variable h : host.

Abbreviation LATEST := (App.LATEST h).
Abbreviation INDEX := (App.INDEX h).
Abbreviation ARCHIVE := (App.ARCHIVE h).

Lemma latest_ne_index : LATEST ≠ INDEX.
Proof.
  unfold App.LATEST, App.INDEX. intros E.
  destruct (h_sep_cases h) as [Hs|Hs]; rewrite Hs in E;
    apply path_join_inj in E; done.
Qed.

Lemma archive_ne_index now : ARCHIVE now ≠ INDEX.
Proof.
  unfold App.ARCHIVE, App.INDEX. intros E.
  destruct (h_sep_cases h) as [Hs|Hs]; rewrite Hs in E;
    apply path_join_inj in E; done.
Qed.

(** Text mode reads a text without carriage returns as it was written. *)
Lemma read_back_no_cr (text : string) :
  has_cr text = false → read_back (h_linesep h) text = text.
Proof.
  unfold read_back, h_linesep.
  induction text as [|c text IH]; [reflexivity|].
  cbn [has_cr on_disk]. intros [Hc Ht]%orb_false_elim.
  specialize (IH Ht).
  destruct (Ascii.eqb_spec c LF) as [->|Hlf].
  - destruct (PyStr.startswith "win" (h_platform h)).
    + rewrite !append_cons, append_nil_l. cbn [universal_newlines].
      replace (Ascii.eqb CR CR) with true by reflexivity.
      replace (Ascii.eqb LF LF) with true by reflexivity.
      by rewrite IH.
    + rewrite append_cons, append_nil_l. cbn [universal_newlines].
      replace (Ascii.eqb LF CR) with false by reflexivity.
      by rewrite IH.
  - destruct (PyStr.startswith "win" (h_platform h));
      cbn [universal_newlines]; rewrite Hc; by rewrite IH.
Qed.

(** What [mirror_index] leaves behind when it returns: [index.html] is
    a copy of the stable file, or, when the copy raised, what text mode
    reads of the stable file. *)
Lemma mirror_index_inr fs fs' text u :
  fs_files fs !! LATEST = Some text →
  App.mirror_index h LATEST fs = (inr u, fs') →
  fs_files fs' = <[INDEX := App.mirrored h fs text]> (fs_files fs)
  ∧ fs_dirs fs' = fs_dirs fs ∧ fs_readonly fs' = fs_readonly fs
  ∧ fs_copy2_works fs' = fs_copy2_works fs.
Proof.
  intros Hl. unfold App.mirror_index, attempt. unfold mbind, M_bind, bind.
  fold INDEX. unfold App.mirrored, copy2.
  destruct (fs_copy2_works fs) eqn:Hcp; cbn [negb].
  - rewrite Hl. destruct (writable fs INDEX) eqn:Hw.
    + by intros [= _ <-].
    + unfold write_text at 1. rewrite Hw. discriminate.
  - (* the copy raised: read-then-write *)
    destruct (write_text INDEX "" fs) as [[e1|[]] fs1] eqn:E1; [discriminate|].
    apply write_text_inr in E1 as [Hw ->].
    unfold read_text at 1. cbn [fs_files set_files].
    rewrite lookup_insert_ne by (intros E'; by apply latest_ne_index).
    rewrite Hl. rewrite write_text_ok by exact Hw.
    intros [= _ <-]. cbn. by rewrite insert_insert_eq, Hcp.
Qed.

Lemma commit_inr now html fs r fs' :
  App.commit h now html fs = (inr r, fs') →
  r = (LATEST, ARCHIVE now)
  ∧ fs_files fs'
    = <[INDEX := App.mirrored h fs html]>
        (<[ARCHIVE now := html]> (<[LATEST := html]> (fs_files fs)))
  ∧ writable fs LATEST = true ∧ writable fs (ARCHIVE now) = true
  ∧ fs_copy2_works fs' = fs_copy2_works fs.
Proof.
  unfold App.commit, Dashboard.write_dashboard.
  fold LATEST. fold (ARCHIVE now).
  intros E.
  apply bind_inr in E as ([l t] & fs2 & E & Em).
  apply bind_inr in E as ([] & fs1 & E1 & E).
  apply write_text_inr in E1 as [Hw1 ->].
  apply bind_inr in E as ([] & fs2' & E2 & E).
  apply write_text_inr in E2 as [Hw2 ->].
  injection E as <- <- <-.
  apply bind_inr in Em as ([] & fs3 & Em & E).
  injection E as <- <-.
  apply mirror_index_inr with (text := html) in Em as (Hf & _ & _ & Hcp).
  - split; [reflexivity|]. split; [exact Hf|]. by repeat split.
  - cbn. by apply lookup_insert_val, lookup_insert_eq.
Qed.

(** X25. Committing the same page twice leaves the same content in the
    stable file and the same content in [index.html] after each commit,
    and the page in the archival copy of each commit, whose names differ
    only in the time stamp; the first archival copy is still there after
    the second commit.  Within a commit [index.html] is a copy of the
    stable file when [shutil.copy2] works; when it is unusable,
    [index.html] is written by the read-then-write fallback and holds
    what text mode reads of the stable file, which is the page itself
    whenever the page has no carriage return. *)
Theorem commit_idempotent (html : string) (now1 now2 : DateTime.datetime)
    (fs fs1 fs2 : filesystem) (r1 r2 : string * string) :
  App.commit h now1 html fs = (inr r1, fs1) →
  App.commit h now2 html fs1 = (inr r2, fs2) →
  r1 = (LATEST, ARCHIVE now1) ∧ r2 = (LATEST, ARCHIVE now2)
  ∧ fs_files fs1 !! LATEST = Some html ∧ fs_files fs2 !! LATEST = Some html
  ∧ fs_files fs1 !! INDEX = fs_files fs2 !! INDEX
  ∧ fs_files fs1 !! ARCHIVE now1 = Some html
  ∧ fs_files fs2 !! ARCHIVE now2 = Some html
  ∧ fs_files fs2 !! ARCHIVE now1 = Some html
  ∧ (fs_copy2_works fs = true → fs_files fs1 !! INDEX = Some html)
  ∧ (fs_copy2_works fs = false →
       fs_files fs1 !! INDEX = Some (read_back (h_linesep h) html))
  ∧ (has_cr html = false → fs_files fs1 !! INDEX = Some html).
Proof.
  intros E1 E2.
  apply commit_inr in E1 as (-> & Hf1 & _ & _ & Hcp1).
  apply commit_inr in E2 as (-> & Hf2 & _).
  assert (L1 : fs_files fs1 !! LATEST = Some html).
  { rewrite Hf1, lookup_insert_ne by (apply not_eq_sym, latest_ne_index).
    by apply lookup_insert_val, lookup_insert_eq. }
  assert (A1 : fs_files fs1 !! ARCHIVE now1 = Some html).
  { rewrite Hf1, lookup_insert_ne by (apply not_eq_sym, archive_ne_index).
    apply lookup_insert_eq. }
  assert (I1 : fs_files fs1 !! INDEX = Some (App.mirrored h fs html)).
  { rewrite Hf1. apply lookup_insert_eq. }
  repeat split; try assumption.
  - rewrite Hf2, lookup_insert_ne by (apply not_eq_sym, latest_ne_index).
    by apply lookup_insert_val, lookup_insert_eq.
  - rewrite I1, Hf2, lookup_insert_eq. unfold App.mirrored. by rewrite Hcp1.
  - rewrite Hf2, lookup_insert_ne by (apply not_eq_sym, archive_ne_index).
    apply lookup_insert_eq.
  - rewrite Hf2, lookup_insert_ne by (apply not_eq_sym, archive_ne_index).
    by do 2 apply lookup_insert_val.
  - intros Hcp. rewrite I1. unfold App.mirrored. by rewrite Hcp.
  - intros Hcp. rewrite I1. unfold App.mirrored. by rewrite Hcp.
  - intros Hcr. rewrite I1. unfold App.mirrored.
    destruct (fs_copy2_works fs); [reflexivity|]. by rewrite read_back_no_cr.
Qed.

(** [_generate_dashboard_to_fixed_dir] is: make the directory, render
    the page, commit it. *)
Lemma generate_to_fixed_dir_commit tpl off st nf nn fs :
  App._generate_dashboard_to_fixed_dir h tpl off st nf nn fs
  = (_ ← makedirs (App.DASH_DIR h);
     html ← Dashboard.render_dashboard h tpl st nf (App.DASH_DIR h) off;
     App.commit h nn html) fs.
Proof.
  unfold App._generate_dashboard_to_fixed_dir, Dashboard.generate_dashboard_html,
    App.commit. unfold mbind, M_bind, bind.
  destruct (makedirs (App.DASH_DIR h) fs) as [[e|[]] fs1]; [reflexivity|].
  destruct (Dashboard.render_dashboard h tpl st nf (App.DASH_DIR h) off fs1)
    as [[e|html] fs2]; [reflexivity|].
  destruct (Dashboard.write_dashboard h nn (App.DASH_DIR h) html fs2)
    as [[e|[latest tsfile]] fs3]; reflexivity.
Qed.

End CommitFacts.

(** ** The publish cycle *)

Section PublishFacts.
Import PyVal Store Dashboard.
Variable h : host.
Variable os_popen : spawner.
Variable html_template : page → string.
Variable chart_offline : bool.

Abbreviation NO_DATA := (RuntimeError "Nessun record presente nel database.").

Lemma aggregate_empty : aggregate [] = inl NO_DATA.
Proof. reflexivity. Qed.

Lemma makedirs_files p fs r fs' :
  makedirs p fs = (r, fs') → fs_files fs' = fs_files fs.
Proof. unfold makedirs. destruct (isfile fs p); by intros [= _ <-]. Qed.

(** On an empty table [render_dashboard] raises before it touches a
    file. *)
Lemma render_dashboard_empty nf out_dir off fs :
  ∃ e fs', render_dashboard h html_template [] nf out_dir off fs = (inl e, fs')
           ∧ fs_files fs' = fs_files fs
           ∧ (PyStr.truthy out_dir = true → isfile fs out_dir = false → e = NO_DATA).
Proof.
  unfold render_dashboard.
  destruct (PyStr.truthy out_dir); cbn [negb]; [|by eexists _, _].
  unfold mbind, M_bind, bind, get.
  destruct (path_exists fs out_dir) eqn:Hex.
  - cbn. by eexists _, _.
  - unfold makedirs. unfold path_exists in Hex. apply orb_false_iff in Hex as [-> _].
    cbn. by eexists _, _.
Qed.

Lemma dash_dir_truthy : PyStr.truthy (App.DASH_DIR h) = true.
Proof.
  unfold App.DASH_DIR.
  destruct (h_sep_cases h) as [-> | ->]; by apply path_join_truthy.
Qed.

(** On an empty table [_generate_dashboard_to_fixed_dir] raises and leaves
    the files as they were. *)
Lemma generate_to_fixed_dir_empty nf nn fs :
  ∃ e fs',
    App._generate_dashboard_to_fixed_dir h html_template chart_offline [] nf nn fs
    = (inl e, fs')
    ∧ fs_files fs' = fs_files fs
    ∧ (isfile fs (App.DASH_DIR h) = false → e = NO_DATA).
Proof.
  rewrite generate_to_fixed_dir_commit.
  unfold mbind at 1, M_bind at 1, bind at 1.
  destruct (makedirs (App.DASH_DIR h) fs) as [[e|[]] fs1] eqn:Em.
  - eexists _, _. split; [reflexivity|]. split; [by eapply makedirs_files|].
    intros Hnf. unfold makedirs in Em. rewrite Hnf in Em. discriminate.
  - destruct (render_dashboard_empty nf (App.DASH_DIR h) chart_offline fs1)
      as (e & fs' & E & Hf & He).
    rewrite (bind_inl _ _ _ _ _ E).
    eexists _, _. split; [reflexivity|].
    split; [rewrite Hf; by eapply makedirs_files|].
    intros Hnf. apply He; [apply dash_dir_truthy|].
    unfold makedirs in Em. rewrite Hnf in Em. by injection Em as <-.
Qed.

(** C8. On a store with no readings aggregation fails with the
    no-data error and yields no snapshot; [generate_dashboard_html]
    raises without writing any file; and the publish cycle ends with an
    exception before a subprocess is started: the files and the event
    trace are as before.  The exception is the no-data error unless the
    dashboard directory cannot be created.  Regenerating the dashboard by
    hand ends in the same way. *)
Theorem empty_store_no_publish (nf nn : DateTime.datetime) (a : App.app) :
  App.app_store a = [] →
  aggregate (App.app_store a) = inl NO_DATA
  ∧ (∀ out_dir fs,
       ∃ e fs', generate_dashboard_html h html_template [] nf nn out_dir chart_offline fs
                = (inl e, fs')
                ∧ fs_files fs' = fs_files fs)
  ∧ (∃ e a',
      App.publish_cycle h os_popen html_template chart_offline nf nn a = (inl e, a')
      ∧ fs_files (App.app_fs a') = fs_files (App.app_fs a)
      ∧ App.app_trace a' = App.app_trace a
      ∧ App.app_store a' = []
      ∧ (isfile (App.app_fs a) (App.DASH_DIR h) = false → e = NO_DATA))
  ∧ (∃ msg a',
      App.manual_generate_dashboard h html_template chart_offline nf nn a = (Some msg, a')
      ∧ fs_files (App.app_fs a') = fs_files (App.app_fs a)
      ∧ App.app_trace a' = App.app_trace a).
Proof.
  intros Hst. rewrite Hst. split; [reflexivity|]. split; [|split].
  - intros out_dir fs. unfold generate_dashboard_html.
    destruct (render_dashboard_empty nf out_dir chart_offline fs) as (e & fs' & E & Hf & _).
    exists e, fs'. split; [|exact Hf]. by apply bind_inl.
  - unfold App.publish_cycle. rewrite Hst.
    destruct (generate_to_fixed_dir_empty nf nn (App.app_fs a)) as (e & fs' & -> & Hf & He).
    by eexists _, _.
  - unfold App.manual_generate_dashboard. rewrite Hst.
    destruct (generate_to_fixed_dir_empty nf nn (App.app_fs a)) as (e & fs' & -> & Hf & He).
    by eexists _, _.
Qed.

(** *** Generation and the sensor values *)

Lemma choose_chart_tag_inr out_dir off fs :
  ∃ tag fs', choose_chart_tag h out_dir off fs = (inr tag, fs')
             ∧ ∀ p, writable fs' p = writable fs p.
Proof.
  unfold choose_chart_tag, mbind, M_bind, bind, get, attempt.
  destruct (off && path_exists fs _); [by eexists _, _|].
  destruct (off && path_exists fs _); [|by eexists _, _].
  match goal with |- context [copy2 ?s ?d fs] =>
    destruct (copy2_cases s d fs) as [[e E]|(text & _ & _ & E)]; rewrite E
  end; by eexists _, _.
Qed.

Lemma generate_raises_not_numeric st nf nn out_dir off fs last records :
  aggregate st = inr (last, records) →
  forallb numeric_row records = false →
  ∃ e fs', generate_dashboard_html h html_template st nf nn out_dir off fs = (inl e, fs').
Proof.
  intros Ha Hn. unfold generate_dashboard_html.
  assert (∃ e fs', render_dashboard h html_template st nf out_dir off fs = (inl e, fs'))
    as (e & fs' & E).
  { unfold render_dashboard.
    destruct (PyStr.truthy out_dir); cbn [negb]; [|by eexists _, _].
    unfold mbind, M_bind, bind, get.
    destruct (build_series_not_numeric records (Series [] [] [] [] [] [] []) Hn)
      as [e Eb].
    destruct (path_exists fs out_dir).
    - cbn. rewrite Ha. cbn. rewrite Eb. by eexists _, _.
    - destruct (makedirs out_dir fs) as [[e'|[]] fs1]; [by eexists _, _|].
      rewrite Ha. cbn. rewrite Eb. by eexists _, _. }
  exists e, fs'. by apply bind_inl.
Qed.

Lemma generate_completes st nf nn off fs last records :
  isdir fs (App.DASH_DIR h) = true →
  aggregate st = inr (last, records) →
  forallb numeric_row records = true →
  writable fs (App.LATEST h) = true → writable fs (App.ARCHIVE h nn) = true →
  ∃ fs', generate_dashboard_html h html_template st nf nn (App.DASH_DIR h) off fs
         = (inr (App.LATEST h, App.ARCHIVE h nn), fs').
Proof.
  intros Hd Ha Hn Hw1 Hw2.
  unfold generate_dashboard_html, render_dashboard.
  rewrite dash_dir_truthy. cbn [negb].
  unfold mbind, M_bind, bind, get, path_exists. rewrite Hd, orb_true_r.
  cbn. rewrite Ha. cbn.
  destruct (build_series_numeric records (Series [] [] [] [] [] [] []) Hn)
    as (s & -> & _).
  cbn.
  destruct (choose_chart_tag_inr (App.DASH_DIR h) off fs) as (tag & fs1 & -> & Hw).
  cbn. unfold write_dashboard, mbind, M_bind, bind.
  fold (App.LATEST h). fold (App.ARCHIVE h nn).
  rewrite write_text_ok by (by rewrite Hw).
  rewrite write_text_ok by (by rewrite writable_set_files, Hw).
  by eexists.
Qed.

(** X24. [format_num] never raises: a value that [float] converts is
    printed with [.2f], which has exactly two decimal places when the
    number is finite, and a value that [float] rejects is rendered as its
    own text.  Generation builds the series and the table of every
    snapshot whose sensor values [float] all converts, and then completes
    when the two files can be written; on a snapshot holding a sensor
    value that [float] rejects, [generate_dashboard_html] raises. *)
Theorem format_num_total :
  (∀ x, (∃ f, py_float x = inr f ∧ format_num x = fmt_2f f)
        ∨ (∃ s e, x = PyStr s ∧ py_float x = inl e ∧ format_num x = s))
  ∧ (∀ x f, py_float x = inr f → is_finite f = true → two_decimals (format_num x))
  ∧ (∀ records, forallb numeric_row records = true →
       ∃ s, build_series (Series [] [] [] [] [] [] []) records = inr s
            ∧ table_rows s = map table_row records)
  ∧ (∀ st nf nn off fs last records,
       isdir fs (App.DASH_DIR h) = true →
       aggregate st = inr (last, records) →
       forallb numeric_row records = true →
       writable fs (App.LATEST h) = true → writable fs (App.ARCHIVE h nn) = true →
       ∃ fs', generate_dashboard_html h html_template st nf nn (App.DASH_DIR h) off fs
              = (inr (App.LATEST h, App.ARCHIVE h nn), fs'))
  ∧ (∀ st nf nn out_dir off fs last records,
       aggregate st = inr (last, records) →
       forallb numeric_row records = false →
       ∃ e fs', generate_dashboard_html h html_template st nf nn out_dir off fs
                = (inl e, fs')).
Proof.
  split; [exact format_num_cases|]. split; [|split; [|split]].
  - intros x f Hf Hfin. destruct (format_num_cases x) as [(f' & Hf' & ->)|(s & e & _ & He & _)].
    + rewrite Hf in Hf'. injection Hf' as <-. by apply fmt_2f_two_decimals.
    + rewrite Hf in He. discriminate.
  - intros records Hn.
    destruct (build_series_numeric records (Series [] [] [] [] [] [] []) Hn)
      as (s & E & Ht & _). by exists s.
  - apply generate_completes.
  - apply generate_raises_not_numeric.
Qed.

End PublishFacts.

(** ** Tool resolver *)

Section ResolverFacts.
Variable h : host.

Abbreviation is_file := (λ c : string, isfile (h_fs h) c = true).

Abbreviation path_hit := (Resolver.path_hit h).

Lemma head_filter_app {A} (P : A → Prop) `{∀ x, Decision (P x)} (l1 l2 : list A) :
  head (filter P (l1 ++ l2)) =
  match head (filter P l1) with Some x => Some x | None => head (filter P l2) end.
Proof.
  rewrite filter_app. destruct (filter P l1); reflexivity.
Qed.

Lemma search_path_head names :
  Resolver.search_path h names = head (omap path_hit names).
Proof.
  induction names as [|n names IH]; simpl; [reflexivity|].
  unfold Resolver.path_hit at 1.
  destruct (h_which h n) as [p|]; [destruct (PyStr.truthy p)|]; simpl; auto.
Qed.

Lemma probe_suffixes_head d base sufs :
  Resolver.probe_suffixes h d base sufs =
  head (filter is_file (suf ← sufs; [Resolver.join h d (base +:+ suf)])).
Proof.
  induction sufs as [|suf sufs IH]; simpl; [reflexivity|].
  rewrite filter_cons. case_decide as E.
  - rewrite E. reflexivity.
  - apply not_true_is_false in E. rewrite E. exact IH.
Qed.

Lemma probe_dirs_head dirs base :
  Resolver.probe_dirs h dirs base =
  head (filter is_file
          (d ← dirs; suf ← Resolver.suffixes; [Resolver.join h d (base +:+ suf)])).
Proof.
  induction dirs as [|d dirs IH]; [reflexivity|].
  cbn [Resolver.probe_dirs]. rewrite bind_cons, head_filter_app.
  rewrite <- probe_suffixes_head, <- IH. reflexivity.
Qed.

Lemma probe_names_head dirs names :
  Resolver.probe_names h dirs names =
  head (filter is_file (Resolver.candidates h dirs names)).
Proof.
  unfold Resolver.candidates.
  induction names as [|base names IH]; [reflexivity|].
  cbn [Resolver.probe_names]. rewrite bind_cons, head_filter_app.
  rewrite <- probe_dirs_head, <- IH. reflexivity.
Qed.

(** When a single directory [d0] of the list holds matches, scanning the
    list for [base] amounts to scanning [d0]. *)
Lemma probe_dirs_single names dirs d0 base :
  base ∈ names → d0 ∈ dirs →
  (∀ d, d ∈ dirs → Resolver.has_match h names d → d = d0) →
  Resolver.probe_dirs h dirs base
  = Resolver.probe_suffixes h d0 base Resolver.suffixes.
Proof.
  intros Hb Hd0 Huniq.
  assert (Hnone : ∀ d, d ∈ dirs → d ≠ d0 →
            Resolver.probe_suffixes h d base Resolver.suffixes = None).
  { intros d Hd Hne.
    destruct (Resolver.probe_suffixes h d base Resolver.suffixes) as [c|] eqn:E;
      [|reflexivity].
    exfalso. apply Hne, Huniq; [exact Hd|].
    rewrite probe_suffixes_head in E.
    apply head_Some_elem_of in E.
    apply list_elem_of_filter in E as [Hf Hin].
    apply list_elem_of_bind in Hin as (suf & Hin & Hsuf).
    apply list_elem_of_singleton in Hin. subst c.
    exists base, suf. auto. }
  clear Huniq.
  induction dirs as [|d dirs IH]; [by apply elem_of_nil in Hd0|].
  cbn [Resolver.probe_dirs].
  destruct (decide (d = d0)) as [->|Hne].
  - destruct (Resolver.probe_suffixes h d0 base Resolver.suffixes) eqn:E;
      [reflexivity|].
    (* no hit in [d0]: nothing is found further on either *)
    clear IH Hd0.
    assert (Hall : ∀ d, d ∈ dirs →
              Resolver.probe_suffixes h d base Resolver.suffixes = None).
    { intros d Hd. destruct (decide (d = d0)) as [->|Hne]; [exact E|].
      apply Hnone; [by right|exact Hne]. }
    clear Hnone. induction dirs as [|d dirs IH]; [reflexivity|].
    cbn [Resolver.probe_dirs]. rewrite (Hall d) by left.
    apply IH. intros d' Hd'. apply Hall. by right.
  - rewrite (Hnone d) by (by left || exact Hne).
    apply IH.
    + apply elem_of_cons in Hd0 as [->|Hd0]; [done|exact Hd0].
    + intros d' Hd'. apply Hnone. by right.
Qed.

Lemma probe_names_single names dirs dirs' d0 :
  d0 ∈ dirs → d0 ∈ dirs' →
  (∀ d, d ∈ dirs → Resolver.has_match h names d → d = d0) →
  (∀ d, d ∈ dirs' → Resolver.has_match h names d → d = d0) →
  Resolver.probe_names h dirs names = Resolver.probe_names h dirs' names.
Proof.
  intros Hd Hd' Hu Hu'.
  assert (Hgen : ∀ l, l ⊆ names →
            Resolver.probe_names h dirs l = Resolver.probe_names h dirs' l).
  { induction l as [|base l IH]; intros Hsub; [reflexivity|].
    cbn [Resolver.probe_names].
    rewrite (probe_dirs_single names dirs d0 base),
            (probe_dirs_single names dirs' d0 base); auto.
    - rewrite IH; [reflexivity|]. intros x Hx. apply Hsub. by right.
    - apply Hsub. by left.
    - apply Hsub. by left. }
  apply Hgen. done.
Qed.

(** C6. [_which_executable] first asks the inherited search path for
    every name in order and returns the first hit; only when no name is
    on the path does it probe the known directories, visiting the
    candidates name by name, directory by directory, suffix by suffix, and
    returning the first one that is a file.  When exactly one directory
    of the list contains a match, any reordering of the directory list
    yields the same result. *)
Theorem which_executable_first_found (names : list string) :
  Resolver._which_executable h names =
    match head (omap path_hit names) with
    | Some p => Some p
    | None => head (filter is_file
                (Resolver.candidates h (Resolver._possible_node_dirs h) names))
    end
  ∧ ∀ dirs' d0,
      dirs' ≡ₚ Resolver._possible_node_dirs h →
      d0 ∈ Resolver._possible_node_dirs h →
      Resolver.has_match h names d0 →
      (∀ d, d ∈ Resolver._possible_node_dirs h →
            Resolver.has_match h names d → d = d0) →
      Resolver.which_executable_in h dirs' names = Resolver._which_executable h names.
Proof.
  split.
  - unfold Resolver._which_executable, Resolver.which_executable_in.
    rewrite search_path_head, probe_names_head. reflexivity.
  - intros dirs' d0 Hperm Hd0 _ Huniq.
    unfold Resolver._which_executable, Resolver.which_executable_in.
    destruct (Resolver.search_path h names); [reflexivity|].
    apply (probe_names_single names _ _ d0).
    + by rewrite Hperm.
    + exact Hd0.
    + intros d Hd. apply Huniq. by rewrite <- Hperm.
    + exact Huniq.
Qed.

End ResolverFacts.

(** ** Subprocess invocation *)

Section SubprocessFacts.
Variable h : host.
Variable os_popen : spawner.

Abbreviation run := (Subprocess._run_subprocess h os_popen).
Abbreviation event_contained := Subprocess.event_contained.
Abbreviation contained := Subprocess.contained.

Lemma contained_ret {A} (a : A) : contained (mret a).
Proof. intros tr. exists a, []. by rewrite app_nil_r. Qed.

Lemma contained_bind {A B} (m : M (list event) A) (k : A → M (list event) B) :
  contained m → (∀ a, contained (k a)) → contained (m ≫= k).
Proof.
  intros Hm Hk tr. destruct (Hm tr) as (a & evs & Em & Hevs).
  destruct (Hk a (tr ++ evs)) as (b & evs' & Ek & Hevs').
  exists b, (evs ++ evs'). split.
  - unfold mbind, M_bind, bind. rewrite Em, Ek, app_assoc. reflexivity.
  - by apply Forall_app.
Qed.

Lemma popen_kwargs cmd kw tr :
  kw !! "shell" = None → kw !! "stdout" = Some KPipe →
  kw !! "stderr" = Some KStdout → is_Some (kw !! "stdin") →
  ∃ kw',
    Subprocess._popen_no_window h os_popen cmd kw tr
    = match os_popen tr cmd kw' with
      | inl e => (inl e, tr)
      | inr p => (inr p, tr ++ [EvPopen cmd kw'])
      end
    ∧ event_contained (EvPopen cmd kw').
Proof.
  intros Hsh Hout Herr [v Hin].
  unfold Subprocess._popen_no_window, Subprocess.setdefault. cbv zeta.
  rewrite Hsh. rewrite !lookup_insert_ne by done. rewrite Hout.
  rewrite !lookup_insert_ne by done. rewrite Herr.
  rewrite !lookup_insert_ne by done. rewrite Hin.
  cbn [kw_absent andb].
  eexists. split; [reflexivity|].
  destruct (PyStr.startswith "win" (h_platform h)); cbn [event_contained];
    rewrite ?lookup_insert_ne by done; rewrite lookup_insert_eq;
    (split; [reflexivity|]); rewrite ?lookup_insert_ne by done; auto.
Qed.

Lemma run_handler_spec p e tr :
  ∃ r evs,
    Subprocess.run_handler p e tr = (inr r, tr ++ evs)
    ∧ (evs = [] ∨ evs = [EvKill])
    ∧ (p = None → evs = [])
    ∧ (e = TimeoutExpired →
         r = (1, "Timeout esecuzione comando.")
         ∧ ∀ p', p = Some p' → proc_kill_raises p' = None → evs = [EvKill]).
Proof.
  destruct e; cbn.
  2-11: eexists _, []; rewrite app_nil_r; repeat split; auto; discriminate.
  unfold mbind, M_bind, bind, attempt.
  destruct p as [p'|]; cbn.
  - unfold Subprocess.kill. destruct (proc_kill_raises p') eqn:E; cbn.
    + eexists _, []. rewrite app_nil_r. repeat split; auto.
      intros ? [= <-]. congruence.
    + eexists _, [EvKill]. repeat split; auto. discriminate.
  - eexists _, []. rewrite app_nil_r. repeat split; auto. discriminate.
Qed.

(** One invocation: the result, the events it adds, and what they say. *)
Lemma run_subprocess_spec cmd input timeout env tr :
  ∃ rc out evs,
    run cmd input timeout env tr = (inr (rc, out), tr ++ evs)
    ∧ (∀ c kw, EvPopen c kw ∈ evs →
         c = cmd ∧ kw !! "shell" = Some (KBool false)
         ∧ kw !! "stdout" = Some KPipe ∧ kw !! "stderr" = Some KStdout)
    ∧ (∀ i t, EvCommunicate i t ∈ evs → i = input ∧ t = timeout)
    ∧ (∀ kw p, EvPopen cmd kw ∈ evs → os_popen tr cmd kw = inr p →
         proc_communicate p input timeout = inl TimeoutExpired →
         rc = 1 ∧ out = "Timeout esecuzione comando."
         ∧ (proc_kill_raises p = None → last evs = Some EvKill)).
Proof.
  unfold Subprocess._run_subprocess.
  match goal with |- context [Subprocess._popen_no_window _ _ _ ?kw] =>
    destruct (popen_kwargs cmd kw tr) as (kw' & Epop & Hkw)
  end.
  { by rewrite !lookup_insert_ne by done. }
  { by rewrite lookup_insert_ne, lookup_insert_eq by done. }
  { by rewrite !lookup_insert_ne, lookup_insert_eq by done. }
  { rewrite lookup_insert_eq. eauto. }
  unfold mbind, M_bind, bind, attempt at 1. rewrite Epop. clear Epop.
  destruct (os_popen tr cmd kw') as [e|p] eqn:Eos.
  - (* Popen raised: no child, no event *)
    destruct (run_handler_spec None e tr) as ([rc out] & evs & Eh & _ & Hnil & _).
    rewrite Eh, (Hnil eq_refl). exists rc, out, [].
    split; [reflexivity|]. repeat split; intros; by decompose_list_elem_of.
  - unfold attempt, Subprocess.communicate, Subprocess.emit, mbind, M_bind, bind.
    destruct (proc_communicate p input timeout) as [e|[rc out]] eqn:Ec; cbn.
    + destruct (run_handler_spec (Some p) e
                  ((tr ++ [EvPopen cmd kw']) ++ [EvCommunicate input timeout]))
        as ([rc out] & evs & Eh & Hevs & _ & Ht).
      rewrite Eh. exists rc, out, ([EvPopen cmd kw'; EvCommunicate input timeout] ++ evs).
      split; [by rewrite <- !app_assoc|].
      split; [|split].
      * intros c kw Hin. destruct Hevs as [-> | ->];
          decompose_list_elem_of; simplify_eq; by destruct Hkw as (?&?&?).
      * intros i t Hin. destruct Hevs as [-> | ->];
          decompose_list_elem_of; by simplify_eq.
      * intros kw p0 Hin Hos Hto.
        assert (kw = kw') as ->.
        { destruct Hevs as [-> | ->]; decompose_list_elem_of; by simplify_eq. }
        rewrite Eos in Hos. simplify_eq. rewrite Ec in Hto. simplify_eq.
        destruct Ht as [Hr Hk]; [done|]. simplify_eq. repeat split.
        intros Hnr. by rewrite (Hk p0 eq_refl Hnr).
    + exists rc, out, [EvPopen cmd kw'; EvCommunicate input timeout].
      split; [by rewrite <- app_assoc|].
      split; [|split].
      * intros c kw Hin. decompose_list_elem_of; simplify_eq.
        by destruct Hkw as (?&?&?).
      * intros i t Hin. decompose_list_elem_of; by simplify_eq.
      * intros kw p0 Hin Hos Hto. decompose_list_elem_of; simplify_eq.
        rewrite Eos in Hos. simplify_eq. rewrite Ec in Hto. discriminate.
Qed.

Lemma run_contained cmd input timeout env :
  0 < timeout ≤ 300 → contained (run cmd input timeout env).
Proof.
  intros Ht tr.
  destruct (run_subprocess_spec cmd input timeout env tr)
    as (rc & out & evs & E & Hp & Hc & _).
  exists (rc, out), evs. split; [exact E|].
  apply Forall_forall. intros [c kw|i t|] Hin; cbn; [| |done].
  - by destruct (Hp c kw Hin) as (_ & ? & ? & ?).
  - by destruct (Hc i t Hin) as [_ ->].
Qed.

End SubprocessFacts.

(** ** Deploy dispatcher *)

Section DispatcherFacts.
Variable h : host.
Variable os_popen : spawner.

Abbreviation deploy_to_surge := (Dispatcher.deploy_to_surge h os_popen).
Abbreviation contained := Subprocess.contained.

Ltac contained_step :=
  first
    [ apply contained_ret
    | apply contained_bind; [apply run_contained; lia | intros [? ?]]
    | apply contained_bind; [apply run_contained; lia | intros ?] ].

Lemma login_contained surge_cmd :
  contained (Dispatcher._surge_login_if_needed h os_popen surge_cmd).
Proof.
  unfold Dispatcher._surge_login_if_needed.
  contained_step. case_match; repeat contained_step.
Qed.

Lemma deploy_with_npx_contained folder last :
  contained (Dispatcher.deploy_with_npx h os_popen folder last).
Proof.
  unfold Dispatcher.deploy_with_npx.
  case_match; [|apply contained_ret].
  contained_step. apply contained_bind.
  - case_match; repeat contained_step.
  - intros _. contained_step. case_match; apply contained_ret.
Qed.

Lemma deploy_contained folder : contained (deploy_to_surge folder).
Proof.
  unfold Dispatcher.deploy_to_surge.
  case_match; [|apply deploy_with_npx_contained].
  apply contained_bind; [apply login_contained|intros [? ?]].
  contained_step. case_match; [apply contained_ret|apply deploy_with_npx_contained].
Qed.

(** C9. [_run_subprocess] always returns a (return code, output) pair,
    whatever [Popen], [communicate] or [kill] raise.  The child is started
    without a shell and with both output streams captured into one pipe,
    and is waited for with the timeout given; when the wait times out the
    pair is [(1, "Timeout esecuzione comando.")] and the child has been
    killed.  Every invocation made by [deploy_to_surge] is of this kind,
    with a timeout of at most 300 seconds, and the dispatcher itself never
    raises. *)
Theorem run_subprocess_contained :
  (∀ cmd input timeout env tr,
     ∃ rc out evs,
       Subprocess._run_subprocess h os_popen cmd input timeout env tr
       = (inr (rc, out), tr ++ evs)
       ∧ (∀ c kw, EvPopen c kw ∈ evs →
            c = cmd ∧ kw !! "shell" = Some (KBool false)
            ∧ kw !! "stdout" = Some KPipe ∧ kw !! "stderr" = Some KStdout)
       ∧ (∀ i t, EvCommunicate i t ∈ evs → i = input ∧ t = timeout)
       ∧ (∀ kw p, EvPopen cmd kw ∈ evs → os_popen tr cmd kw = inr p →
            proc_communicate p input timeout = inl TimeoutExpired →
            rc = 1 ∧ out = "Timeout esecuzione comando."
            ∧ (proc_kill_raises p = None → last evs = Some EvKill)))
  ∧ (∀ folder tr,
       ∃ r evs, deploy_to_surge folder tr = (inr r, tr ++ evs)
                ∧ Forall Subprocess.event_contained evs).
Proof.
  split.
  - apply run_subprocess_spec.
  - intros folder tr. apply deploy_contained.
Qed.

(** C7. When neither [surge] nor [npx] is found on the search path or in
    the known directories, [deploy_to_surge] reports failure, its
    transcript names both tools as not found, and no subprocess is
    started: the event trace is unchanged. *)
Theorem deploy_no_tool_found (folder : string) (tr : list event) :
  Resolver._which_executable h ["surge"] = None →
  Resolver._which_executable h ["npx"] = None →
  ∃ log,
    deploy_to_surge folder tr = (inr (false, log), tr)
    ∧ log = "[surge] non trovato; provo npx" +:+ Dispatcher.nl +:+
            "[npx] non trovato. Installa Node.js (npx) o aggiungi surge alla PATH."
    ∧ PyStr.contains "[surge] non trovato" log = true
    ∧ PyStr.contains "[npx] non trovato" log = true.
Proof.
  intros Hs Hn. eexists. split; [|split; [reflexivity|]].
  - unfold Dispatcher.deploy_to_surge, Dispatcher.deploy_with_npx.
    rewrite Hs, Hn. reflexivity.
  - split; vm_compute; reflexivity.
Qed.

(** C2 (as the code has it). When the direct deploy does not succeed
    (the tool is not found, or its deploy invocation exits nonzero) and the
    package runner is found and its deploy invocation exits zero, the
    dispatcher reports success and the transcript it returns is the output
    of the package-runner deploy invocation alone. *)
Theorem deploy_fallback_success (folder npx_cmd out2 : string) (tr : list event) :
  Resolver._which_executable h ["npx"] = Some npx_cmd →
  (∀ tr', (Subprocess._run_subprocess h os_popen
             [npx_cmd; "surge"; folder; Dispatcher.SURGE_DOMAIN; "--yes"]
             None 300 None tr').1 = inr (0, out2)) →
  (∀ surge_cmd tr',
     Resolver._which_executable h ["surge"] = Some surge_cmd →
     ∃ rc out,
       (Subprocess._run_subprocess h os_popen
          [surge_cmd; folder; Dispatcher.SURGE_DOMAIN; "--yes"]
          None 240 None tr').1 = inr (rc, out) ∧ rc ≠ 0) →
  ∃ tr', deploy_to_surge folder tr = (inr (true, out2), tr').
Proof.
  intros Hnpx Hok Hfail.
  assert (Hnpx_ok : ∀ last tr0, ∃ tr',
            Dispatcher.deploy_with_npx h os_popen folder last tr0
            = (inr (true, out2), tr')).
  { intros last tr0. unfold Dispatcher.deploy_with_npx. rewrite Hnpx.
    unfold mbind, M_bind, bind.
    destruct (run_subprocess_spec h os_popen [npx_cmd; "surge"; "whoami"] None 60 None tr0)
      as (rc1 & o1 & evs1 & -> & _).
    match goal with |- context [(if ?c then _ else _) ?t] =>
      assert (∃ t', (if c then
                 _ ← Subprocess._run_subprocess h os_popen [npx_cmd; "surge"; "login"]
                       (Some (Dispatcher.SURGE_EMAIL +:+ Dispatcher.nl +:+
                              Dispatcher.SURGE_PASSWORD +:+ Dispatcher.nl)) 120 None;
                 mret tt
               else mret tt) t = (inr tt, t')) as [t' Et]
    end.
    { case_match; [|by eexists].
      unfold mbind, M_bind, bind.
      match goal with |- context [Subprocess._run_subprocess _ _ ?c ?i ?t ?e ?tr] =>
        destruct (run_subprocess_spec h os_popen c i t e tr) as (? & ? & ? & -> & _)
      end. by eexists. }
    unfold mbind, M_bind, bind in Et. rewrite Et.
    specialize (Hok t').
    destruct (Subprocess._run_subprocess h os_popen _ None 300 None t') as [r t''].
    cbn in Hok. subst r. cbn. by eexists. }
  unfold Dispatcher.deploy_to_surge.
  destruct (Resolver._which_executable h ["surge"]) as [surge_cmd|] eqn:Hs;
    [|apply Hnpx_ok].
  unfold mbind, M_bind, bind.
  destruct (login_contained surge_cmd tr) as ([ok log1] & evs & -> & _).
  destruct (Hfail surge_cmd (tr ++ evs) eq_refl) as (rc & out & Er & Hrc).
  destruct (Subprocess._run_subprocess h os_popen _ None 240 None (tr ++ evs)) as [r t1].
  cbn in Er. subst r. apply Z.eqb_neq in Hrc. rewrite Hrc. apply Hnpx_ok.
Qed.

End DispatcherFacts.
(** ** The scenarios *)

Section Scenarios.
Import DateTime PyVal Store Scenario.

(** The scenario of the specification: one reading, a snapshot of one
    entry, shown as [10/01/24 08:00] with an oxygen value of [20.90]. *)
Example aggregate_one_reading :
  Dashboard.aggregate one_reading = inr (reading, [reading])
  ∧ Dashboard.it_ts_display (timestamp reading) = "10/01/24 08:00"
  ∧ Dashboard.format_num (o2 reading) = "20.90"
  ∧ sub_days jan10 30 = inr (mk 2023 12 11 8 0 0).
Proof. repeat split; vm_compute; reflexivity. Qed.

Example aggregate_three_readings :
  Dashboard.aggregate three_readings = inr (reading, [earlier; reading]).
Proof. vm_compute. reflexivity. Qed.

Example format_num_samples :
  map Dashboard.format_num
    [PyStr "2.675"; PyStr " 12 "; PyStr "-0.001"; PyStr "inf"; PyStr "45,3"; PyStr ""]
  = ["2.67"; "12.00"; "-0.00"; "inf"; "45,3"; ""].
Proof. vm_compute. reflexivity. Qed.

Example strptime_is_lenient :
  strptime "2024-1-5 8:0:0" ISO = inr (mk 2024 1 5 8 0 0)
  ∧ strftime ISO (mk 2024 1 5 8 0 0) = "2024-01-05 08:00:00".
Proof. split; vm_compute; reflexivity. Qed.

Example resolve_on_windows :
  Resolver._possible_node_dirs host_windows = [npm_dir; nodejs_dir]
  ∧ Resolver._which_executable host_windows ["npx"]
    = Some "C:\Program Files\nodejs\npx.cmd"
  ∧ Resolver._which_executable host_windows ["surge"] = None.
Proof. repeat split; vm_compute; reflexivity. Qed.

(** Every name is tried on the search path before any directory is
    probed: a later name found on the path wins over an earlier name found
    in a directory. *)
Example search_path_before_directories :
  Resolver._which_executable host_mixed ["surge"]
  = Some "C:\Users\mri\AppData\Roaming\npm\surge.cmd"
  ∧ Resolver._which_executable host_mixed ["surge"; "npx"]
    = Some "C:\Program Files\nodejs\npx.cmd".
Proof. split; vm_compute; reflexivity. Qed.

Example save_and_publish :
  (App.save_record host_tools spawner_surge_fails plain_template false form_ok
     jan10 jan10 jan10 (App.mk [] fs_ready [])).1
  = App.Deployed true "npx-ok".
Proof. vm_compute. reflexivity. Qed.

Lemma canonical_three_readings : canonical_store three_readings.
Proof.
  repeat constructor;
    [exists oct02 | exists jan10 | exists dec20]; split; reflexivity.
Defined.

Lemma aggregate_window_witness :
  ∃ last records,
    Dashboard.aggregate three_readings = inr (last, records)
    ∧ fetch_last_record three_readings = Some last
    ∧ last ∈ three_readings
    ∧ (∀ r, r ∈ three_readings → time_le r last)
    ∧ records ≡ₚ filter (in_window last) three_readings
    ∧ StronglySorted time_le records.
Proof.
  apply (aggregate_window three_readings).
  - discriminate.
  - exact canonical_three_readings.
  - exists reading. split; [apply list_elem_of_In; cbn; tauto|].
    vm_compute. discriminate.
Defined.

(** C1, as stated, fails.  A store whose one reading was stamped by
    another tool, without leading zeros: that reading is the latest one
    and lies in its own window, yet the snapshot holds no reading, since
    the query compares the timestamps as text.  A store whose one reading
    is stamped in the format of [insert_record], two weeks after
    [datetime.min]: the start of the window is no [datetime] and
    aggregation raises [OverflowError]. *)
Lemma aggregate_window_fails :
  [foreign_reading] ≠ [] ∧ [ancient_reading] ≠ []
  ∧ fetch_last_record [foreign_reading] = Some foreign_reading
  ∧ in_window foreign_reading foreign_reading
  ∧ Dashboard.aggregate [foreign_reading] = inr (foreign_reading, [])
  ∧ (¬ ∃ last records,
         Dashboard.aggregate [foreign_reading] = inr (last, records)
         ∧ fetch_last_record [foreign_reading] = Some last
         ∧ records ≡ₚ filter (in_window last) [foreign_reading])
  ∧ canonical_store [ancient_reading]
  ∧ Dashboard.aggregate [ancient_reading]
    = inl (OverflowError "date value out of range")
  ∧ (¬ ∃ last records, Dashboard.aggregate [ancient_reading] = inr (last, records)).
Proof.
  split; [discriminate|]. split; [discriminate|].
  split; [vm_compute; reflexivity|].
  split; [vm_compute; split; discriminate|].
  split; [vm_compute; reflexivity|].
  split.
  { intros (last & records & E & _ & Hp).
    assert (E' : Dashboard.aggregate [foreign_reading] = inr (foreign_reading, []))
      by (vm_compute; reflexivity).
    rewrite E' in E. injection E as <- <-.
    apply Permutation_nil_l in Hp. revert Hp.
    rewrite filter_cons. destruct (decide (in_window foreign_reading foreign_reading)) as [|Hn].
    - discriminate.
    - intros _. apply Hn. vm_compute. split; discriminate. }
  split; [repeat constructor; exists jan15_year1; split; reflexivity|].
  split; [vm_compute; reflexivity|].
  intros (last & records & E).
  assert (E' : Dashboard.aggregate [ancient_reading]
               = inl (OverflowError "date value out of range"))
    by (vm_compute; reflexivity).
  rewrite E' in E. discriminate.
Qed.

(** C2, as stated, fails: the direct deploy exits 1 with its own output,
    the package-runner deploy exits 0, the dispatcher reports success, and
    the transcript it returns is the runner's output only. *)
Lemma deploy_fallback_drops_direct_output :
  Resolver._which_executable host_tools ["surge"] = Some "/usr/bin/surge"
  ∧ (Subprocess._run_subprocess host_tools spawner_surge_fails
       ["/usr/bin/surge"; dash_dir; Dispatcher.SURGE_DOMAIN; "--yes"]
       None 240 None []).1 = inr (1, "surge-failed")
  ∧ (Subprocess._run_subprocess host_tools spawner_surge_fails
       ["/usr/bin/npx"; "surge"; dash_dir; Dispatcher.SURGE_DOMAIN; "--yes"]
       None 300 None []).1 = inr (0, "npx-ok")
  ∧ (Dispatcher.deploy_to_surge host_tools spawner_surge_fails dash_dir []).1
    = inr (true, "npx-ok")
  ∧ ¬ ∃ log,
        (Dispatcher.deploy_to_surge host_tools spawner_surge_fails dash_dir []).1
        = inr (true, log)
        ∧ PyStr.contains "surge-failed" log = true
        ∧ PyStr.contains "npx-ok" log = true.
Proof.
  split; [vm_compute; reflexivity|]. split; [vm_compute; reflexivity|].
  split; [vm_compute; reflexivity|]. split; [vm_compute; reflexivity|].
  intros (log & E & Hdirect & _).
  vm_compute in E. injection E as <-. vm_compute in Hdirect. discriminate.
Qed.

Lemma deploy_fallback_success_witness :
  ∃ tr', Dispatcher.deploy_to_surge host_tools spawner_surge_fails dash_dir []
         = (inr (true, "npx-ok"), tr').
Proof.
  apply (deploy_fallback_success host_tools spawner_surge_fails dash_dir
           "/usr/bin/npx" "npx-ok" []).
  - vm_compute. reflexivity.
  - intros tr'. reflexivity.
  - intros surge_cmd tr' Hs. vm_compute in Hs. injection Hs as <-.
    exists 1, "surge-failed". split; [reflexivity|discriminate].
Defined.

Lemma deploy_no_tool_found_witness :
  ∃ log,
    Dispatcher.deploy_to_surge host_bare spawner_surge_fails dash_dir []
    = (inr (false, log), [])
    ∧ log = "[surge] non trovato; provo npx" +:+ Dispatcher.nl +:+
            "[npx] non trovato. Installa Node.js (npx) o aggiungi surge alla PATH."
    ∧ PyStr.contains "[surge] non trovato" log = true
    ∧ PyStr.contains "[npx] non trovato" log = true.
Proof.
  apply (deploy_no_tool_found host_bare spawner_surge_fails dash_dir []);
    vm_compute; reflexivity.
Defined.

Lemma which_executable_first_found_witness :
  Resolver.which_executable_in host_windows [nodejs_dir; npm_dir] ["npx"]
  = Resolver._which_executable host_windows ["npx"].
Proof.
  destruct (which_executable_first_found host_windows ["npx"]) as [_ H].
  apply (H [nodejs_dir; npm_dir] nodejs_dir).
  - replace (Resolver._possible_node_dirs host_windows) with [npm_dir; nodejs_dir]
      by (vm_compute; reflexivity).
    apply perm_swap.
  - replace (Resolver._possible_node_dirs host_windows) with [npm_dir; nodejs_dir]
      by (vm_compute; reflexivity).
    apply list_elem_of_In. cbn. tauto.
  - exists "npx", ".cmd". split; [apply list_elem_of_In; cbn; tauto|].
    split; [apply list_elem_of_In; cbn; tauto|]. vm_compute. reflexivity.
  - intros d Hd (base & suf & Hb & Hs & Hf).
    replace (Resolver._possible_node_dirs host_windows) with [npm_dir; nodejs_dir]
      in Hd by (vm_compute; reflexivity).
    apply list_elem_of_In in Hd, Hb, Hs. cbn in Hd, Hb, Hs.
    destruct Hd as [<-|[<-|[]]]; [|reflexivity].
    destruct Hb as [<-|[]].
    destruct Hs as [<-|[<-|[<-|[<-|[]]]]]; vm_compute in Hf; discriminate.
Defined.

Lemma run_subprocess_contained_witness :
  ∃ evs,
    Subprocess._run_subprocess host_tools spawner_hangs ["/usr/bin/surge"; "whoami"]
      None 30 None []
    = (inr (1, "Timeout esecuzione comando."), evs)
    ∧ last evs = Some EvKill
    ∧ Forall Subprocess.event_contained evs.
Proof.
  destruct (run_subprocess_contained host_tools spawner_hangs) as [H _].
  destruct (H ["/usr/bin/surge"; "whoami"] None 30 None [])
    as (rc & out & evs & E & Hp & Hc & Ht).
  exists evs.
  assert (Hk : ∃ kw, evs = [EvPopen ["/usr/bin/surge"; "whoami"] kw;
                            EvCommunicate None 30; EvKill]).
  { vm_compute in E. injection E as _ _ <-. by eexists. }
  destruct Hk as [kw ->].
  destruct (Ht kw (Proc (λ _ _, inl TimeoutExpired) None)) as (-> & -> & Hl);
    [by left|reflexivity|reflexivity|].
  split; [exact E|]. split; [by apply Hl|].
  repeat constructor; try lia;
    by destruct (Hp _ kw (list_elem_of_here _ _)) as (_ & ? & ? & ?).
Defined.

(** C4.  The code at a snapshot whose only reading has the text [abc]
    in its oxygen column: [float] rejects the value, [format_num] renders
    it as its own text, and generation does not complete, since the
    series of the chart is built with a bare [float]:
    [generate_dashboard_html] raises the [ValueError] of that
    conversion. *)
Theorem generate_raises_on_text_value :
  py_float (o2 text_reading)
  = inl (ValueError "could not convert string to float: 'abc'")
  ∧ Dashboard.format_num (o2 text_reading) = "abc"
  ∧ Dashboard.aggregate [text_reading] = inr (text_reading, [text_reading])
  ∧ (Dashboard.generate_dashboard_html host_bare plain_template [text_reading]
       jan10 jan10 dash_dir false fs_ready).1
    = inl (ValueError "could not convert string to float: 'abc'").
Proof. repeat split; vm_compute; reflexivity. Qed.

(** C5.  The code where [shutil.copy2] fails and the page holds a
    carriage return.  The fallback reads the stable file in text mode,
    where the carriage return becomes a line break, and [index.html] does
    not get the content of [dashboard_latest.html]: so for the commit of
    such a page, and so for the dashboard of a table whose reading has a
    carriage return in the operator name. *)
Theorem fallback_translates_carriage_return :
  let fs1 := (App.commit host_bare jan10 page_cr fs_no_copy2).2 in
  let fs2 := (App._generate_dashboard_to_fixed_dir host_bare plain_template false
                [cr_reading] jan10 jan10 fs_no_copy2).2 in
  (App.commit host_bare jan10 page_cr fs_no_copy2).1
  = inr (App.LATEST host_bare, App.ARCHIVE host_bare jan10)
  ∧ (copy2 (App.LATEST host_bare) (App.INDEX host_bare) fs_no_copy2).1
    = inl (OSError "copy failed")
  ∧ fs_files fs1 !! App.LATEST host_bare = Some page_cr
  ∧ fs_files fs1 !! App.INDEX host_bare = Some page_lf
  ∧ fs_files fs1 !! App.INDEX host_bare ≠ fs_files fs1 !! App.LATEST host_bare
  ∧ (App._generate_dashboard_to_fixed_dir host_bare plain_template false
       [cr_reading] jan10 jan10 fs_no_copy2).1
    = inr (App.LATEST host_bare, App.ARCHIVE host_bare jan10)
  ∧ fs_files fs2 !! App.INDEX host_bare ≠ fs_files fs2 !! App.LATEST host_bare.
Proof.
  intros fs1 fs2. split; [vm_compute; reflexivity|]. split; [vm_compute; reflexivity|].
  assert (L : fs_files fs1 !! App.LATEST host_bare = Some page_cr)
    by (vm_compute; reflexivity).
  assert (I : fs_files fs1 !! App.INDEX host_bare = Some page_lf)
    by (vm_compute; reflexivity).
  split; [exact L|]. split; [exact I|].
  split; [rewrite L, I; discriminate|].
  split; [vm_compute; reflexivity|].
  vm_compute. discriminate.
Qed.

Lemma empty_store_no_publish_witness :
  ∃ a',
    App.publish_cycle host_tools spawner_surge_fails plain_template false jan10 jan10
      (App.mk [] fs_ready [])
    = (inl (RuntimeError "Nessun record presente nel database."), a')
    ∧ fs_files (App.app_fs a') = ∅ ∧ App.app_trace a' = [].
Proof.
  destruct (empty_store_no_publish host_tools spawner_surge_fails plain_template false
              jan10 jan10 (App.mk [] fs_ready []) eq_refl)
    as (_ & _ & (e & a' & E & Hf & Ht & _ & He) & _).
  exists a'. rewrite <- He by (vm_compute; reflexivity).
  repeat split; assumption.
Defined.

(** C10, as stated, fails: restoring a database written elsewhere
    replaces the table by rows whose timestamps are not in the format of
    [insert_record]; the order of the text is then no longer the order in
    time, and the latest reading falls outside its own window. *)
Lemma restore_breaks_canonical_format :
  canonical_store one_reading
  ∧ ¬ canonical_store
        (App.app_store
           (App.run_operation host_tools spawner_surge_fails plain_template false
              (App.OpRestore (Some [foreign_reading]) true)
              (App.mk one_reading fs_ready [])))
  ∧ Dashboard.aggregate [foreign_reading] = inr (foreign_reading, []).
Proof.
  split; [|split].
  - repeat constructor. exists jan10. split; reflexivity.
  - cbn. intros H. apply Forall_cons in H as [(dt & _ & E) _].
    apply (f_equal String.length) in E. rewrite length_strftime in E. discriminate.
  - vm_compute. reflexivity.
Qed.

Lemma canonical_timestamps_preserved_witness :
  canonical_store
    (App.app_store
       (App.run_operation host_tools spawner_surge_fails plain_template false
          (App.OpSave form_ok jan10_later jan10_later jan10_later)
          (App.mk three_readings fs_ready [])))
  ∧ canonical_store
      (App.app_store
         (App.run_operation host_tools spawner_surge_fails plain_template false
            (App.OpRestore (Some one_reading) true)
            (App.mk three_readings fs_ready []))).
Proof.
  destruct (canonical_timestamps_preserved host_tools spawner_surge_fails
              plain_template false) as (_ & _ & H).
  split; apply H.
  - exact canonical_three_readings.
  - intros f now nf nn [= _ <- _ _]. reflexivity.
  - intros backup. discriminate.
  - exact canonical_three_readings.
  - intros f now nf nn. discriminate.
  - intros backup [= <-]. repeat constructor. exists jan10. split; reflexivity.
Defined.

End Scenarios.

(** ** Further properties of the record store *)

Section StoreExtras.
Import DateTime PyVal Store.

Lemma canonical_seconds_inj a b :
  canonical a → canonical b → seconds_of a = seconds_of b → a = b.
Proof.
  intros (da & Hva & -> & _ & Ea)%canonical_inv (db & Hvb & -> & _ & Eb)%canonical_inv E.
  apply String.compare_eq_iff. rewrite compare_strftime by assumption.
  apply Z.compare_eq_iff. congruence.
Qed.

Lemma sorted_asc_spec (rows : list row) :
  order_by_timestamp_asc rows ≡ₚ rows
  ∧ StronglySorted ts_le (order_by_timestamp_asc rows).
Proof.
  unfold order_by_timestamp_asc. split.
  - apply merge_sort_Permutation.
  - apply StronglySorted_merge_sort; apply _.
Qed.

(** X1. After [insert_record] has stored a reading whose clock reading is
    not earlier than any timestamp of the table, [fetch_last_record]
    returns a row stamped with that reading, and the unfiltered query
    lists the new row. *)
Theorem insert_then_latest now a b c d e elio asp op (st st' : store) ts :
  canonical_store st → valid now →
  (∀ r, r ∈ st → seconds_of (timestamp r) ≤ seconds now) →
  insert_record now a b c d e elio asp op st = (inr ts, st') →
  ts = strftime ISO now
  ∧ (∃ last, fetch_last_record st' = Some last ∧ timestamp last = ts)
  ∧ (∃ rows new, fetch_records None None st' = inr rows ∧ new ∈ rows
                 ∧ timestamp new = ts ∧ operatore new = op
                 ∧ length rows = S (length st)).
Proof.
  intros Hcan Hv Hmono E.
  destruct (insert_record_spec now a b c d e elio asp op st)
    as [[err E']|(row & E' & Hts)]; rewrite E' in E; [discriminate|].
  injection E as <- <-. split; [reflexivity|].
  assert (Hop : operatore row = op).
  { apply insert_record_row in E' as (w1 & w2 & w3 & w4 & w5 & _ & E' & _).
    apply app_inv_head in E'. by injection E' as ->. }
  split.
  - destruct (fetch_last_record_spec (st ++ [row])) as (last & El & Hin & Hmax).
    { by destruct st. }
    exists last. split; [exact El|].
    apply elem_of_app in Hin as [Hin|Hin].
    + assert (Hc1 : canonical (timestamp last)).
      { unfold canonical_store in Hcan. rewrite Forall_forall in Hcan. by apply Hcan. }
      assert (Hc2 : canonical (strftime ISO now)) by (by exists now).
      assert (Hle : ts_le row last) by (apply Hmax, elem_of_app; right; by left).
      unfold ts_le in Hle. rewrite Hts in Hle.
      apply (str_le_seconds _ _ Hc2 Hc1) in Hle.
      pose proof (Hmono last Hin) as Hge.
      assert (Es : seconds_of (strftime ISO now) = seconds now).
      { unfold seconds_of. by rewrite strptime_strftime. }
      apply (canonical_seconds_inj _ _ Hc1 Hc2). lia.
    + apply list_elem_of_singleton in Hin. by subst.
  - destruct (sorted_asc_spec (st ++ [row])) as [Hp _].
    exists (order_by_timestamp_asc (st ++ [row])), row.
    split; [reflexivity|]. split; [|split; [exact Hts|split; [exact Hop|]]].
    + rewrite Hp. apply elem_of_app. right. by left.
    + rewrite Hp, length_app. cbn. lia.
Qed.

(** The only exception of [parse_it_date]. *)
Lemma try_formats_error s fmts e :
  try_formats s fmts = inl e →
  e = ValueError
      "Formato data/ora non valido. Usa es. 'gg/mm/aa' o 'gg/mm/aaaa' (opzionale 'HH:MM')."
  ∧ Forall (λ fmt, ∃ e', strptime s fmt = inl e') fmts.
Proof.
  induction fmts as [|fmt fmts IH]; cbn.
  - intros [= <-]. by split.
  - destruct (strptime s fmt) as [e'|dt] eqn:E; [|discriminate].
    intros H. destruct (IH H) as [-> Hall]. split; [reflexivity|].
    constructor; [by exists e'|exact Hall].
Qed.

Lemma try_formats_valid s fmts dt : try_formats s fmts = inr dt → valid dt.
Proof.
  induction fmts as [|fmt fmts IH]; cbn; [discriminate|].
  destruct (strptime s fmt) as [e'|dt'] eqn:E; [exact IH|].
  intros [= <-]. unfold strptime in E.
  destruct (strptime_fields fmt s _); [|discriminate].
  destruct (validb d) eqn:Hv; [|discriminate]. by injection E as <-.
Qed.

Lemma normalize_to_iso_inr s b r :
  normalize_to_iso s b = inr r → ∃ dt, valid dt ∧ r = strftime ISO dt.
Proof.
  unfold normalize_to_iso, parse_it_date.
  destruct (try_formats (strip s) date_formats) as [e|dt] eqn:E; [discriminate|].
  apply try_formats_valid in E.
  pose proof (valid_fields dt E) as (Hy & Hm & Hd & _).
  intros [= <-].
  destruct (_ && _); [destruct b|]; eexists; (split; [|reflexivity]); try exact E;
    unfold valid, validb, replace_time; cbn [year month day hour minute second];
    repeat (apply andb_true_intro; split); lia.
Qed.

Lemma normalize_to_iso_inl s b e :
  normalize_to_iso s b = inl e →
  e = ValueError
      "Formato data/ora non valido. Usa es. 'gg/mm/aa' o 'gg/mm/aaaa' (opzionale 'HH:MM')."
  ∧ parse_it_date s = inl e.
Proof.
  unfold normalize_to_iso, parse_it_date.
  destruct (try_formats (strip s) date_formats) as [e'|dt] eqn:E; [|discriminate].
  intros [= <-]. by destruct (try_formats_error _ _ _ E) as [-> _].
Qed.

(** X2. A bound that [normalize_to_iso] accepts becomes a timestamp in
    the format of the table, and normalising that timestamp again, as
    either kind of bound, gives it back unchanged. *)
Theorem normalize_to_iso_idempotent s b b' r :
  normalize_to_iso s b = inr r →
  canonical r ∧ normalize_to_iso r b' = inr r ∧ String.length r = 19%nat.
Proof.
  intros (dt & Hv & ->)%normalize_to_iso_inr. split; [by exists dt|].
  split; [by apply normalize_to_iso_canonical|reflexivity].
Qed.

Lemma strftime_IT_DATE dt :
  strftime IT_DATE dt = pad2 (day dt) +:+ "/" +:+ pad2 (month dt) +:+ "/" +:+ pad4 (year dt).
Proof. reflexivity. Qed.

Lemma parse_Y_slash n r : 0 ≤ n < 100 → parse_Y (pad2 n +:+ "/" +:+ r) = None.
Proof.
  intros H. unfold parse_Y. rewrite two_digits_pad2 by exact H.
  rewrite append_cons, append_nil_l. by destruct r.
Qed.

Lemma strptime_Y_first_slash n r fmt :
  0 ≤ n < 100 →
  ∃ e, strptime (pad2 n +:+ "/" +:+ r) (Dir_Y :: fmt) = inl e.
Proof.
  intros H. unfold strptime. cbn [strptime_fields]. unfold parse_directive.
  rewrite parse_Y_slash by exact H. by eexists.
Qed.

Lemma strptime_fields_IT_DATE dt fmt acc :
  valid dt →
  strptime_fields ([Dir_d; Lit "/"; Dir_m; Lit "/"; Dir_Y] ++ fmt)
                  (strftime IT_DATE dt) acc =
  strptime_fields fmt ""
    (mk (year dt) (month dt) (day dt) (hour acc) (minute acc) (second acc)).
Proof.
  intros Hv. pose proof (valid_fields dt Hv) as (Hy & Hm & Hd & HH & HM & HS).
  pose proof (days_in_month_le (year dt) (month dt)) as Hdm.
  rewrite strftime_IT_DATE. cbn [app strptime_fields].
  unfold parse_directive at 1. rewrite parse_d_pad2 by lia.
  cbn [strptime_fields]. rewrite lit_step by reflexivity.
  cbn [strptime_fields]. unfold parse_directive at 1. rewrite parse_m_pad2 by lia.
  cbn [strptime_fields]. rewrite lit_step by reflexivity.
  cbn [strptime_fields]. unfold parse_directive at 1.
  replace (pad4 (year dt)) with (pad4 (year dt) +:+ "").
  2:{ unfold pad4. rewrite append_assoc. reflexivity. }
  rewrite parse_Y_pad4 by lia. reflexivity.
Qed.

Lemma try_formats_IT_DATE dt :
  valid dt →
  try_formats (strftime IT_DATE dt) date_formats =
  inr (mk (year dt) (month dt) (day dt) 0 0 0).
Proof.
  intros Hv. pose proof (valid_fields dt Hv) as (Hy & Hm & Hd & HH & HM & HS).
  pose proof (days_in_month_le (year dt) (month dt)) as Hdm.
  unfold date_formats.
  assert (Hf : ∀ fmt, ∃ e, strptime (strftime IT_DATE dt) (Dir_Y :: fmt) = inl e).
  { intros fmt. rewrite strftime_IT_DATE. apply strptime_Y_first_slash. lia. }
  cbn [try_formats].
  destruct (Hf (tail ISO) : ∃ e, strptime _ ISO = inl e) as [e1 ->].
  destruct (Hf (tail ISO_HM) : ∃ e, strptime _ ISO_HM = inl e) as [e2 ->].
  destruct (Hf (tail ISO_DATE) : ∃ e, strptime _ ISO_DATE = inl e) as [e3 ->].
  unfold strptime.
  rewrite (strptime_fields_IT_DATE dt (drop 5 IT_HMS)) by exact Hv.
  rewrite (strptime_fields_IT_DATE dt (drop 5 IT_HM)) by exact Hv.
  rewrite (strptime_fields_IT_DATE dt []) by exact Hv.
  cbn [drop IT_HMS IT_HM strptime_fields parse_directive hour minute second String.eqb].
  assert (Hv' : validb (mk (year dt) (month dt) (day dt) 0 0 0) = true).
  { unfold validb; cbn [year month day hour minute second].
    repeat (apply andb_true_intro; split); lia. }
  by rewrite Hv'.
Qed.

Lemma contains_skip n c s :
  PyStr.contains n s = true → PyStr.contains n (String c s) = true.
Proof.
  intros H. cbn [PyStr.contains]. rewrite H. apply orb_true_r.
Qed.

Lemma normalize_it_date dt b :
  valid dt →
  normalize_to_iso (strftime IT_DATE dt) b =
  inr (strftime ISO (if b then replace_time dt 0 0 0 else replace_time dt 23 59 59)).
Proof.
  intros Hv. pose proof (valid_fields dt Hv) as (Hy & Hm & Hd & HH & HM & HS).
  pose proof (days_in_month_le (year dt) (month dt)) as Hdm.
  assert (Hstrip : strip (strftime IT_DATE dt) = strftime IT_DATE dt).
  { set (m := String (digit (day dt mod 10))
                ("/" +:+ pad2 (month dt) +:+ "/" +:+ pad2 (year dt / 100)
                 +:+ String (digit (year dt mod 100 / 10)) "")).
    change (strftime IT_DATE dt)
      with (String (digit (day dt / 10)) (m +:+ String (digit (year dt mod 100 mod 10)) "")).
    apply strip_digits; Z.div_mod_to_equations; lia. }
  assert (Hlen : len (strftime IT_DATE dt) = 10%nat).
  { rewrite strftime_IT_DATE. unfold pad4. rewrite ?append_assoc, !pad2_append.
    rewrite !append_cons, !append_nil_l. unfold pad2.
    ascii_len. reflexivity. }
  unfold normalize_to_iso, parse_it_date. rewrite Hstrip.
  rewrite try_formats_IT_DATE by exact Hv.
  assert (Hc : PyStr.contains "/" (strftime IT_DATE dt) = true).
  { rewrite strftime_IT_DATE, pad2_append. by do 2 apply contains_skip. }
  rewrite Hc, Hlen. by destruct b.
Qed.

Lemma seconds_replace_time dt h m s :
  seconds (replace_time dt h m s) = toordinal dt * 86400 + h * 3600 + m * 60 + s.
Proof. reflexivity. Qed.

Lemma valid_replace_time dt h m s :
  valid dt → 0 ≤ h < 24 → 0 ≤ m < 60 → 0 ≤ s < 60 → valid (replace_time dt h m s).
Proof.
  intros Hv Hh Hm Hs. pose proof (valid_fields dt Hv) as (? & ? & ? & _).
  unfold valid, validb, replace_time. cbn [year month day hour minute second].
  repeat (apply andb_true_intro; split); lia.
Qed.

(** X4. Bounds typed as Italian dates without a time, [dd/mm/yyyy], select
    whole days: on a table of canonical timestamps [fetch_records] returns
    exactly the rows from the first second of the start day to the last
    second of the end day, in ascending order of time. *)
Theorem fetch_records_whole_days d1 d2 (st : store) :
  valid d1 → valid d2 → canonical_store st →
  ∃ rows,
    fetch_records (Some (strftime IT_DATE d1)) (Some (strftime IT_DATE d2)) st
      = inr rows
    ∧ rows ≡ₚ filter (λ r, toordinal d1 * 86400 ≤ seconds_of (timestamp r)
                           < (toordinal d2 + 1) * 86400) st
    ∧ StronglySorted time_le rows.
Proof.
  intros Hv1 Hv2 Hcan. unfold canonical_store in Hcan. rewrite Forall_forall in Hcan.
  pose proof (valid_replace_time d1 0 0 0 Hv1 ltac:(lia) ltac:(lia) ltac:(lia)) as Hlo.
  pose proof (valid_replace_time d2 23 59 59 Hv2 ltac:(lia) ltac:(lia) ltac:(lia)) as Hhi.
  eexists. split; [|split].
  - unfold fetch_records, given.
    replace (PyStr.truthy (strftime IT_DATE d1)) with true by reflexivity.
    replace (PyStr.truthy (strftime IT_DATE d2)) with true by reflexivity.
    rewrite !normalize_it_date by assumption. reflexivity.
  - unfold order_by_timestamp_asc. rewrite merge_sort_Permutation.
    apply Permutation_reflexive_eq, filter_ext_elem.
    intros r Hr.
    assert (Hc1 : canonical (strftime ISO (replace_time d1 0 0 0)))
      by (eexists; split; [exact Hlo|reflexivity]).
    assert (Hc2 : canonical (strftime ISO (replace_time d2 23 59 59)))
      by (eexists; split; [exact Hhi|reflexivity]).
    rewrite (str_le_seconds _ _ Hc1 (Hcan r Hr)).
    rewrite (str_le_seconds _ _ (Hcan r Hr) Hc2).
    assert (E1 : seconds_of (strftime ISO (replace_time d1 0 0 0))
                 = toordinal d1 * 86400).
    { unfold seconds_of. rewrite strptime_strftime by exact Hlo.
      rewrite seconds_replace_time. lia. }
    assert (E2 : seconds_of (strftime ISO (replace_time d2 23 59 59))
                 = (toordinal d2 + 1) * 86400 - 1).
    { unfold seconds_of. rewrite strptime_strftime by exact Hhi.
      rewrite seconds_replace_time. lia. }
    rewrite E1, E2. lia.
  - unfold order_by_timestamp_asc.
    apply (StronglySorted_transfer ts_le time_le (λ r, canonical (timestamp r))).
    + intros x y Hx Hy Hxy. by apply str_le_seconds.
    + apply Forall_forall. intros r Hr.
      rewrite merge_sort_Permutation in Hr.
      apply list_elem_of_filter in Hr as [_ Hr]. by apply Hcan.
    + apply StronglySorted_merge_sort; apply _.
Qed.

End StoreExtras.

(** ** Further properties of saving a reading *)

Section AppExtras.
Import DateTime PyVal Store.
Variable h : host.
Variable os_popen : spawner.
Variable html_template : Dashboard.page → string.
Variable chart_offline : bool.

Abbreviation save_record := (App.save_record h os_popen html_template chart_offline).
Abbreviation save_record_body :=
  (App.save_record_body h os_popen html_template chart_offline).

Lemma parse_float_error v name e :
  App.parse_float v name = inl e → ∃ msg, e = ValueError msg.
Proof.
  unfold App.parse_float. destruct (String.eqb _ ""); [intros [= <-]; by eexists|].
  destruct (float_of_string _); [discriminate|]. intros [= <-]. by eexists.
Qed.

(** The name stored is the slice, whether or not it is shortened. *)
Lemma operatore_slice (name : string) :
  (if (10 <? len name)%nat then slice_to 10 name else name) = slice_to 10 name.
Proof.
  destruct (Nat.ltb_spec 10 (len name)); [reflexivity|].
  symmetry. by apply slice_to_short.
Qed.

(** The fields of the form that pass the checks of [save_record]. *)
Lemma save_record_body_cases f now nf nn (a : App.app) :
  (∃ msg, save_record_body f now nf nn a = (inl (ValueError msg), a)
          ∧ (strip (App.f_operatore f) = ""
             ∨ ∃ v name, v ∈ [App.f_o2 f; App.f_rh1 f; App.f_temp1 f;
                               App.f_rh2 f; App.f_temp2 f]
                         ∧ App.parse_float v name = inl (ValueError msg)))
  ∨ (∃ v1 v2 v3 v4 v5,
       App.parse_float (App.f_o2 f) "Percentuale O2" = inr v1
       ∧ App.parse_float (App.f_rh1 f) "RH Umidità 1" = inr v2
       ∧ App.parse_float (App.f_temp1 f) "Temperatura 1" = inr v3
       ∧ App.parse_float (App.f_rh2 f) "RH Umidità 2" = inr v4
       ∧ App.parse_float (App.f_temp2 f) "Temperatura 2" = inr v5
       ∧ strip (App.f_operatore f) ≠ ""
       ∧ save_record_body f now nf nn a =
         (_ ← App.insert now v1 v2 v3 v4 v5 (App.f_elio f) (App.f_aspirazione f)
                (slice_to 10 (strip (App.f_operatore f)));
          App.publish_cycle h os_popen html_template chart_offline nf nn) a).
Proof.
  unfold App.save_record_body, App.lift.
  destruct (App.parse_float (App.f_o2 f) _) as [e|v1] eqn:E1.
  { destruct (parse_float_error _ _ _ E1) as [msg ->]. left. exists msg.
    split; [reflexivity|]. right. eexists _, _. split; [|exact E1].
    apply list_elem_of_In; cbn; tauto. }
  destruct (App.parse_float (App.f_rh1 f) _) as [e|v2] eqn:E2.
  { destruct (parse_float_error _ _ _ E2) as [msg ->]. left. exists msg.
    split; [reflexivity|]. right. eexists _, _. split; [|exact E2].
    apply list_elem_of_In; cbn; tauto. }
  destruct (App.parse_float (App.f_temp1 f) _) as [e|v3] eqn:E3.
  { destruct (parse_float_error _ _ _ E3) as [msg ->]. left. exists msg.
    split; [reflexivity|]. right. eexists _, _. split; [|exact E3].
    apply list_elem_of_In; cbn; tauto. }
  destruct (App.parse_float (App.f_rh2 f) _) as [e|v4] eqn:E4.
  { destruct (parse_float_error _ _ _ E4) as [msg ->]. left. exists msg.
    split; [reflexivity|]. right. eexists _, _. split; [|exact E4].
    apply list_elem_of_In; cbn; tauto. }
  destruct (App.parse_float (App.f_temp2 f) _) as [e|v5] eqn:E5.
  { destruct (parse_float_error _ _ _ E5) as [msg ->]. left. exists msg.
    split; [reflexivity|]. right. eexists _, _. split; [|exact E5].
    apply list_elem_of_In; cbn; tauto. }
  destruct (String.eqb_spec (strip (App.f_operatore f)) "") as [Hop|Hop].
  - left. eexists. unfold PyStr.truthy. rewrite Hop. cbn. split; [reflexivity|by left].
  - right. exists v1, v2, v3, v4, v5. repeat (split; [reflexivity|]). split; [exact Hop|].
    rewrite operatore_slice.
    unfold PyStr.truthy. destruct (String.eqb_spec (strip (App.f_operatore f)) "");
      [done|reflexivity].
Qed.

(** X5. A form that fails a check of [save_record] (a sensor field that
    [parse_float] rejects, or an operator name that is blank) ends in the
    validation dialog with nothing stored, no file written and no
    subprocess started. *)
Theorem save_record_invalid_form f now nf nn (a : App.app) :
  (strip (App.f_operatore f) = ""
   ∨ ∃ e, App.parse_float (App.f_o2 f) "Percentuale O2" = inl e
          ∨ App.parse_float (App.f_rh1 f) "RH Umidità 1" = inl e
          ∨ App.parse_float (App.f_temp1 f) "Temperatura 1" = inl e
          ∨ App.parse_float (App.f_rh2 f) "RH Umidità 2" = inl e
          ∨ App.parse_float (App.f_temp2 f) "Temperatura 2" = inl e) →
  ∃ msg, save_record f now nf nn a = (App.ValidationError msg, a).
Proof.
  intros Hbad. unfold App.save_record.
  destruct (save_record_body_cases f now nf nn a)
    as [(msg & -> & _)|(v1 & v2 & v3 & v4 & v5 & E1 & E2 & E3 & E4 & E5 & Hop & _)].
  - by exists msg.
  - destruct Hbad as [Hbad|[e Hbad]]; [done|].
    rewrite E1, E2, E3, E4, E5 in Hbad.
    destruct Hbad as [?|[?|[?|[?|?]]]]; discriminate.
Qed.

(** X6. Whatever [save_record] does, the table is left as it was or has
    one more row, and that row meets the constraints of the table: its
    timestamp is the clock reading in the canonical format, its five
    values are the numbers [parse_float] read from the form, as the [REAL]
    columns give them back (none is NaN, a zero has no sign), both flags
    are ["SI"] or ["NO"], and the operator is the first ten characters at
    most of the stripped name, not empty. *)
Theorem save_record_row f now nf nn (a a' : App.app) o :
  save_record f now nf nn a = (o, a') →
  App.app_store a' = App.app_store a
  ∨ ∃ v1 v2 v3 v4 v5 w1 w2 w3 w4 w5 op,
      App.app_store a' =
        App.app_store a ++
          [Row (strftime ISO now) w1 w2 w3 w4 w5
               (App.f_elio f) (App.f_aspirazione f) op]
      ∧ App.parse_float (App.f_o2 f) "Percentuale O2" = inr v1
      ∧ App.parse_float (App.f_rh1 f) "RH Umidità 1" = inr v2
      ∧ App.parse_float (App.f_temp1 f) "Temperatura 1" = inr v3
      ∧ App.parse_float (App.f_rh2 f) "RH Umidità 2" = inr v4
      ∧ App.parse_float (App.f_temp2 f) "Temperatura 2" = inr v5
      ∧ Forall (λ v, v ≠ NaN) [v1; v2; v3; v4; v5]
      ∧ sql_real "o2" v1 = inr w1 ∧ sql_real "rh1" v2 = inr w2
      ∧ sql_real "temp1" v3 = inr w3 ∧ sql_real "rh2" v4 = inr w4
      ∧ sql_real "temp2" v5 = inr w5
      ∧ is_si_no (App.f_elio f) = true ∧ is_si_no (App.f_aspirazione f) = true
      ∧ op = slice_to 10 (strip (App.f_operatore f))
      ∧ op ≠ "" ∧ (len op ≤ 10)%nat.
Proof.
  intros E.
  assert (Hst : App.app_store a' = App.app_store (save_record_body f now nf nn a).2).
  { unfold App.save_record in E.
    destruct (save_record_body f now nf nn a) as [[e|[ok log]] a1];
      [destruct e|]; by injection E as _ <-. }
  rewrite Hst. clear E Hst.
  destruct (save_record_body_cases f now nf nn a)
    as [(msg & -> & _)|(v1 & v2 & v3 & v4 & v5 & E1 & E2 & E3 & E4 & E5 & Hop & ->)];
    [by left|].
  unfold mbind, M_bind, bind, App.insert.
  destruct (insert_record now v1 v2 v3 v4 v5 (App.f_elio f) (App.f_aspirazione f)
              (slice_to 10 (strip (App.f_operatore f))) (App.app_store a))
    as [[err|ts] st'] eqn:Ei.
  { left. destruct (insert_record_spec now v1 v2 v3 v4 v5 (App.f_elio f)
                      (App.f_aspirazione f) (slice_to 10 (strip (App.f_operatore f)))
                      (App.app_store a)) as [[err' Ei']|(row & Ei' & _)];
      rewrite Ei' in Ei; [by injection Ei as _ <-|discriminate]. }
  apply insert_record_row
    in Ei as (w1 & w2 & w3 & w4 & w5 & -> & -> & S1 & S2 & S3 & S4 & S5 & He & Ha).
  right. exists v1, v2, v3, v4, v5, w1, w2, w3, w4, w5,
    (slice_to 10 (strip (App.f_operatore f))).
  split; [apply (publish_cycle_store h os_popen html_template chart_offline)|].
  do 5 (split; [assumption|]).
  split; [repeat constructor; eapply sql_real_inr; eassumption|].
  do 5 (split; [assumption|]).
  split; [exact He|]. split; [exact Ha|]. split; [reflexivity|].
  split; [by apply slice_to_nonempty|apply len_slice_to].
Qed.

(** X7. When [save_record] reaches the verdict of the deploy, the reading
    has been stored and the dashboard committed before the dispatcher ran:
    the table has one more row stamped with the clock reading,
    [dashboard_latest.html] and the archival copy hold one and the same
    page, and [index.html] holds the mirror of it: the page itself when
    [shutil.copy2] works or the page has no carriage return, and otherwise
    what text mode reads of the page.  The subprocess events of the deploy
    are added after those already recorded. *)
Theorem save_record_deployed f now nf nn (a a' : App.app) ok log :
  save_record f now nf nn a = (App.Deployed ok log, a') →
  (∃ row, App.app_store a' = App.app_store a ++ [row]
          ∧ timestamp row = strftime ISO now)
  ∧ (∃ html, fs_files (App.app_fs a') !! App.LATEST h = Some html
             ∧ fs_files (App.app_fs a') !! App.ARCHIVE h nn = Some html
             ∧ fs_files (App.app_fs a') !! App.INDEX h
               = Some (App.mirrored h (App.app_fs a') html)
             ∧ (fs_copy2_works (App.app_fs a') = true ∨ has_cr html = false →
                fs_files (App.app_fs a') !! App.INDEX h = Some html))
  ∧ (∃ evs, App.app_trace a' = App.app_trace a ++ evs
            ∧ Forall Subprocess.event_contained evs).
Proof.
  intros E.
  assert (Eb : save_record_body f now nf nn a = (inr (ok, log), a')).
  { unfold App.save_record in E.
    destruct (save_record_body f now nf nn a) as [[e|[ok' log']] a1];
      [destruct e; discriminate|]. by injection E as -> -> ->. }
  clear E.
  destruct (save_record_body_cases f now nf nn a)
    as [(msg & E & _)|(v1 & v2 & v3 & v4 & v5 & _ & _ & _ & _ & _ & _ & E)];
    rewrite E in Eb; [discriminate|]. clear E.
  apply bind_inr in Eb as (ts & a1 & Ei & Ep).
  unfold App.insert in Ei.
  match type of Ei with context [insert_record ?n ?x1 ?x2 ?x3 ?x4 ?x5 ?el ?as_ ?op ?st] =>
    destruct (insert_record_spec n x1 x2 x3 x4 x5 el as_ op st)
      as [[err Ei']|(row & Ei' & Hts)]; rewrite Ei' in Ei
  end; [discriminate|].
  injection Ei as <- <-.
  unfold App.publish_cycle in Ep. cbn [App.app_store App.app_fs App.app_trace] in Ep.
  destruct (App._generate_dashboard_to_fixed_dir _ _ _ _ _ _ _) as [[e|r] fs'] eqn:Eg;
    [discriminate|].
  destruct (deploy_contained (set_fs h fs') os_popen (App.DASH_DIR h) (App.app_trace a))
    as (r' & evs & Ed & Hevs).
  rewrite Ed in Ep. injection Ep as -> <-.
  cbn [App.app_store App.app_fs App.app_trace].
  split; [by exists row|]. split; [|by exists evs].
  rewrite generate_to_fixed_dir_commit in Eg.
  apply bind_inr in Eg as ([] & fs1 & _ & Eg).
  apply bind_inr in Eg as (html & fs2 & _ & Eg).
  apply commit_inr in Eg as (_ & Hfiles & _ & _ & Hcp).
  assert (Hm : App.mirrored h fs2 html = App.mirrored h fs' html)
    by (unfold App.mirrored; by rewrite Hcp).
  assert (Hi : fs_files fs' !! App.INDEX h = Some (App.mirrored h fs' html))
    by (rewrite Hfiles, Hm; apply lookup_insert_eq).
  exists html. split; [|split; [|split; [exact Hi|]]].
  - rewrite Hfiles, lookup_insert_ne by (apply not_eq_sym, latest_ne_index).
    apply lookup_insert_val. apply lookup_insert_eq.
  - rewrite Hfiles, lookup_insert_ne by (apply not_eq_sym, archive_ne_index).
    apply lookup_insert_eq.
  - rewrite Hi. unfold App.mirrored. intros [->| Hcr]; [reflexivity|].
    destruct (fs_copy2_works fs'); [reflexivity|]. by rewrite read_back_no_cr.
Qed.

Lemma replace_comma_idem s :
  App.replace_comma (App.replace_comma s) = App.replace_comma s.
Proof.
  induction s as [|c s IH]; [reflexivity|]. cbn [App.replace_comma]. rewrite IH.
  destruct (Ascii.eqb_spec c ",") as [->|Hc]; [reflexivity|].
  by destruct (Ascii.eqb_spec c ",").
Qed.

(** X22. A decimal comma is read as a decimal point: [parse_float]
    returns the same number for a text and for that text with every comma
    written as a point, and rejects the one exactly when it rejects the
    other. *)
Theorem parse_float_decimal_comma v name name' x :
  App.parse_float v name = inr x ↔ App.parse_float (App.replace_comma v) name' = inr x.
Proof.
  unfold App.parse_float. rewrite strip_replace_comma, replace_comma_idem.
  destruct (String.eqb _ ""); [done|].
  by destruct (float_of_string _).
Qed.

End AppExtras.

(** ** Further properties of the deploy dispatcher *)

Section DispatcherExtras.
Variable h : host.
Variable os_popen : spawner.

Abbreviation run := (Subprocess._run_subprocess h os_popen).
Abbreviation which := (Resolver._which_executable h).
Abbreviation deploy_with_npx := (Dispatcher.deploy_with_npx h os_popen).
Abbreviation login := (Dispatcher._surge_login_if_needed h os_popen).
Abbreviation nl := Dispatcher.nl.
Abbreviation DOMAIN := Dispatcher.SURGE_DOMAIN.

Lemma run_inr cmd input timeout env tr :
  ∃ rc out evs, run cmd input timeout env tr = (inr (rc, out), tr ++ evs)
                ∧ ∀ c kw, EvPopen c kw ∈ evs → c = cmd.
Proof.
  destruct (run_subprocess_spec h os_popen cmd input timeout env tr)
    as (rc & out & evs & E & Hp & _).
  exists rc, out, evs. split; [exact E|]. intros c kw Hin. by destruct (Hp c kw Hin).
Qed.

(** The package-runner half, read backwards from its result. *)
Lemma deploy_with_npx_cases folder last tr r tr' :
  deploy_with_npx folder last tr = (inr r, tr') →
  (which ["npx"] = None ∧ tr' = tr
   ∧ r = (false, last +:+ nl +:+
            "[npx] non trovato. Installa Node.js (npx) o aggiungi surge alla PATH."))
  ∨ (∃ npx_cmd rc2 out2 evs,
       which ["npx"] = Some npx_cmd
       ∧ run [npx_cmd; "surge"; folder; DOMAIN; "--yes"] None 300 None (tr ++ evs)
         = (inr (rc2, out2), tr')
       ∧ r = if rc2 =? 0 then (true, out2)
             else (false, last +:+ nl +:+ "[npx surge] rc=" +:+ PyStr.of_int rc2
                          +:+ nl +:+ out2)).
Proof.
  unfold Dispatcher.deploy_with_npx.
  destruct (which ["npx"]) as [npx_cmd|]; [|intros [= <- <-]; by left].
  intros E. right.
  apply bind_inr in E as ([rc1 out1] & tr1 & E1 & E).
  apply bind_inr in E as ([] & tr2 & E2 & E).
  apply bind_inr in E as ([rc2 out2] & tr3 & E3 & E).
  destruct (run_inr [npx_cmd; "surge"; "whoami"] None 60 None tr)
    as (? & ? & evs1 & E1' & _).
  rewrite E1' in E1. injection E1 as -> -> <-.
  assert (∃ evs2, tr2 = (tr ++ evs1) ++ evs2) as [evs2 ->].
  { destruct (negb (rc1 =? 0) || _ || _).
    - apply bind_inr in E2 as (? & ? & E2 & [= <-]).
      match type of E2 with run ?c ?i ?t ?e ?tr = _ =>
        destruct (run_inr c i t e tr) as (? & ? & evs2 & E2' & _)
      end.
      rewrite E2' in E2. injection E2 as _ <-. by exists evs2.
    - injection E2 as <-. exists []. by rewrite app_nil_r. }
  exists npx_cmd, rc2, out2, (evs1 ++ evs2). split; [reflexivity|].
  rewrite app_assoc.
  destruct (rc2 =? 0); injection E as <- <-; by split.
Qed.

(** The whole dispatcher, read backwards from its result. *)
Lemma deploy_to_surge_cases folder tr r tr' :
  Dispatcher.deploy_to_surge h os_popen folder tr = (inr r, tr') →
  (∃ surge_cmd out evs,
     which ["surge"] = Some surge_cmd
     ∧ run [surge_cmd; folder; DOMAIN; "--yes"] None 240 None (tr ++ evs)
       = (inr (0, out), tr')
     ∧ r = (true, out))
  ∨ (∃ last evs,
       deploy_with_npx folder last (tr ++ evs) = (inr r, tr')
       ∧ ((which ["surge"] = None ∧ evs = []
           ∧ last = "[surge] non trovato; provo npx")
          ∨ ∃ surge_cmd rc out evs0,
              which ["surge"] = Some surge_cmd ∧ rc ≠ 0
              ∧ run [surge_cmd; folder; DOMAIN; "--yes"] None 240 None (tr ++ evs0)
                = (inr (rc, out), tr ++ evs)
              ∧ last = "[surge] rc=" +:+ PyStr.of_int rc +:+ nl +:+ out)).
Proof.
  unfold Dispatcher.deploy_to_surge.
  destruct (which ["surge"]) as [surge_cmd|].
  - intros E.
    apply bind_inr in E as ([ok_login log1] & tr1 & E1 & E).
    apply bind_inr in E as ([rc out] & tr2 & E2 & E).
    destruct (login_contained h os_popen surge_cmd tr) as (? & evs1 & E1' & _).
    rewrite E1' in E1. injection E1 as _ <-.
    destruct (run_inr [surge_cmd; folder; DOMAIN; "--yes"] None 240 None (tr ++ evs1))
      as (? & ? & evs2 & E2' & _).
    destruct (Z.eqb_spec rc 0) as [->|Hrc].
    + injection E as <- <-. left. by exists surge_cmd, out, evs1.
    + right. rewrite E2' in E2. injection E2 as -> -> <-.
      exists ("[surge] rc=" +:+ PyStr.of_int rc +:+ nl +:+ out), (evs1 ++ evs2).
      rewrite app_assoc. split; [exact E|]. right.
      exists surge_cmd, rc, out, evs1. by rewrite <- app_assoc in E2' |- *.
  - intros E. right. exists "[surge] non trovato; provo npx", [].
    rewrite app_nil_r. split; [exact E|]. by left.
Qed.

(** X8. [deploy_to_surge] reports success only when the invocation it
    made last was a deploy command (of [surge], or of [npx surge]) that
    exited with code 0, and the transcript is the output of that
    invocation; the outcome of the login attempts does not enter the
    verdict. *)
Theorem deploy_success_sound folder tr log tr' :
  Dispatcher.deploy_to_surge h os_popen folder tr = (inr (true, log), tr') →
  ∃ cmd timeout evs,
    run cmd None timeout None (tr ++ evs) = (inr (0, log), tr')
    ∧ ((∃ surge_cmd, which ["surge"] = Some surge_cmd
                     ∧ cmd = [surge_cmd; folder; DOMAIN; "--yes"] ∧ timeout = 240)
       ∨ (∃ npx_cmd, which ["npx"] = Some npx_cmd
                     ∧ cmd = [npx_cmd; "surge"; folder; DOMAIN; "--yes"]
                     ∧ timeout = 300)).
Proof.
  intros E. apply deploy_to_surge_cases in E
    as [(surge_cmd & out & evs & Hs & Er & [= <-])|(last & evs & E & _)].
  - exists [surge_cmd; folder; DOMAIN; "--yes"], 240, evs. split; [exact Er|].
    left. by exists surge_cmd.
  - apply deploy_with_npx_cases in E
      as [(_ & _ & [=])|(npx_cmd & rc2 & out2 & evs' & Hn & Er & Hr)].
    destruct (Z.eqb_spec rc2 0) as [->|]; [|discriminate]. injection Hr as <-.
    exists [npx_cmd; "surge"; folder; DOMAIN; "--yes"], 300, (evs ++ evs').
    rewrite app_assoc. split; [exact Er|]. right. by exists npx_cmd.
Qed.

(** X9. A failure of [deploy_to_surge] names both attempts, in the order
    in which they were made: the transcript is the record of the direct
    attempt ([surge] not found, or its nonzero return code and output), a
    line break, and the record of the package-runner attempt ([npx] not
    found, or its nonzero return code and output). *)
Theorem deploy_failure_transcript folder tr log tr' :
  Dispatcher.deploy_to_surge h os_popen folder tr = (inr (false, log), tr') →
  ∃ direct runner,
    log = direct +:+ nl +:+ runner
    ∧ ((which ["surge"] = None ∧ direct = "[surge] non trovato; provo npx")
       ∨ ∃ surge_cmd rc out tr1 tr2,
           which ["surge"] = Some surge_cmd ∧ rc ≠ 0
           ∧ run [surge_cmd; folder; DOMAIN; "--yes"] None 240 None tr1
             = (inr (rc, out), tr2)
           ∧ direct = "[surge] rc=" +:+ PyStr.of_int rc +:+ nl +:+ out)
    ∧ ((which ["npx"] = None
        ∧ runner = "[npx] non trovato. Installa Node.js (npx) o aggiungi surge alla PATH.")
       ∨ ∃ npx_cmd rc2 out2 tr3,
           which ["npx"] = Some npx_cmd ∧ rc2 ≠ 0
           ∧ run [npx_cmd; "surge"; folder; DOMAIN; "--yes"] None 300 None tr3
             = (inr (rc2, out2), tr')
           ∧ runner = "[npx surge] rc=" +:+ PyStr.of_int rc2 +:+ nl +:+ out2).
Proof.
  intros E. apply deploy_to_surge_cases in E
    as [(? & ? & ? & _ & _ & [=])|(last & evs & E & Hlast)].
  exists last.
  assert (Hd : (which ["surge"] = None ∧ last = "[surge] non trovato; provo npx")
       ∨ ∃ surge_cmd rc out tr1 tr2,
           which ["surge"] = Some surge_cmd ∧ rc ≠ 0
           ∧ run [surge_cmd; folder; DOMAIN; "--yes"] None 240 None tr1
             = (inr (rc, out), tr2)
           ∧ last = "[surge] rc=" +:+ PyStr.of_int rc +:+ nl +:+ out).
  { destruct Hlast as [(Hs & _ & Hl)|(surge_cmd & rc & out & evs0 & Hs & Hrc & Er & Hl)].
    - by left.
    - right. by exists surge_cmd, rc, out, (tr ++ evs0), (tr ++ evs). }
  apply deploy_with_npx_cases in E
    as [(Hn & _ & [= ->])|(npx_cmd & rc2 & out2 & evs' & Hn & Er & Hr)].
  - eexists. split; [reflexivity|]. split; [exact Hd|]. by left.
  - destruct (Z.eqb_spec rc2 0) as [->|Hrc2]; [discriminate|]. injection Hr as ->.
    exists ("[npx surge] rc=" +:+ PyStr.of_int rc2 +:+ nl +:+ out2).
    split; [reflexivity|]. split; [exact Hd|]. right.
    by exists npx_cmd, rc2, out2, ((tr ++ evs) ++ evs').
Qed.

Lemma contains_here n s : String.prefix n s = true → PyStr.contains n s = true.
Proof. intros H. destruct s; cbn [PyStr.contains]; by rewrite H. Qed.

Lemma contains_app_r a b s :
  PyStr.contains (a +:+ b) s = true → PyStr.contains b s = true.
Proof.
  assert (Hp : ∀ a s, String.prefix (a +:+ b) s = true → PyStr.contains b s = true).
  { clear a s. induction a as [|c a IH]; intros s.
    - rewrite append_nil_l. apply contains_here.
    - rewrite append_cons. destruct s as [|c' s]; cbn [String.prefix]; [done|].
      destruct (ascii_dec c c'); [|done]. intros H. apply contains_skip. by apply IH. }
  induction s as [|c s IH]; cbn [PyStr.contains]; intros H.
  - rewrite orb_false_r in H. by apply Hp in H.
  - apply orb_prop in H as [H|H]; [by apply Hp in H|].
    fold (PyStr.contains b (String c s)). apply contains_skip. by apply IH.
Qed.

Lemma login_events surge_cmd tr :
  ∃ r evs, login surge_cmd tr = (inr r, tr ++ evs)
           ∧ ∀ c kw, EvPopen c kw ∈ evs → head c = Some surge_cmd.
Proof.
  unfold Dispatcher._surge_login_if_needed, mbind, M_bind, bind.
  destruct (run_inr [surge_cmd; "whoami"] None 30 None tr) as (rc & out & evs1 & -> & H1).
  destruct (_ && _ && _).
  - eexists _, evs1. split; [reflexivity|]. intros c kw Hin. by rewrite (H1 c kw Hin).
  - match goal with |- context [run ?c ?i ?t ?e ?tr] =>
      destruct (run_inr c i t e tr) as (rc2 & out2 & evs2 & -> & H2)
    end.
    match goal with |- context [run ?c ?i ?t ?e ?tr] =>
      destruct (run_inr c i t e tr) as (rc3 & out3 & evs3 & -> & H3)
    end.
    eexists _, (evs1 ++ evs2 ++ evs3). split; [by rewrite !app_assoc|].
    intros c kw Hin. rewrite !elem_of_app in Hin.
    destruct Hin as [Hin|[Hin|Hin]];
      [rewrite (H1 c kw Hin)|rewrite (H2 c kw Hin)|rewrite (H3 c kw Hin)]; reflexivity.
Qed.

(** X10. When [surge] is found and its deploy invocation exits with code
    0, [deploy_to_surge] reports success with the output of that
    invocation, and every child it has started is the direct tool: the
    package runner is not run. *)
Theorem deploy_direct_success folder surge_cmd out tr :
  which ["surge"] = Some surge_cmd →
  (∀ tr1, (run [surge_cmd; folder; DOMAIN; "--yes"] None 240 None tr1).1
          = inr (0, out)) →
  ∃ evs, Dispatcher.deploy_to_surge h os_popen folder tr = (inr (true, out), tr ++ evs)
         ∧ ∀ c kw, EvPopen c kw ∈ evs → head c = Some surge_cmd.
Proof.
  intros Hs Hok. unfold Dispatcher.deploy_to_surge. rewrite Hs.
  unfold mbind, M_bind, bind.
  destruct (login_events surge_cmd tr) as ([ok log1] & evs1 & -> & H1).
  destruct (run_inr [surge_cmd; folder; DOMAIN; "--yes"] None 240 None (tr ++ evs1))
    as (rc & out' & evs2 & E & H2).
  specialize (Hok (tr ++ evs1)). rewrite E in Hok. injection Hok as -> ->.
  rewrite E. exists (evs1 ++ evs2). split; [by rewrite app_assoc|].
  intros c kw Hin. apply elem_of_app in Hin as [Hin|Hin];
    [by apply (H1 c kw)|by rewrite (H2 c kw Hin)].
Qed.

(** X11. The two login checks read the output of [whoami] differently.
    For an output that says ["not logged"] under return code 0, the check
    of the direct tool finds the word ["logged"], takes the session as
    authenticated and starts no login; the check of the package runner
    takes the same output as not authenticated and runs the login before
    it deploys. *)
Theorem login_checks_disagree surge_cmd out tr tr1 :
  PyStr.contains "not logged" (PyStr.lower out) = true →
  run [surge_cmd; "whoami"] None 30 None tr = (inr (0, out), tr1) →
  login surge_cmd tr = (inr (true, out), tr1)
  ∧ ∀ npx_cmd folder last tr2,
      which ["npx"] = Some npx_cmd →
      run [npx_cmd; "surge"; "whoami"] None 60 None tr = (inr (0, out), tr2) →
      ∃ r tr3,
        run [npx_cmd; "surge"; "login"]
            (Some (Dispatcher.SURGE_EMAIL +:+ nl +:+ Dispatcher.SURGE_PASSWORD +:+ nl))
            120 None tr2 = (inr r, tr3)
        ∧ deploy_with_npx folder last tr
          = ('(rc2, out2) ← run [npx_cmd; "surge"; folder; DOMAIN; "--yes"] None 300 None;
             if rc2 =? 0 then mret (true, out2)
             else mret (false, last +:+ nl +:+ "[npx surge] rc=" +:+ PyStr.of_int rc2
                                 +:+ nl +:+ out2)) tr3.
Proof.
  intros Hnot Hwho. split.
  - unfold Dispatcher._surge_login_if_needed, mbind, M_bind, bind. rewrite Hwho.
    assert (Hl : PyStr.contains "logged" (PyStr.lower out) = true)
      by (by apply (contains_app_r "not ")).
    assert (Ht : PyStr.truthy out = true) by (by destruct out).
    rewrite Hl, Ht, !orb_true_r. reflexivity.
  - intros npx_cmd folder last tr2 Hn Hw.
    match goal with |- context [run ?c ?i ?t ?e tr2] =>
      destruct (run_inr c i t e tr2) as (rc & o & evs & E & _)
    end.
    exists (rc, o), (tr2 ++ evs). split; [exact E|].
    unfold Dispatcher.deploy_with_npx. rewrite Hn.
    unfold mbind, M_bind, bind. rewrite Hw, Hnot. cbn [Z.eqb negb orb].
    by rewrite E.
Qed.

End DispatcherExtras.

(** ** Further properties of the tool resolver *)

Section ResolverExtras.
Variable h : host.

Lemma dict_fromkeys_spec seen l :
  NoDup (Resolver.dict_fromkeys seen l)
  ∧ ∀ x, x ∈ Resolver.dict_fromkeys seen l ↔ x ∈ l ∧ x ∉ seen.
Proof.
  revert seen. induction l as [|y l IH]; intros seen; cbn [Resolver.dict_fromkeys].
  - split; [constructor|]. intros x. split; [by intros ?%elem_of_nil|].
    by intros [?%elem_of_nil _].
  - case_bool_decide as Hy.
    + destruct (IH seen) as [Hnd Hin]. split; [exact Hnd|].
      intros x. rewrite Hin, elem_of_cons. split; [tauto|].
      intros [[->|Hx] Hns]; [done|by split].
    + destruct (IH (y :: seen)) as [Hnd Hin]. split.
      * constructor; [|exact Hnd]. rewrite Hin, elem_of_cons. tauto.
      * intros x. rewrite !elem_of_cons, Hin, elem_of_cons. split.
        -- intros [->|[Hx Hns]]; [by split; [left|]|]. split; [by right|tauto].
        -- intros [[->|Hx] Hns]; [by left|].
           destruct (decide (x = y)) as [->|Hne]; [by left|]. right. split; [done|tauto].
Qed.

(** X12. [_possible_node_dirs] lists every directory once, and lists only
    non-empty paths that are directories of the file system; when none
    of the environment variables it reads is set to a non-empty value,
    it lists nothing. *)
Theorem possible_node_dirs_spec :
  NoDup (Resolver._possible_node_dirs h)
  ∧ (∀ d, d ∈ Resolver._possible_node_dirs h → d ≠ "" ∧ isdir (h_fs h) d = true)
  ∧ ((∀ k, k ∈ ["USERPROFILE"; "HOMEPATH"; "APPDATA"; "LOCALAPPDATA";
                 "ProgramFiles"; "ProgramFiles(x86)"] →
           h_environ h !! k = None ∨ h_environ h !! k = Some "") →
     Resolver._possible_node_dirs h = []).
Proof.
  unfold Resolver._possible_node_dirs. cbv zeta. split; [|split].
  - apply NoDup_filter, dict_fromkeys_spec.
  - intros d [Hd _]%list_elem_of_filter.
    apply andb_prop in Hd as [Ht Hdir]. split; [|exact Hdir].
    intros ->. discriminate.
  - intros Henv.
    assert (He : ∀ k rest, k ∈ ["USERPROFILE"; "HOMEPATH"; "APPDATA"; "LOCALAPPDATA";
                                 "ProgramFiles"; "ProgramFiles(x86)"] →
                 Resolver.env_get_or h k rest = rest).
    { intros k rest Hk. unfold Resolver.env_get_or.
      destruct (Henv k Hk) as [-> | ->]; reflexivity. }
    rewrite !He by (apply list_elem_of_In; cbn; tauto). reflexivity.
Qed.

(** X13. What [_which_executable] returns is there: a non-empty path that
    [shutil.which] gave for one of the names, or, when the search path
    has none of them, an existing file [d/base+suffix] for a known
    directory, a name and a suffix of the list.  It returns [None] exactly
    when the search path has none of the names and no such file exists. *)
Theorem which_executable_sound_complete (names : list string) :
  (∀ p, Resolver._which_executable h names = Some p →
        (∃ n, n ∈ names ∧ h_which h n = Some p ∧ p ≠ "")
        ∨ ((∀ n, n ∈ names → Resolver.path_hit h n = None)
           ∧ isfile (h_fs h) p = true
           ∧ ∃ base d suf, base ∈ names ∧ d ∈ Resolver._possible_node_dirs h
                           ∧ suf ∈ Resolver.suffixes
                           ∧ p = Resolver.join h d (base +:+ suf)))
  ∧ (Resolver._which_executable h names = None ↔
       (∀ n, n ∈ names → Resolver.path_hit h n = None)
       ∧ ∀ base d suf, base ∈ names → d ∈ Resolver._possible_node_dirs h →
                       suf ∈ Resolver.suffixes →
                       isfile (h_fs h) (Resolver.join h d (base +:+ suf)) = false).
Proof.
  unfold Resolver._which_executable, Resolver.which_executable_in.
  rewrite search_path_head, probe_names_head.
  assert (Hnone : head (omap (Resolver.path_hit h) names) = None ↔
                  ∀ n, n ∈ names → Resolver.path_hit h n = None).
  { rewrite head_None. split.
    - intros E n Hn. destruct (Resolver.path_hit h n) as [p|] eqn:Ep; [|done].
      assert (p ∈ omap (Resolver.path_hit h) names)
        by (apply list_elem_of_omap; eauto).
      rewrite E in *. by decompose_list_elem_of.
    - intros Hall. destruct (omap _ names) as [|p l] eqn:E; [done|].
      assert (Hp : p ∈ omap (Resolver.path_hit h) names) by (rewrite E; by left).
      apply list_elem_of_omap in Hp as (n & Hn & Hp). rewrite (Hall n Hn) in Hp. done. }
  assert (Hcand : ∀ c, c ∈ Resolver.candidates h (Resolver._possible_node_dirs h) names ↔
            ∃ base d suf, base ∈ names ∧ d ∈ Resolver._possible_node_dirs h
                          ∧ suf ∈ Resolver.suffixes
                          ∧ c = Resolver.join h d (base +:+ suf)).
  { intros c. unfold Resolver.candidates. rewrite list_elem_of_bind. split.
    - intros (base & (d & (suf & Hc & Hs)%list_elem_of_bind & Hd)%list_elem_of_bind & Hb).
      apply list_elem_of_singleton in Hc. by exists base, d, suf.
    - intros (base & d & suf & Hb & Hd & Hs & ->). exists base. split; [|done].
      apply list_elem_of_bind. exists d. split; [|done].
      apply list_elem_of_bind. exists suf. split; [by left|done]. }
  split.
  - intros p. destruct (head (omap _ names)) as [q|] eqn:Eq.
    + intros [= ->]. left. apply head_Some_elem_of, list_elem_of_omap in Eq
        as (n & Hn & Hp). exists n. split; [done|].
      unfold Resolver.path_hit in Hp. destruct (h_which h n) as [q|]; [|done].
      destruct (PyStr.truthy q) eqn:Ht; [|done]. injection Hp as ->.
      split; [done|]. by intros ->.
    + intros Hp. right. split; [by apply Hnone|].
      apply head_Some_elem_of, list_elem_of_filter in Hp as [Hf Hc].
      split; [exact Hf|]. by apply Hcand.
  - rewrite <- Hnone. destruct (head (omap _ names)) as [q|];
      [split; [discriminate|intros [? _]; discriminate]|].
    rewrite head_None. split.
    + intros E. split; [done|]. intros base d suf Hb Hd Hs.
      apply not_true_iff_false. intros Hf.
      apply (filter_nil_not_elem_of _ _ _ E Hf), Hcand. by exists base, d, suf.
    + intros [_ Hall].
      destruct (filter _ _) as [|c l] eqn:E; [done|].
      assert (Hc : c ∈ filter (λ p, isfile (h_fs h) p = true)
                     (Resolver.candidates h (Resolver._possible_node_dirs h) names))
        by (rewrite E; by left).
      apply list_elem_of_filter in Hc as [Hf (base & d & suf & Hb & Hd & Hs & ->)%Hcand].
      rewrite (Hall base d suf Hb Hd Hs) in Hf. done.
Qed.

End ResolverExtras.

(** ** The registry viewer, the export and the configuration *)

Section ViewerExtras.
Import DateTime PyVal Store.
Variable h : host.

Lemma strip_blank_given entry : strip entry = "" → Viewer.get_filter entry = None.
Proof. unfold Viewer.get_filter. by intros ->. Qed.

(** X14. A timestamp of the table is shown as day, month, two-digit
    year, hour and minute: for a canonical timestamp [it_ts_display] gives
    [dd/mm/yy HH:MM] of the same instant, the seconds left out. *)
Theorem it_ts_display_canonical dt :
  valid dt →
  Dashboard.it_ts_display (strftime ISO dt)
  = pad2 (day dt) +:+ "/" +:+ pad2 (month dt) +:+ "/" +:+ pad2 (year dt mod 100)
    +:+ " " +:+ pad2 (hour dt) +:+ ":" +:+ pad2 (minute dt).
Proof.
  intros Hv. unfold Dashboard.it_ts_display. rewrite strptime_strftime by exact Hv.
  reflexivity.
Qed.

Lemma export_row_table_row r : Viewer.export_row r = Dashboard.table_row r.
Proof.
  unfold Viewer.export_row, Dashboard.table_row, Viewer.row_values, PyStr.join.
  cbn [map String.concat]. rewrite !append_assoc, !append_nil_l. reflexivity.
Qed.

Lemma replace_char_app a b x y :
  Viewer.replace_char a b (x +:+ y) = Viewer.replace_char a b x +:+ Viewer.replace_char a b y.
Proof.
  induction x as [|c x IH]; [reflexivity|].
  rewrite append_cons. cbn [Viewer.replace_char]. rewrite IH. reflexivity.
Qed.

Lemma replace_char_elem a b s c :
  a ≠ b → c ∈ list_ascii_of_string (Viewer.replace_char a b s) → c ≠ a.
Proof.
  intros Hab. induction s as [|x s IH]; cbn [Viewer.replace_char list_ascii_of_string].
  - by intros ?%elem_of_nil.
  - intros [->|Hin]%elem_of_cons; [|by apply IH].
    destruct (Ascii.eqb_spec x a); [by apply not_eq_sym|done].
Qed.

Lemma replace_char_keeps a b d s c :
  d ≠ b →
  (∀ c, c ∈ list_ascii_of_string s → c ≠ d) →
  c ∈ list_ascii_of_string (Viewer.replace_char a b s) → c ≠ d.
Proof.
  intros Hdb. induction s as [|x s IH]; cbn [Viewer.replace_char list_ascii_of_string].
  - by intros _ ?%elem_of_nil.
  - intros Hall [->|Hin]%elem_of_cons.
    + destruct (Ascii.eqb_spec x a); [by apply not_eq_sym|]. apply Hall. by left.
    + apply IH; [|done]. intros c' Hc'. apply Hall. by right.
Qed.

Lemma prefix_append a x : String.prefix a (a +:+ x) = true.
Proof.
  induction a as [|c a IH]; [by destruct x|].
  rewrite append_cons. cbn. by destruct (ascii_dec c c).
Qed.

(** X15. The file name [do_export_html] proposes holds no space, colon or
    slash, whatever the filters are; it begins with [registro_MRI_] and
    ends with [.html]. *)
Theorem default_name_safe start end_ :
  (∀ c, c ∈ list_ascii_of_string (Viewer.default_name start end_) →
        c ≠ " "%char ∧ c ≠ ":"%char ∧ c ≠ "/"%char)
  ∧ String.prefix "registro_MRI_" (Viewer.default_name start end_) = true
  ∧ ∃ stem, Viewer.default_name start end_ = stem +:+ ".html".
Proof.
  unfold Viewer.default_name. split; [|split].
  - intros c Hc. split; [|split].
    + revert Hc. apply replace_char_keeps; [done|].
      intros c'. apply replace_char_keeps; [done|].
      intros c''. by apply replace_char_elem.
    + revert Hc. apply replace_char_keeps; [done|].
      intros c'. by apply replace_char_elem.
    + revert Hc. by apply replace_char_elem.
  - rewrite !replace_char_app. apply (prefix_append "registro_MRI_").
  - rewrite !replace_char_app. eexists. rewrite <- !append_assoc. reflexivity.
Qed.

(** X16. With both filter entries blank the viewer runs the query of the
    main window.  On a database that holds the table it lists the whole
    table: every row is shown once, and the lines are in ascending order
    of the timestamp column.  On a file that [sqlite3] cannot read, the
    viewer and the main window show the message of the error that
    [sqlite3] raises, and list nothing. *)
Theorem refresh_blank_filters start_entry end_entry (d : Db.db) :
  strip start_entry = "" → strip end_entry = "" →
  Viewer.refresh start_entry end_entry d = Viewer.refresh_main_registry d
  ∧ (∀ st, Db.db_file d = Db.Logs st →
       ∃ rows, Viewer.refresh_main_registry d = inr (map Viewer.row_values rows)
               ∧ rows ≡ₚ st ∧ StronglySorted ts_le rows)
  ∧ (∀ at_connect e, Db.db_file d = Db.Unreadable at_connect e →
       Viewer.refresh_main_registry d = inl (exn_str e)).
Proof.
  intros Hs He. unfold Viewer.refresh, Viewer.refresh_main_registry.
  rewrite !strip_blank_given by assumption. split; [reflexivity|]. split.
  - intros st Hd. exists (order_by_timestamp_asc st).
    unfold Db.fetch_records. rewrite Hd.
    destruct (sorted_asc_spec st) as [Hp Hsort]. by repeat split.
  - intros at_connect e Hd. unfold Db.fetch_records. rewrite Hd.
    by destruct at_connect.
Qed.

(** X17. [do_export_html] writes at most one file.  The file system is
    left as it is when the query fails, when it finds no record, when the
    save dialog is dismissed and when the file cannot be written; an
    export happens only for a non-empty result and a chosen path, it
    changes that path alone, and each record is rendered as the row the
    dashboard has for it. *)
Theorem do_export_html_frame start_entry end_entry chosen now (st : store) fs o fs' :
  Viewer.do_export_html start_entry end_entry chosen now st fs = (o, fs') →
  (fs' = fs ∧ ∀ p, o ≠ Viewer.Exported p)
  ∨ (∃ records,
       o = Viewer.Exported chosen ∧ chosen ≠ "" ∧ records ≠ []
       ∧ fetch_records (Viewer.get_filter start_entry) (Viewer.get_filter end_entry) st
         = inr records
       ∧ fs_files fs' !! chosen
         = Some (Viewer.export_document records (Viewer.get_filter start_entry)
                   (Viewer.get_filter end_entry) now)
       ∧ (∀ q, q ≠ chosen → fs_files fs' !! q = fs_files fs !! q)
       ∧ fs_dirs fs' = fs_dirs fs
       ∧ map Viewer.export_row records = map Dashboard.table_row records).
Proof.
  unfold Viewer.do_export_html. cbv zeta.
  destruct (fetch_records _ _ st) as [e|[|r records]] eqn:Ef;
    [intros [= <- <-]; by left..|].
  destruct (PyStr.truthy chosen) eqn:Hc; cbn [negb]; [|intros [= <- <-]; by left].
  unfold Viewer.export_html.
  destruct (write_text chosen _ fs) as [[e|[]] fs1] eqn:Ew.
  - unfold write_text in Ew. destruct (writable fs chosen); [discriminate|].
    injection Ew as _ <-. intros [= <- <-]. by left.
  - apply write_text_inr in Ew as [_ ->]. intros [= <- <-]. right.
    exists (r :: records). split; [reflexivity|]. split; [by intros ->|].
    split; [done|]. split; [reflexivity|]. cbn [fs_files set_files fs_dirs].
    split; [apply lookup_insert_eq|]. split; [|split; [reflexivity|]].
    + intros q Hq. by rewrite lookup_insert_ne.
    + apply map_ext. intros r'. apply export_row_table_row.
Qed.

(** X18. The script tag of the page.  [generate_dashboard_html] refers to
    the local copy of Chart.js only when the offline preference is set and
    the file is in the output directory by then (it copies it there from the
    application directory when needed, changing no other path); in every
    other case, a failed copy included, it refers to the CDN. *)
Theorem choose_chart_tag_spec out_dir off fs :
  ∃ tag fs',
    Dashboard.choose_chart_tag h out_dir off fs = (inr tag, fs')
    ∧ (tag = Dashboard.CHART_LOCAL ∨ tag = Dashboard.CHART_CDN)
    ∧ (tag = Dashboard.CHART_LOCAL →
         off = true
         ∧ path_exists fs' (path_join (h_sep h) out_dir "chart.umd.min.js") = true)
    ∧ (off = false → tag = Dashboard.CHART_CDN ∧ fs' = fs)
    ∧ (fs' = fs
       ∨ ∃ text,
           fs_files fs !! path_join (h_sep h) (h_app_dir h) "chart.umd.min.js"
             = Some text
           ∧ fs' = set_files fs
                     (<[path_join (h_sep h) out_dir "chart.umd.min.js" := text]>
                        (fs_files fs))).
Proof.
  assert (Hne : Dashboard.CHART_CDN ≠ Dashboard.CHART_LOCAL) by discriminate.
  unfold Dashboard.choose_chart_tag, mbind, M_bind, bind, get, attempt. cbv zeta.
  destruct off; cbn [andb].
  - destruct (path_exists fs (path_join (h_sep h) out_dir _)) eqn:E1.
    + eexists _, _. split; [reflexivity|]. repeat split; auto. discriminate.
    + destruct (path_exists fs (path_join (h_sep h) (h_app_dir h) _)) eqn:E2.
      * match goal with |- context [copy2 ?s ?d fs] =>
          destruct (copy2_cases s d fs) as [[e E]|(text & Hsrc & Hw & E)]; rewrite E
        end.
        -- eexists _, _. split; [reflexivity|]. repeat split; auto; try done;
             intros Ht; by destruct Hne.
        -- eexists _, _. split; [reflexivity|]. split; [by left|].
           split; [|split; [discriminate|right; by exists text]].
           intros _. split; [reflexivity|].
           unfold path_exists, isfile. cbn [fs_files set_files].
           rewrite lookup_insert_eq. apply orb_true_iff. left.
           by apply bool_decide_eq_true.
      * eexists _, _. split; [reflexivity|]. repeat split; auto; try done;
          intros Ht; by destruct Hne.
  - eexists _, _. split; [reflexivity|]. repeat split; auto; try done;
      intros Ht; by destruct Hne.
Qed.

(** X19. [load_config] always returns a configuration that has both
    default keys.  A file that cannot be read, or that does not hold a
    JSON object, gives the defaults; an object keeps every value it gives
    (the last one for a repeated key) and gets the default for a default
    key it lacks. *)
Theorem load_config_defaults (loaded : exn + Config.json) :
  is_Some (Config.load_config loaded !! "dashboard_dir")
  ∧ is_Some (Config.load_config loaded !! "chart_offline")
  ∧ ((∀ d, loaded ≠ inr (Config.JDict d)) →
       Config.load_config loaded = list_to_map Config.DEFAULT_CONFIG
       ∧ Config.chart_offline (Config.load_config loaded) = false)
  ∧ (∀ d k,
       loaded = inr (Config.JDict d) →
       Config.load_config loaded !! k
       = match (list_to_map (reverse d) : gmap string Config.json) !! k with
         | Some v => Some v
         | None => (list_to_map Config.DEFAULT_CONFIG : gmap string Config.json) !! k
         end).
Proof.
  assert (Hd : ∀ d k,
    Config.load_config (inr (Config.JDict d)) !! k
    = match (list_to_map (reverse d) : gmap string Config.json) !! k with
      | Some v => Some v
      | None => (list_to_map Config.DEFAULT_CONFIG : gmap string Config.json) !! k
      end).
  { intros d k. unfold Config.load_config, Config.DEFAULT_CONFIG.
    generalize (list_to_map (reverse d) : gmap string Config.json). intros m.
    cbn [fold_left fst snd].
    change (list_to_map [("dashboard_dir", Config.JStr "");
                         ("chart_offline", Config.JBool false)])
      with (<["dashboard_dir" := Config.JStr ""]>
              (<["chart_offline" := Config.JBool false]>
                 (∅ : gmap string Config.json))).
    unfold Config.setdefault.
    destruct (m !! "dashboard_dir") as [v1|] eqn:E1.
    - destruct (m !! "chart_offline") as [v2|] eqn:E2;
        destruct (decide (k = "dashboard_dir")) as [Ha|Ha],
                 (decide (k = "chart_offline")) as [Hb|Hb];
        simplify_map_eq; try done; by destruct (m !! k).
    - rewrite lookup_insert_ne by done.
      destruct (m !! "chart_offline") as [v2|] eqn:E2;
        destruct (decide (k = "dashboard_dir")) as [Ha|Ha],
                 (decide (k = "chart_offline")) as [Hb|Hb];
        simplify_map_eq; try done; by destruct (m !! k). }
  assert (Hdef : (∀ d, loaded ≠ inr (Config.JDict d)) →
                 Config.load_config loaded = list_to_map Config.DEFAULT_CONFIG).
  { intros Hnd. destruct loaded as [e|[]]; try reflexivity. by destruct (Hnd d). }
  split; [|split; [|split]].
  - destruct loaded as [e|[| | | | |d]]; try (by eexists).
    rewrite Hd. destruct (_ !! "dashboard_dir"); by eexists.
  - destruct loaded as [e|[| | | | |d]]; try (by eexists).
    rewrite Hd. destruct (_ !! "chart_offline"); by eexists.
  - intros Hnd. split; [by apply Hdef|]. by rewrite Hdef.
  - intros d k ->. apply Hd.
Qed.

End ViewerExtras.

(** ** Further properties of the subprocess helper *)

Section SubprocessExtras.
Variable h : host.
Variable os_popen : spawner.

(** X21. [_popen_no_window] hands to [Popen] the arguments of its caller
    with defaults added, never replaced: [shell], [stdout], [stderr] and
    every other argument given keep their values, and a missing [shell]
    becomes [False].  On Windows the child is started with the
    [CREATE_NO_WINDOW] bit in its creation flags and a start-up record
    that hides the window; on other platforms neither argument is
    touched.  (Creation flags, when the caller gives them, are an
    integer.) *)
Theorem popen_no_window_kwargs cmd (kw : gmap string kwval) tr p tr' :
  (kw !! "creationflags" = None ∨ ∃ n, kw !! "creationflags" = Some (KInt n)) →
  Subprocess._popen_no_window h os_popen cmd kw tr = (inr p, tr') →
  ∃ kw',
    tr' = tr ++ [EvPopen cmd kw'] ∧ os_popen tr cmd kw' = inr p
    ∧ (∀ k v, kw !! k = Some v → k ≠ "startupinfo" → k ≠ "creationflags" →
              kw' !! k = Some v)
    ∧ kw' !! "shell" = Some (default (KBool false) (kw !! "shell"))
    ∧ kw' !! "stdout" = Some (default KPipe (kw !! "stdout"))
    ∧ kw' !! "stderr" = Some (default KStdout (kw !! "stderr"))
    ∧ (PyStr.startswith "win" (h_platform h) = true →
         kw' !! "startupinfo" = Some (KStartupInfo 1 0)
         ∧ ∃ flags, kw' !! "creationflags" = Some (KInt flags)
                    ∧ Z.testbit flags 27 = true
                    ∧ ∀ n i, kw !! "creationflags" = Some (KInt n) →
                             Z.testbit n i = true → Z.testbit flags i = true)
    ∧ (PyStr.startswith "win" (h_platform h) = false →
         kw' !! "startupinfo" = kw !! "startupinfo"
         ∧ kw' !! "creationflags" = kw !! "creationflags").
Proof.
  intros _. unfold Subprocess._popen_no_window. cbv zeta.
  set (kw1 := Subprocess.setdefault "shell" (KBool false) kw).
  set (kw2 := Subprocess.setdefault "stdout" KPipe kw1).
  set (kw3 := Subprocess.setdefault "stderr" KStdout kw2).
  set (kw4 := if kw_absent (kw3 !! "stdin") && kw_truthy (kw3 !! "text")
                 && negb (kw_is_none (kw3 !! "input"))
              then <["stdin" := KPipe]> kw3 else kw3).
  assert (Hsd : ∀ k0 v0 (m : gmap string kwval) k,
            Subprocess.setdefault k0 v0 m !! k
            = if decide (k = k0) then Some (default v0 (m !! k0)) else m !! k).
  { intros k0 v0 m k. unfold Subprocess.setdefault.
    destruct (decide (k = k0)) as [->|Hne].
    - destruct (m !! k0) eqn:E; [by rewrite E|by rewrite lookup_insert_eq].
    - destruct (m !! k0); [reflexivity|by rewrite lookup_insert_ne]. }
  assert (H3 : ∀ k v, kw !! k = Some v → kw3 !! k = Some v).
  { intros k v Hk. subst kw3 kw2 kw1. rewrite !Hsd.
    repeat case_decide; subst; by rewrite ?Hk. }
  assert (H4 : ∀ k, k ≠ "stdin" → kw4 !! k = kw3 !! k).
  { intros k Hk. subst kw4. destruct (_ && _ && _); [|reflexivity].
    by rewrite lookup_insert_ne. }
  assert (H4' : ∀ k v, kw !! k = Some v → kw4 !! k = Some v).
  { intros k v Hk. subst kw4. destruct (_ && _ && _) eqn:Hc; [|by apply H3].
    destruct (decide (k = "stdin")) as [->|Hne]; [|rewrite lookup_insert_ne by done; by apply H3].
    rewrite (H3 _ _ Hk) in Hc. discriminate. }
  assert (Hsh : kw4 !! "shell" = Some (default (KBool false) (kw !! "shell"))).
  { rewrite H4 by done. subst kw3 kw2 kw1. by rewrite !Hsd. }
  assert (Hout : kw4 !! "stdout" = Some (default KPipe (kw !! "stdout"))).
  { rewrite H4 by done. subst kw3 kw2 kw1. by rewrite !Hsd. }
  assert (Herr : kw4 !! "stderr" = Some (default KStdout (kw !! "stderr"))).
  { rewrite H4 by done. subst kw3 kw2 kw1. by rewrite !Hsd. }
  assert (Hcf : kw4 !! "creationflags" = kw !! "creationflags").
  { rewrite H4 by done. subst kw3 kw2 kw1. by rewrite !Hsd. }
  assert (Hsi : kw4 !! "startupinfo" = kw !! "startupinfo").
  { rewrite H4 by done. subst kw3 kw2 kw1. by rewrite !Hsd. }
  clearbody kw4. clear kw1 kw2 kw3 H3 H4 Hsd.
  unfold Subprocess.Popen.
  destruct (PyStr.startswith "win" (h_platform h)) eqn:Hwin.
  - match goal with |- context [os_popen tr cmd ?k] => set (kw' := k) end.
    destruct (os_popen tr cmd kw') as [e|p'] eqn:Eos; [discriminate|].
    intros [= <- <-]. exists kw'. split; [reflexivity|]. split; [exact Eos|].
    subst kw'. split; [|split; [|split; [|split; [|split]]]].
    + intros k v Hk Hk1 Hk2. rewrite !lookup_insert_ne by done. by apply H4'.
    + by rewrite !lookup_insert_ne.
    + by rewrite !lookup_insert_ne.
    + by rewrite !lookup_insert_ne.
    + intros _. split; [by rewrite lookup_insert_ne, lookup_insert_eq|].
      eexists. split; [apply lookup_insert_eq|]. split.
      * rewrite Z.lor_spec. apply orb_true_iff. right. reflexivity.
      * intros n i Hn Hi. rewrite Hcf, Hn. cbn [Subprocess.kw_int].
        rewrite Z.lor_spec, Hi. reflexivity.
    + discriminate.
  - destruct (os_popen tr cmd kw4) as [e|p'] eqn:Eos; [discriminate|].
    intros [= <- <-]. exists kw4. split; [reflexivity|]. split; [exact Eos|].
    split; [intros k v Hk _ _; by apply H4'|].
    split; [exact Hsh|]. split; [exact Hout|]. split; [exact Herr|].
    split; [discriminate|]. intros _. by split.
Qed.

End SubprocessExtras.

(** ** The database as [sqlite3] finds it *)

Section SessionExtras.
Import DateTime PyVal Store.
Variable h : host.
Variable os_popen : spawner.
Variable html_template : Dashboard.page → string.
Variable chart_offline : bool.

Abbreviation session_save_record :=
  (Session.save_record h os_popen html_template chart_offline).
Abbreviation session_save_record_body :=
  (Session.save_record_body h os_popen html_template chart_offline).

(** The query on a table fails only on a bound. *)
Lemma store_fetch_records_error start end_ (st : store) e :
  fetch_records start end_ st = inl e →
  e = ValueError
      "Formato data/ora non valido. Usa es. 'gg/mm/aa' o 'gg/mm/aaaa' (opzionale 'HH:MM')."
  ∧ ∃ bound, (start = Some bound ∨ end_ = Some bound) ∧ bound ≠ ""
             ∧ parse_it_date bound = inl e.
Proof.
  assert (Hb : ∀ s b, PyStr.truthy s = true → normalize_to_iso s b = inl e →
    e = ValueError
        "Formato data/ora non valido. Usa es. 'gg/mm/aa' o 'gg/mm/aaaa' (opzionale 'HH:MM')."
    ∧ s ≠ "" ∧ parse_it_date s = inl e).
  { intros s b Hs [He Hp]%normalize_to_iso_inl. split; [exact He|].
    split; [|exact Hp]. intros ->. discriminate. }
  unfold fetch_records, given.
  destruct start as [s|], end_ as [e'|]; cbn.
  - destruct (PyStr.truthy s) eqn:Hs, (PyStr.truthy e') eqn:He.
    + destruct (normalize_to_iso s true) eqn:E1.
      * intros [= <-]. destruct (Hb _ _ Hs E1) as (? & ? & ?).
        split; [done|]. exists s. split; [by left|done].
      * destruct (normalize_to_iso e' false) eqn:E2; [|discriminate].
        intros [= <-]. destruct (Hb _ _ He E2) as (? & ? & ?).
        split; [done|]. exists e'. split; [by right|done].
    + destruct (normalize_to_iso s true) eqn:E1; [|discriminate].
      intros [= <-]. destruct (Hb _ _ Hs E1) as (? & ? & ?).
      split; [done|]. exists s. split; [by left|done].
    + destruct (normalize_to_iso e' false) eqn:E2; [|discriminate].
      intros [= <-]. destruct (Hb _ _ He E2) as (? & ? & ?).
      split; [done|]. exists e'. split; [by right|done].
    + discriminate.
  - destruct (PyStr.truthy s) eqn:Hs; [|discriminate].
    destruct (normalize_to_iso s true) eqn:E1; [|discriminate].
    intros [= <-]. destruct (Hb _ _ Hs E1) as (? & ? & ?).
    split; [done|]. exists s. split; [by left|done].
  - destruct (PyStr.truthy e') eqn:He; [|discriminate].
    destruct (normalize_to_iso e' false) eqn:E2; [|discriminate].
    intros [= <-]. destruct (Hb _ _ He E2) as (? & ? & ?).
    split; [done|]. exists e'. split; [by right|done].
  - discriminate.
Qed.

(** The bounds are normalised the same way whatever the table holds. *)
Lemma query_params_inl start end_ err (st : store) :
  Db.query_params start end_ = inl err → fetch_records start end_ st = inl err.
Proof.
  unfold Db.query_params, fetch_records.
  destruct (given start) as [s|], (given end_) as [e'|]; try discriminate.
  - destruct (normalize_to_iso s true); [by intros [= <-]|].
    destruct (normalize_to_iso e' false); [by intros [= <-]|discriminate].
  - destruct (normalize_to_iso s true); [by intros [= <-]|discriminate].
  - destruct (normalize_to_iso e' false); [by intros [= <-]|discriminate].
Qed.

Lemma query_params_none : Db.query_params None None = inr [].
Proof. reflexivity. Qed.

(** X3. [fetch_records] raises in two cases only.  A bound that is given
    cannot be read as a date: the exception is then the [ValueError] of
    [parse_it_date], raised before the query runs.  Or [sqlite3] cannot
    read the database file: the exception is then the one [sqlite3]
    raises.  On a database that holds the table, a bound that is missing
    or empty never makes the query fail. *)
Theorem fetch_records_error start end_ (d : Db.db) e :
  Db.fetch_records start end_ d = inl e →
  (e = ValueError
       "Formato data/ora non valido. Usa es. 'gg/mm/aa' o 'gg/mm/aaaa' (opzionale 'HH:MM')."
   ∧ (∀ e', Db.db_file d ≠ Db.Unreadable true e')
   ∧ ∃ bound, (start = Some bound ∨ end_ = Some bound) ∧ bound ≠ ""
              ∧ parse_it_date bound = inl e)
  ∨ (∃ at_connect, Db.db_file d = Db.Unreadable at_connect e).
Proof.
  unfold Db.fetch_records. destruct (Db.db_file d) as [st|[|] e0] eqn:Ed.
  - intros [He Hb]%store_fetch_records_error. left. by repeat split.
  - intros [= <-]. right. by exists true.
  - destruct (Db.query_params start end_) as [err|ps] eqn:Eq.
    + intros [= <-]. apply (query_params_inl _ _ _ []) in Eq.
      apply store_fetch_records_error in Eq as [He Hb]. left. by repeat split.
    + intros [= <-]. right. by exists false.
Qed.

(** The checks of [save_record] before the database is touched. *)
Lemma session_save_record_body_cases f now nf nn (s : Session.session) :
  (∃ msg, session_save_record_body f now nf nn s = (inl (ValueError msg), s))
  ∨ (∃ v1 v2 v3 v4 v5,
       App.parse_float (App.f_o2 f) "Percentuale O2" = inr v1
       ∧ App.parse_float (App.f_rh1 f) "RH Umidità 1" = inr v2
       ∧ App.parse_float (App.f_temp1 f) "Temperatura 1" = inr v3
       ∧ App.parse_float (App.f_rh2 f) "RH Umidità 2" = inr v4
       ∧ App.parse_float (App.f_temp2 f) "Temperatura 2" = inr v5
       ∧ strip (App.f_operatore f) ≠ ""
       ∧ session_save_record_body f now nf nn s =
         (_ ← Session.insert now v1 v2 v3 v4 v5 (App.f_elio f) (App.f_aspirazione f)
                (slice_to 10 (strip (App.f_operatore f)));
          Session.publish_cycle h os_popen html_template chart_offline nf nn) s).
Proof.
  unfold Session.save_record_body, Session.lift.
  destruct (App.parse_float (App.f_o2 f) _) as [e|v1] eqn:E1.
  { destruct (parse_float_error _ _ _ E1) as [msg ->]. left. by exists msg. }
  destruct (App.parse_float (App.f_rh1 f) _) as [e|v2] eqn:E2.
  { destruct (parse_float_error _ _ _ E2) as [msg ->]. left. by exists msg. }
  destruct (App.parse_float (App.f_temp1 f) _) as [e|v3] eqn:E3.
  { destruct (parse_float_error _ _ _ E3) as [msg ->]. left. by exists msg. }
  destruct (App.parse_float (App.f_rh2 f) _) as [e|v4] eqn:E4.
  { destruct (parse_float_error _ _ _ E4) as [msg ->]. left. by exists msg. }
  destruct (App.parse_float (App.f_temp2 f) _) as [e|v5] eqn:E5.
  { destruct (parse_float_error _ _ _ E5) as [msg ->]. left. by exists msg. }
  destruct (String.eqb_spec (strip (App.f_operatore f)) "") as [Hop|Hop].
  - left. eexists. unfold PyStr.truthy. rewrite Hop. reflexivity.
  - right. exists v1, v2, v3, v4, v5. repeat (split; [reflexivity|]). split; [exact Hop|].
    rewrite operatore_slice.
    unfold PyStr.truthy. destruct (String.eqb_spec (strip (App.f_operatore f)) "");
      [done|reflexivity].
Qed.

Lemma truthy_nonempty (x : string) : x ≠ "" → PyStr.truthy x = true.
Proof. intros H. unfold PyStr.truthy. by destruct (String.eqb_spec x ""). Qed.

(** X20. A reading that passes the checks stays stored when publishing
    fails.  Take a form whose five values are numbers other than NaN,
    whose flags are ["SI"] or ["NO"] and whose operator is not blank, and
    a database that holds the table.  When no abandoned connection holds
    the write lock, [save_record] appends the row whatever happens
    afterwards: when the dashboard cannot be generated the outcome is an
    error dialog, the row is in the table all the same, and no subprocess
    has been started.  When the lock is held, the insert fails with
    [database is locked] and nothing is stored, written or started. *)
Theorem save_record_keeps_reading f now nf nn (s s' : Session.session) o st
    v1 v2 v3 v4 v5 :
  App.parse_float (App.f_o2 f) "Percentuale O2" = inr v1 →
  App.parse_float (App.f_rh1 f) "RH Umidità 1" = inr v2 →
  App.parse_float (App.f_temp1 f) "Temperatura 1" = inr v3 →
  App.parse_float (App.f_rh2 f) "RH Umidità 2" = inr v4 →
  App.parse_float (App.f_temp2 f) "Temperatura 2" = inr v5 →
  Forall (λ v, v ≠ NaN) [v1; v2; v3; v4; v5] →
  is_si_no (App.f_elio f) = true → is_si_no (App.f_aspirazione f) = true →
  strip (App.f_operatore f) ≠ "" →
  Db.db_file (Session.s_db s) = Db.Logs st →
  session_save_record f now nf nn s = (o, s') →
  if Db.db_locked (Session.s_db s)
  then o = App.Failed "Si è verificato un errore: database is locked" ∧ s' = s
  else (∃ row, Session.s_db s' = Db.mk (Db.Logs (st ++ [row])) false
               ∧ timestamp row = strftime ISO now
               ∧ operatore row = slice_to 10 (strip (App.f_operatore f)))
       ∧ ((∀ ok log, o ≠ App.Deployed ok log) →
          Session.s_trace s' = Session.s_trace s).
Proof.
  intros E1 E2 E3 E4 E5 Hnan He Ha Hop Hfile E.
  unfold Session.save_record, Session.save_record_body, Session.lift in E.
  rewrite E1, E2, E3, E4, E5 in E.
  unfold mbind, M_bind, bind in E. cbn [mret M_ret ret] in E.
  rewrite (truthy_nonempty _ Hop), operatore_slice in E. cbn [negb] in E.
  unfold Session.insert, Db.insert_record in E. rewrite Hfile in E.
  destruct (Db.db_locked (Session.s_db s)) eqn:Hl.
  - injection E as <- <-. split; [reflexivity|]. by destruct s.
  - apply Forall_cons in Hnan as [N1 Hnan]. apply Forall_cons in Hnan as [N2 Hnan].
    apply Forall_cons in Hnan as [N3 Hnan]. apply Forall_cons in Hnan as [N4 Hnan].
    apply Forall_cons in Hnan as [N5 _].
    destruct (sql_real_not_nan "o2" v1 N1) as [w1 S1].
    destruct (sql_real_not_nan "rh1" v2 N2) as [w2 S2].
    destruct (sql_real_not_nan "temp1" v3 N3) as [w3 S3].
    destruct (sql_real_not_nan "rh2" v4 N4) as [w4 S4].
    destruct (sql_real_not_nan "temp2" v5 N5) as [w5 S5].
    rewrite (insert_record_ok now v1 v2 v3 v4 v5 _ _ _ st w1 w2 w3 w4 w5) in E
      by assumption.
    unfold Session.publish_cycle in E.
    cbn [Session.s_db Session.s_fs Session.s_trace] in E.
    destruct (Session._generate_dashboard_to_fixed_dir _ _ _ _ _ _ _)
      as [[e|r] fs'] eqn:Eg.
    + assert (s' = Session.mk
                (Db.mk (Db.Logs (st ++
                   [Row (strftime ISO now) w1 w2 w3 w4 w5 (App.f_elio f)
                        (App.f_aspirazione f)
                        (slice_to 10 (strip (App.f_operatore f)))])) false)
                fs' (Session.s_trace s)) as ->
        by (destruct e; by injection E as _ <-).
      split; [by eexists|]. reflexivity.
    + destruct (deploy_contained (set_fs h fs') os_popen (App.DASH_DIR h)
                  (Session.s_trace s)) as ([ok log] & evs & Ed & _).
      rewrite Ed in E. injection E as <- <-. split; [by eexists|].
      intros Hno. by destruct (Hno ok log).
Qed.

(** The column of the first NaN among the five values. *)
Lemma insert_record_nan now v1 v2 v3 v4 v5 elio asp op (st : store) :
  Exists (λ v, v = NaN) [v1; v2; v3; v4; v5] →
  ∃ column,
    column ∈ ["o2"; "rh1"; "temp1"; "rh2"; "temp2"]
    ∧ insert_record now v1 v2 v3 v4 v5 elio asp op st
      = (inl (IntegrityError ("NOT NULL constraint failed: logs." +:+ column)), st).
Proof.
  intros Hnan. unfold insert_record.
  destruct (sql_real "o2" v1) as [e1|w1] eqn:S1.
  { exists "o2". split; [apply list_elem_of_In; cbn; tauto|].
    destruct v1 as [? [|?] ?| |]; try discriminate. by injection S1 as <-. }
  destruct (sql_real "rh1" v2) as [e2|w2] eqn:S2.
  { exists "rh1". split; [apply list_elem_of_In; cbn; tauto|].
    destruct v2 as [? [|?] ?| |]; try discriminate. by injection S2 as <-. }
  destruct (sql_real "temp1" v3) as [e3|w3] eqn:S3.
  { exists "temp1". split; [apply list_elem_of_In; cbn; tauto|].
    destruct v3 as [? [|?] ?| |]; try discriminate. by injection S3 as <-. }
  destruct (sql_real "rh2" v4) as [e4|w4] eqn:S4.
  { exists "rh2". split; [apply list_elem_of_In; cbn; tauto|].
    destruct v4 as [? [|?] ?| |]; try discriminate. by injection S4 as <-. }
  destruct (sql_real "temp2" v5) as [e5|w5] eqn:S5.
  { exists "temp2". split; [apply list_elem_of_In; cbn; tauto|].
    destruct v5 as [? [|?] ?| |]; try discriminate. by injection S5 as <-. }
  exfalso. rewrite !Exists_cons, Exists_nil in Hnan.
  destruct Hnan as [->|[->|[->|[->|[->|[]]]]]]; discriminate.
Qed.

(** X23. A value that [float] reads as NaN is refused by the table.  When
    the form passes the checks of [save_record] but one of its five values
    is NaN, on a database that holds the table and that no connection has
    locked, the insert fails on the [NOT NULL] constraint of a sensor
    column and the outcome is the general error dialog with the message of
    [sqlite3]; no row is stored, no file written and no subprocess
    started.  But the connection of the failed insert is left open with
    the write lock: until the garbage collector frees it, every later
    save ends in a validation error or in [database is locked], and stores
    nothing. *)
Theorem save_record_nan f now nf nn (s : Session.session) st v1 v2 v3 v4 v5 :
  App.parse_float (App.f_o2 f) "Percentuale O2" = inr v1 →
  App.parse_float (App.f_rh1 f) "RH Umidità 1" = inr v2 →
  App.parse_float (App.f_temp1 f) "Temperatura 1" = inr v3 →
  App.parse_float (App.f_rh2 f) "RH Umidità 2" = inr v4 →
  App.parse_float (App.f_temp2 f) "Temperatura 2" = inr v5 →
  strip (App.f_operatore f) ≠ "" →
  Exists (λ v, v = NaN) [v1; v2; v3; v4; v5] →
  Session.s_db s = Db.mk (Db.Logs st) false →
  let s1 := Session.mk (Db.mk (Db.Logs st) true) (Session.s_fs s) (Session.s_trace s) in
  (∃ column,
     column ∈ ["o2"; "rh1"; "temp1"; "rh2"; "temp2"]
     ∧ session_save_record f now nf nn s
       = (App.Failed ("Si è verificato un errore: NOT NULL constraint failed: logs."
                      +:+ column), s1))
  ∧ (∀ f' now' nf' nn',
       ∃ o, session_save_record f' now' nf' nn' s1 = (o, s1)
            ∧ ((∃ msg, o = App.ValidationError msg)
               ∨ o = App.Failed "Si è verificato un errore: database is locked"))
  ∧ Session.mk (Db.collect (Session.s_db s1)) (Session.s_fs s1) (Session.s_trace s1) = s.
Proof.
  intros E1 E2 E3 E4 E5 Hop Hnan Hdb s1. split; [|split].
  - destruct (insert_record_nan now v1 v2 v3 v4 v5 (App.f_elio f) (App.f_aspirazione f)
                (slice_to 10 (strip (App.f_operatore f))) st Hnan) as (column & Hc & Ei).
    exists column. split; [exact Hc|].
    unfold Session.save_record, Session.save_record_body, Session.lift.
    rewrite E1, E2, E3, E4, E5.
    unfold mbind, M_bind, bind. cbn [mret M_ret ret].
    rewrite (truthy_nonempty _ Hop), operatore_slice. cbn [negb].
    unfold Session.insert, Db.insert_record. rewrite Hdb.
    cbn [Db.db_file Db.db_locked]. rewrite Ei. reflexivity.
  - intros f' now' nf' nn'. unfold Session.save_record.
    destruct (session_save_record_body_cases f' now' nf' nn' s1)
      as [[msg ->]|(w1 & w2 & w3 & w4 & w5 & _ & _ & _ & _ & _ & _ & ->)].
    + eexists. split; [reflexivity|]. left. by eexists.
    + eexists. split; [reflexivity|]. by right.
  - subst s1. unfold Db.collect. cbn. rewrite <- Hdb. by destruct s.
Qed.

(** The [try] block on the database and on the table alone. *)
Lemma save_record_body_agrees f now nf nn (st : store) fs tr r (a' : App.app) :
  App.save_record_body h os_popen html_template chart_offline f now nf nn
    (App.mk st fs tr) = (r, a') →
  ∃ locked,
    Session.save_record_body h os_popen html_template chart_offline f now nf nn
      (Session.mk (Db.mk (Db.Logs st) false) fs tr)
    = (r, Session.mk (Db.mk (Db.Logs (App.app_store a')) locked)
            (App.app_fs a') (App.app_trace a'))
    ∧ (locked = true → a' = App.mk st fs tr ∧ ∃ e, r = inl e).
Proof.
  unfold App.save_record_body, Session.save_record_body, App.lift, Session.lift.
  unfold mbind, M_bind, bind. cbn [mret M_ret ret].
  destruct (App.parse_float (App.f_o2 f) _) as [e|v1];
    [intros [= <- <-]; by exists false|].
  destruct (App.parse_float (App.f_rh1 f) _) as [e|v2];
    [intros [= <- <-]; by exists false|].
  destruct (App.parse_float (App.f_temp1 f) _) as [e|v3];
    [intros [= <- <-]; by exists false|].
  destruct (App.parse_float (App.f_rh2 f) _) as [e|v4];
    [intros [= <- <-]; by exists false|].
  destruct (App.parse_float (App.f_temp2 f) _) as [e|v5];
    [intros [= <- <-]; by exists false|].
  cbn [mret M_ret ret].
  destruct (negb (PyStr.truthy _)); [intros [= <- <-]; by exists false|].
  unfold App.insert, Session.insert, Db.insert_record.
  cbn [App.app_store App.app_fs App.app_trace Session.s_db Session.s_fs
       Session.s_trace Db.db_file Db.db_locked].
  match goal with |- context [insert_record ?n ?x1 ?x2 ?x3 ?x4 ?x5 ?el ?as_ ?op st] =>
    destruct (insert_record_spec n x1 x2 x3 x4 x5 el as_ op st)
      as [[err ->]|(row & -> & _)]
  end.
  - intros [= <- <-]. exists true. split; [reflexivity|]. intros _. split; [done|by eexists].
  - unfold App.publish_cycle, Session.publish_cycle,
      Session._generate_dashboard_to_fixed_dir.
    cbn [App.app_store App.app_fs App.app_trace Session.s_db Session.s_fs
         Session.s_trace Db.db_file Db.db_locked].
    destruct (App._generate_dashboard_to_fixed_dir _ _ _ _ _ _ _) as [[e|r0] fs'].
    + intros [= <- <-]. by exists false.
    + destruct (Dispatcher.deploy_to_surge _ _ _ _) as [r' tr'].
      intros [= <- <-]. by exists false.
Qed.

(** X26. On a database that holds the table and that no connection has
    locked, [save_record] does what it does on the table alone: the same
    dialog or verdict, the same rows, files and subprocess events.  The
    write lock is left behind only when nothing was stored and the deploy
    was not reached. *)
Theorem save_record_agrees f now nf nn (st : store) fs tr o (a' : App.app) :
  App.save_record h os_popen html_template chart_offline f now nf nn
    (App.mk st fs tr) = (o, a') →
  ∃ locked,
    Session.save_record h os_popen html_template chart_offline f now nf nn
      (Session.mk (Db.mk (Db.Logs st) false) fs tr)
    = (o, Session.mk (Db.mk (Db.Logs (App.app_store a')) locked)
            (App.app_fs a') (App.app_trace a'))
    ∧ (locked = true → a' = App.mk st fs tr ∧ ∀ ok log, o ≠ App.Deployed ok log).
Proof.
  unfold App.save_record, Session.save_record.
  destruct (App.save_record_body _ _ _ _ _ _ _ _ _) as [r a1] eqn:Eb.
  destruct (save_record_body_agrees _ _ _ _ _ _ _ _ _ Eb) as (locked & -> & Hl).
  intros E. exists locked.
  destruct r as [e|[ok log]].
  - destruct e; injection E as <- <-; (split; [reflexivity|]);
      intros Hlk; (split; [by apply Hl|done]).
  - injection E as <- <-. split; [reflexivity|].
    intros Hlk. destruct (Hl Hlk) as [_ [e He]]. discriminate.
Qed.
End SessionExtras.
(** ** The further properties on the scenarios *)

Section Instances.
Import DateTime PyVal Store Scenario Cases.

Lemma insert_then_latest_witness :
  let st' := (insert_record jan10_later o2_ok rh1_ok temp1_ok rh2_ok temp2_ok
                "SI" "NO" "MRossi" three_readings).2 in
  ∃ last, fetch_last_record st' = Some last
          ∧ timestamp last = "2024-01-10 08:00:07".
Proof.
  intros st'.
  destruct (insert_then_latest jan10_later o2_ok rh1_ok temp1_ok rh2_ok temp2_ok
              "SI" "NO" "MRossi" three_readings st' "2024-01-10 08:00:07")
    as (_ & H & _).
  - exact canonical_three_readings.
  - reflexivity.
  - intros r Hr. apply list_elem_of_In in Hr. cbn in Hr.
    destruct Hr as [<-|[<-|[<-|[]]]]; vm_compute; discriminate.
  - vm_compute. reflexivity.
  - exact H.
Defined.

Lemma normalize_to_iso_idempotent_witness :
  canonical "2024-01-10 00:00:00"
  ∧ normalize_to_iso "2024-01-10 00:00:00" false = inr "2024-01-10 00:00:00"
  ∧ String.length "2024-01-10 00:00:00" = 19%nat.
Proof.
  apply (normalize_to_iso_idempotent "10/01/2024" true false).
  vm_compute. reflexivity.
Defined.

Lemma fetch_records_error_witness :
  (date_error = date_error
   ∧ (∀ e', Db.db_file db_foreign ≠ Db.Unreadable true e')
   ∧ ∃ bound, (Some "ieri" = Some bound ∨ None = Some bound) ∧ bound ≠ ""
              ∧ parse_it_date bound = inl date_error)
  ∨ (∃ at_connect, Db.db_file db_foreign = Db.Unreadable at_connect date_error).
Proof.
  apply (fetch_records_error (Some "ieri") None db_foreign date_error).
  vm_compute. reflexivity.
Defined.

Lemma fetch_records_whole_days_witness :
  ∃ rows,
    fetch_records (Some "20/12/2023") (Some "10/01/2024") three_readings = inr rows
    ∧ rows ≡ₚ filter (λ r, toordinal dec20 * 86400 ≤ seconds_of (timestamp r)
                           < (toordinal jan10 + 1) * 86400) three_readings
    ∧ StronglySorted time_le rows.
Proof.
  apply (fetch_records_whole_days dec20 jan10 three_readings).
  - reflexivity.
  - reflexivity.
  - exact canonical_three_readings.
Defined.

Lemma save_record_invalid_form_witness :
  ∃ msg,
    App.save_record host_tools spawner_surge_fails plain_template false
      form_blank_operator jan10 jan10 jan10 (App.mk three_readings fs_ready [])
    = (App.ValidationError msg, App.mk three_readings fs_ready []).
Proof.
  apply (save_record_invalid_form host_tools spawner_surge_fails plain_template false).
  left. vm_compute. reflexivity.
Defined.

Lemma save_record_row_witness :
  let a' := (App.save_record host_tools spawner_surge_fails plain_template false
               form_long_name jan10 jan10 jan10 (App.mk [] fs_ready [])).2 in
  ∃ row, App.app_store a' = [] ++ [row]
         ∧ timestamp row = "2024-01-10 08:00:00"
         ∧ operatore row = "Niccolò Ro"
         ∧ (len (operatore row) ≤ 10)%nat.
Proof.
  intros a'.
  destruct (save_record_row host_tools spawner_surge_fails plain_template false
              form_long_name jan10 jan10 jan10 (App.mk [] fs_ready []) a'
              (App.Deployed true "npx-ok"))
    as [H|(v1 & v2 & v3 & v4 & v5 & w1 & w2 & w3 & w4 & w5 & op & H & _ & _ & _ & _ & _
           & _ & _ & _ & _ & _ & _ & _ & _ & Hop & _ & Hl)].
  - vm_compute. reflexivity.
  - vm_compute in H. discriminate H.
  - eexists. split; [exact H|]. split; [reflexivity|]. split; [exact Hop|exact Hl].
Defined.

Lemma save_record_deployed_witness :
  let a' := (App.save_record host_tools spawner_surge_fails plain_template false
               form_ok jan10 jan10 jan10 (App.mk [] fs_ready [])).2 in
  ∃ html, fs_files (App.app_fs a') !! App.LATEST host_tools = Some html
          ∧ fs_files (App.app_fs a') !! App.ARCHIVE host_tools jan10 = Some html
          ∧ fs_files (App.app_fs a') !! App.INDEX host_tools = Some html.
Proof.
  intros a'.
  destruct (save_record_deployed host_tools spawner_surge_fails plain_template false
              form_ok jan10 jan10 jan10 (App.mk [] fs_ready []) a' true "npx-ok")
    as (_ & (html & HL & HA & _ & HI) & _).
  - vm_compute. reflexivity.
  - exists html. split; [exact HL|]. split; [exact HA|].
    apply HI. left. vm_compute. reflexivity.
Defined.

Lemma deploy_success_sound_witness :
  let tr' := (Dispatcher.deploy_to_surge host_tools spawner_surge_fails dash_dir []).2 in
  ∃ cmd timeout evs,
    Subprocess._run_subprocess host_tools spawner_surge_fails cmd None timeout None
      ([] ++ evs) = (inr (0, "npx-ok"), tr')
    ∧ ((∃ surge_cmd, Resolver._which_executable host_tools ["surge"] = Some surge_cmd
                     ∧ cmd = [surge_cmd; dash_dir; Dispatcher.SURGE_DOMAIN; "--yes"]
                     ∧ timeout = 240)
       ∨ (∃ npx_cmd, Resolver._which_executable host_tools ["npx"] = Some npx_cmd
                     ∧ cmd = [npx_cmd; "surge"; dash_dir; Dispatcher.SURGE_DOMAIN; "--yes"]
                     ∧ timeout = 300)).
Proof.
  intros tr'.
  apply (deploy_success_sound host_tools spawner_surge_fails dash_dir [] "npx-ok" tr').
  vm_compute. reflexivity.
Defined.

Lemma deploy_failure_transcript_witness :
  ∃ direct runner,
    "[surge] rc=1" +:+ Dispatcher.nl +:+ "boom" +:+ Dispatcher.nl
      +:+ "[npx surge] rc=1" +:+ Dispatcher.nl +:+ "boom"
    = direct +:+ Dispatcher.nl +:+ runner
    ∧ PyStr.startswith "[surge]" direct = true
    ∧ PyStr.startswith "[npx surge]" runner = true.
Proof.
  destruct (deploy_failure_transcript host_tools spawner_all_fail dash_dir []
              ("[surge] rc=1" +:+ Dispatcher.nl +:+ "boom" +:+ Dispatcher.nl
                 +:+ "[npx surge] rc=1" +:+ Dispatcher.nl +:+ "boom")
              (Dispatcher.deploy_to_surge host_tools spawner_all_fail dash_dir []).2)
    as (direct & runner & E & Hd & Hr).
  - vm_compute. reflexivity.
  - exists direct, runner. split; [exact E|]. split.
    + destruct Hd as [[Hs _]|(s & rc & out & t1 & t2 & _ & _ & _ & ->)];
        [vm_compute in Hs; discriminate Hs|reflexivity].
    + destruct Hr as [[Hn _]|(n & rc & out & t3 & _ & _ & _ & ->)];
        [vm_compute in Hn; discriminate Hn|reflexivity].
Defined.

Lemma deploy_direct_success_witness :
  ∃ evs,
    Dispatcher.deploy_to_surge host_tools spawner_ok dash_dir []
    = (inr (true, "ok"), [] ++ evs)
    ∧ ∀ c kw, EvPopen c kw ∈ evs → head c = Some "/usr/bin/surge".
Proof.
  apply (deploy_direct_success host_tools spawner_ok dash_dir "/usr/bin/surge" "ok" []).
  - vm_compute. reflexivity.
  - intros tr1. reflexivity.
Defined.

Lemma login_checks_disagree_witness :
  (Dispatcher._surge_login_if_needed host_tools spawner_not_logged "/usr/bin/surge" []).1
  = inr (true, "Not logged in").
Proof.
  destruct (login_checks_disagree host_tools spawner_not_logged "/usr/bin/surge"
              "Not logged in" []
              (Subprocess._run_subprocess host_tools spawner_not_logged
                 ["/usr/bin/surge"; "whoami"] None 30 None []).2)
    as [H _].
  - vm_compute. reflexivity.
  - vm_compute. reflexivity.
  - rewrite H. reflexivity.
Defined.

Lemma possible_node_dirs_spec_witness :
  Resolver._possible_node_dirs host_bare = [].
Proof.
  destruct (possible_node_dirs_spec host_bare) as (_ & _ & H).
  apply H. intros k _. left. reflexivity.
Defined.

Lemma which_executable_sound_complete_witness :
  isfile (h_fs host_windows) "C:\Program Files\nodejs\npx.cmd" = true.
Proof.
  destruct (proj1 (which_executable_sound_complete host_windows ["npx"])
              "C:\Program Files\nodejs\npx.cmd")
    as [(n & _ & Hw & _)|(_ & Hf & _)].
  - vm_compute. reflexivity.
  - vm_compute in Hw. discriminate Hw.
  - exact Hf.
Defined.

Lemma it_ts_display_canonical_witness :
  Dashboard.it_ts_display "2024-01-10 08:00:00" = "10/01/24 08:00".
Proof. exact (it_ts_display_canonical jan10 eq_refl). Defined.

Lemma default_name_safe_witness :
  "_"%char ≠ " "%char ∧ "_"%char ≠ ":"%char ∧ "_"%char ≠ "/"%char.
Proof.
  apply (proj1 (default_name_safe (Some "01/01/2024 08:00") None)).
  apply list_elem_of_In. vm_compute. tauto.
Defined.

Lemma refresh_blank_filters_witness :
  Viewer.refresh "  " "" db_one_reading = Viewer.refresh_main_registry db_one_reading
  ∧ (∃ rows, Viewer.refresh_main_registry db_one_reading
             = inr (map Viewer.row_values rows)
             ∧ rows ≡ₚ one_reading ∧ StronglySorted ts_le rows)
  ∧ Viewer.refresh_main_registry db_foreign = inl "file is not a database".
Proof.
  destruct (refresh_blank_filters "  " "" db_one_reading eq_refl eq_refl)
    as (H1 & H2 & _).
  destruct (refresh_blank_filters "" "" db_foreign eq_refl eq_refl) as (_ & _ & H3).
  split; [exact H1|]. split; [exact (H2 one_reading eq_refl)|].
  exact (H3 false (DatabaseError "file is not a database") eq_refl).
Defined.

Lemma do_export_html_frame_witness :
  let fs' := (Viewer.do_export_html "01/01/2024" "" "/tmp/registro.html" jan10
                three_readings fs_ready).2 in
  ∃ records,
    fetch_records (Some "01/01/2024") None three_readings = inr records
    ∧ fs_files fs' !! "/tmp/registro.html"
      = Some (Viewer.export_document records (Some "01/01/2024") None jan10)
    ∧ fs_dirs fs' = fs_dirs fs_ready.
Proof.
  intros fs'.
  destruct (do_export_html_frame "01/01/2024" "" "/tmp/registro.html" jan10
              three_readings fs_ready (Viewer.Exported "/tmp/registro.html") fs')
    as [[_ H]|(records & _ & _ & _ & Hq & Hf & _ & Hd & _)].
  - vm_compute. reflexivity.
  - by destruct (H "/tmp/registro.html").
  - exists records. split; [exact Hq|]. split; [exact Hf|exact Hd].
Defined.

Lemma choose_chart_tag_spec_witness :
  path_exists (Dashboard.choose_chart_tag host_chart dash_dir true fs_chart).2
    "/opt/mri/dashboardmri/chart.umd.min.js" = true.
Proof.
  destruct (choose_chart_tag_spec host_chart dash_dir true fs_chart)
    as (tag & fs' & E & _ & Hlocal & _).
  assert (E' : Dashboard.choose_chart_tag host_chart dash_dir true fs_chart
               = (inr Dashboard.CHART_LOCAL,
                  (Dashboard.choose_chart_tag host_chart dash_dir true fs_chart).2))
    by (vm_compute; reflexivity).
  rewrite E' in E. injection E as <- <-. exact (proj2 (Hlocal eq_refl)).
Defined.

Lemma load_config_defaults_witness :
  Config.load_config (inr config_file) !! "chart_offline" = Some (Config.JBool true)
  ∧ Config.load_config (inr config_file) !! "dashboard_dir" = Some (Config.JStr "")
  ∧ Config.load_config (inr config_file) !! "theme" = Some (Config.JStr "dark").
Proof.
  destruct (load_config_defaults (inr config_file)) as (_ & _ & _ & H).
  rewrite !(H _ _ eq_refl). repeat split; vm_compute; reflexivity.
Defined.

Lemma save_record_keeps_reading_witness :
  let r := Session.save_record host_tools spawner_ok plain_template false
             form_ok jan10 jan10 jan10 (Session.mk db_one_reading fs_locked []) in
  r.1 = App.Failed "Si è verificato un errore: Permission denied"
  ∧ (∃ row, Session.s_db r.2 = Db.mk (Db.Logs (one_reading ++ [row])) false
            ∧ timestamp row = "2024-01-10 08:00:00"
            ∧ operatore row = "MRossi")
  ∧ Session.s_trace r.2 = [].
Proof.
  intros r.
  assert (Er : r.1 = App.Failed "Si è verificato un errore: Permission denied")
    by (vm_compute; reflexivity).
  split; [exact Er|].
  destruct (save_record_keeps_reading host_tools spawner_ok plain_template false
              form_ok jan10 jan10 jan10 (Session.mk db_one_reading fs_locked []) r.2 r.1
              one_reading o2_ok rh1_ok temp1_ok rh2_ok temp2_ok) as [Hrow Htr];
    try (vm_compute; reflexivity).
  - repeat constructor; vm_compute; discriminate.
  - vm_compute. discriminate.
  - split; [exact Hrow|]. apply Htr. intros ok log. rewrite Er. discriminate.
Defined.

Lemma popen_no_window_kwargs_witness :
  ∃ kw',
    (Subprocess._popen_no_window host_windows spawner_ok ["npx"]
       {["text" := KBool true]} []).2 = [] ++ [EvPopen ["npx"] kw']
    ∧ kw' !! "text" = Some (KBool true)
    ∧ kw' !! "startupinfo" = Some (KStartupInfo 1 0).
Proof.
  destruct (popen_no_window_kwargs host_windows spawner_ok ["npx"]
              {["text" := KBool true]} [] child_ok
              (Subprocess._popen_no_window host_windows spawner_ok ["npx"]
                 {["text" := KBool true]} []).2)
    as (kw' & Htr & _ & Hkeep & _ & _ & _ & Hwin & _).
  - left. reflexivity.
  - vm_compute. reflexivity.
  - exists kw'. split; [exact Htr|]. split.
    + apply Hkeep; [reflexivity|discriminate|discriminate].
    + exact (proj1 (Hwin eq_refl)).
Defined.

Lemma parse_float_decimal_comma_witness :
  App.parse_float "20.90" "Percentuale O2" = inr o2_ok.
Proof.
  apply (parse_float_decimal_comma "20,90" "Percentuale O2" "Percentuale O2" o2_ok).
  vm_compute. reflexivity.
Defined.

Lemma save_record_nan_witness :
  let s := Session.mk db_one_reading fs_ready [] in
  let s1 := Session.mk (Db.mk (Db.Logs one_reading) true) fs_ready [] in
  (∃ column,
     column ∈ ["o2"; "rh1"; "temp1"; "rh2"; "temp2"]
     ∧ Session.save_record host_tools spawner_ok plain_template false form_nan
         jan10 jan10 jan10 s
       = (App.Failed ("Si è verificato un errore: NOT NULL constraint failed: logs."
                      +:+ column), s1))
  ∧ (∃ o, Session.save_record host_tools spawner_ok plain_template false form_ok
            jan10_later jan10_later jan10_later s1 = (o, s1)
          ∧ ((∃ msg, o = App.ValidationError msg)
             ∨ o = App.Failed "Si è verificato un errore: database is locked")).
Proof.
  intros s s1.
  destruct (save_record_nan host_tools spawner_ok plain_template false form_nan
              jan10 jan10 jan10 s one_reading NaN rh1_ok temp1_ok rh2_ok temp2_ok)
    as (H1 & H2 & _); try (vm_compute; reflexivity).
  - vm_compute. discriminate.
  - by left.
  - split; [exact H1|]. exact (H2 form_ok jan10_later jan10_later jan10_later).
Defined.

Lemma save_record_agrees_witness :
  let r := App.save_record host_tools spawner_ok plain_template false form_nan
             jan10 jan10 jan10 (App.mk one_reading fs_ready []) in
  ∃ locked,
    Session.save_record host_tools spawner_ok plain_template false form_nan
      jan10 jan10 jan10 (Session.mk (Db.mk (Db.Logs one_reading) false) fs_ready [])
    = (r.1, Session.mk (Db.mk (Db.Logs (App.app_store r.2)) locked)
              (App.app_fs r.2) (App.app_trace r.2))
    ∧ (locked = true →
       r.2 = App.mk one_reading fs_ready [] ∧ ∀ ok log, r.1 ≠ App.Deployed ok log).
Proof.
  intros r.
  apply (save_record_agrees host_tools spawner_ok plain_template false form_nan
           jan10 jan10 jan10 one_reading fs_ready [] r.1 r.2).
  apply surjective_pairing.
Defined.

Lemma format_num_total_witness :
  two_decimals (Dashboard.format_num (o2 reading))
  ∧ ∃ fs', Dashboard.generate_dashboard_html host_bare plain_template one_reading
             jan10 jan10_later (App.DASH_DIR host_bare) false fs_ready
           = (inr (App.LATEST host_bare, App.ARCHIVE host_bare jan10_later), fs').
Proof.
  destruct (format_num_total host_bare plain_template) as (_ & H2 & _ & H4 & _).
  split.
  - apply (H2 (o2 reading) (fl "20.90")); reflexivity.
  - apply (H4 one_reading jan10 jan10_later false fs_ready reading [reading]);
      vm_compute; reflexivity.
Defined.

Lemma commit_idempotent_witness :
  let fs1 := (App.commit host_bare jan10 page_cr fs_no_copy2).2 in
  let fs2 := (App.commit host_bare jan10_later page_cr fs1).2 in
  fs_files fs1 !! App.LATEST host_bare = Some page_cr
  ∧ fs_files fs2 !! App.LATEST host_bare = Some page_cr
  ∧ fs_files fs1 !! App.INDEX host_bare = fs_files fs2 !! App.INDEX host_bare
  ∧ fs_files fs2 !! App.ARCHIVE host_bare jan10 = Some page_cr
  ∧ fs_files fs2 !! App.ARCHIVE host_bare jan10_later = Some page_cr
  ∧ fs_files fs1 !! App.INDEX host_bare
    = Some (read_back (h_linesep host_bare) page_cr).
Proof.
  intros fs1 fs2.
  destruct (commit_idempotent host_bare page_cr jan10 jan10_later fs_no_copy2 fs1 fs2
              (App.LATEST host_bare, App.ARCHIVE host_bare jan10)
              (App.LATEST host_bare, App.ARCHIVE host_bare jan10_later))
    as (_ & _ & L1 & L2 & I12 & _ & A2 & A1 & _ & Hfb & _);
    [vm_compute; reflexivity | vm_compute; reflexivity |].
  split; [exact L1|]. split; [exact L2|]. split; [exact I12|].
  split; [exact A1|]. split; [exact A2|]. apply Hfb. reflexivity.
Defined.

End Instances.
